(** * WoWbjectImporter: the WMO import pipeline of [import_wmo.py]

    A shallow embedding of the OBJ reader ([read_obj]), of the group
    reconciliation loop of [import_wmo] and of the mesh builder
    ([wmo_setup_blender_object]), with the properties of the written
    specification stated against it.

    Conventions.
    - Python [bytes] are Rocq strings (a string is a sequence of 8-bit
      characters), and so are the Python strings of names, which are taken
      to be ASCII; Python [int] is [Z]; a Python exception is the [Raise]
      branch of [result].
    - Python's builtins whose values cannot be represented here ([float],
      [bytes.decode], [str] of a bytes object) and the helpers of the add-on
      that live in other modules ([wmo_read_color], [wmo_read_group_flags],
      [JsonWmoMetadata.from_dict]) are the fields of the class [Externals].
    - Blender's [bmesh] is modelled by the part of its behaviour the builder
      relies on: vertices are handles in creation order, and [faces.new]
      refuses a face that repeats a vertex or whose vertex set is already a
      face.
    - The other calls into Blender are taken to succeed: [verts.new] is
      given a coordinate as it is (Blender raises ValueError for one that
      has not three numbers), and what [wmo_setup_blender_object] does to
      the mesh and the object after its loops ([bm.to_mesh], the linking to
      a collection, the operators on the selection, the origin and the
      shading, which raise when their poll fails) is not modelled. The
      statements about the builder are therefore about the data it builds
      and about the failures of its loops and lookups, not about every
      exception that a run in Blender can end with. *)

From Stdlib Require Import ZArith String Ascii DecimalString.
From Stdlib Require DecimalNat DecimalFacts.
From stdpp Require Import gmap strings list.

Local Open Scope Z_scope.

(** ** Exceptions and results *)

Inductive exn : Type :=
| RuntimeError (msg : string)
| ValueError (msg : string)
| IndexError
| KeyError
| TypeError
| AttributeError
| UnicodeDecodeError
| JSONDecodeError
| OSError.

Inductive result (A : Type) : Type :=
| Ok (a : A)
| Raise (e : exn).
Arguments Ok {A} a.
Arguments Raise {A} e.

#[global] Instance result_ret : MRet result := λ A a, Ok a.
#[global] Instance result_bind : MBind result := λ A B k m,
  match m with
  | Ok a => k a
  | Raise e => Raise e
  end.

#[global] Instance result_fmap : FMap result := λ A B f m,
  match m with
  | Ok a => Ok (f a)
  | Raise e => Raise e
  end.

Definition of_option {A} (e : exn) (o : option A) : result A :=
  match o with
  | Some a => Ok a
  | None => Raise e
  end.

(** [[f(x) for x in l]] with a fallible [f]: the first failure aborts. *)
Fixpoint mapM {A B} (f : A → result B) (l : list A) : result (list B) :=
  match l with
  | [] => Ok []
  | x :: l' => y ← f x ; ys ← mapM f l' ; Ok (y :: ys)
  end.

(** [for x in l: st = body(st, x)] with a fallible body. *)
Fixpoint foldM {S A} (body : S → A → result S) (st : S) (l : list A) : result S :=
  match l with
  | [] => Ok st
  | x :: l' => st' ← body st x ; foldM body st' l'
  end.

Definition is_ok {A} (r : result A) : bool :=
  match r with Ok _ => true | Raise _ => false end.

(** ** Python sequences *)

Module Py.

Definition len {A} (l : list A) : Z := Z.of_nat (length l).

(** [l[i]]: a negative index counts from the end; outside
    [-len, len) raises IndexError. *)
Definition norm_index {A} (l : list A) (i : Z) : option nat :=
  if 0 <=? i then
    (if i <? len l then Some (Z.to_nat i) else None)
  else
    (if 0 <=? i + len l then Some (Z.to_nat (i + len l)) else None).

Definition index {A} (l : list A) (i : Z) : result A :=
  match norm_index l i with
  | Some n => of_option IndexError (l !! n)
  | None => Raise IndexError
  end.

(** [l[i] = f(l[i])], for the in-place update of an element. *)
Definition update {A} (l : list A) (i : Z) (f : A → A) : result (list A) :=
  match norm_index l i with
  | Some n => Ok (alter f n l)
  | None => Raise IndexError
  end.

(** A slice bound is clamped into [0, len], after a negative one has
    been shifted by [len]. *)
Definition clamp {A} (l : list A) (i : Z) : nat :=
  if i <? 0 then Z.to_nat (Z.max (i + len l) 0)
  else Z.to_nat (Z.min i (len l)).

(** [l[start:stop]] *)
Definition slice {A} (l : list A) (start stop : Z) : list A :=
  take (clamp l stop - clamp l start)%nat (drop (clamp l start) l).

(** [l[start:]] *)
Definition slice_from {A} (l : list A) (start : Z) : list A :=
  drop (clamp l start) l.

(** [[0 for _ in range(n)]] *)
Definition zeros (n : Z) : list Z := replicate (Z.to_nat n) 0.

(** ASCII whitespace, as [bytes.split()] sees it. *)
Definition is_space (c : ascii) : bool :=
  match N_of_ascii c with
  | 9%N | 10%N | 11%N | 12%N | 13%N | 32%N => true
  | _ => false
  end.

Definition flush (cur : list ascii) : list string :=
  match cur with
  | [] => []
  | _ => [string_of_list_ascii (rev cur)]
  end.

Fixpoint split_go (cur : list ascii) (s : string) : list string :=
  match s with
  | EmptyString => flush cur
  | String c s' =>
      if is_space c then flush cur ++ split_go [] s'
      else split_go (c :: cur) s'
  end.

(** [line.split()]: maximal runs of non-whitespace bytes. *)
Definition split (s : string) : list string := split_go [] s.

(** [v.split(b'/')[0]]: the bytes before the first slash. *)
Fixpoint before_slash (s : string) : string :=
  match s with
  | EmptyString => EmptyString
  | String c s' =>
      if Ascii.eqb c "/"%char then EmptyString else String c (before_slash s')
  end.

(** Iterating a binary file yields its lines, cut after each newline. *)
Fixpoint lines_go (cur : list ascii) (s : string) : list string :=
  match s with
  | EmptyString => flush cur
  | String c s' =>
      if Ascii.eqb c "010"%char
      then string_of_list_ascii (rev (c :: cur)) :: lines_go [] s'
      else lines_go (c :: cur) s'
  end.

Definition lines (s : string) : list string := lines_go [] s.

Definition digit_val (c : ascii) : option Z :=
  let n := N_of_ascii c in
  if ((48 <=? n) && (n <=? 57))%N then Some (Z.of_N n - 48) else None.

(** The digits of [int(b)], base 10: a digit first, then digits with
    single underscores between them. [prev] tells whether the byte just
    read was a digit. *)
Fixpoint int_digits (acc : Z) (prev : bool) (s : string) : option Z :=
  match s with
  | EmptyString => if prev then Some acc else None
  | String c s' =>
      match digit_val c with
      | Some d => int_digits (10 * acc + d) true s'
      | None =>
          if Ascii.eqb c "_"%char && prev then int_digits acc false s'
          else None
      end
  end.

(** [int(b)] for a bytes token without whitespace: an optional sign and
    the digits; anything else raises ValueError. *)
Definition int (s : string) : result Z :=
  let bad := ValueError "invalid literal for int() with base 10" in
  match s with
  | String "-" s' => of_option bad (Z.opp <$> int_digits 0 false s')
  | String "+" s' => of_option bad (int_digits 0 false s')
  | _ => of_option bad (int_digits 0 false s)
  end.

End Py.

(** ** The metadata of the json sidecar

    The dataclasses of [wbjtypes], with the fields this module reads.
    [possibleBox2] is optional. *)

Record JsonWmoRenderBatch : Type := mkBatch {
  firstVertex : Z;
  lastVertex : Z;
  materialID : Z;
  rb_flags : Z;
  possibleBox2 : option (list Z);
}.

Record JsonWmoGroup : Type := mkGroup {
  groupName : option string;
  groupDescription : option string;
  grp_flags : Z;
  renderBatches : list JsonWmoRenderBatch;
  vertexColours : list (list Z);
}.

Record JsonWmoMaterial : Type := mkMaterial {
  texture1 : Z;
  texture2 : Z;
  texture3 : Z;
  color2 : Z;
}.

Record JsonWmoMetadata : Type := mkMetadata {
  fileName : string;
  groups : list JsonWmoGroup;
  materials : list JsonWmoMaterial;
  ambientColor : Z;
}.

(** A decoded JSON document, as [json.load] returns it. Numbers are
    integers here. *)
#[warnings="-register-all"]
Inductive json : Type :=
| JNull
| JBool (b : bool)
| JNum (z : Z)
| JStr (s : string)
| JArr (l : list json)
| JObj (kv : list (string * json)).

(** What [JsonWmoMetadata.from_dict] does with a document: the metadata,
    or one of the two exceptions of [mashumaro] that [import_wmo] catches. *)
Inductive decoded : Type :=
| Decoded (m : JsonWmoMetadata)
| MissingField (msg : string)
| InvalidFieldValue.

(** ** What the module takes from outside

    [float], [bytes.decode('utf-8')] and [str] on a bytes object are
    builtins; [wmo_read_color] and [wmo_read_group_flags] come from
    [lookup_funcs]. A float is kept abstract. *)

Class Externals : Type := {
  float : Type;
  (** [float(tok)]; [None] when the token is no float literal
      (ValueError) *)
  parse_float : string → option float;
  (** the literal [0.0] *)
  float_zero : float;
  (** [tok.decode('utf-8')]; [None] on invalid input
      (UnicodeDecodeError) *)
  utf8 : string → option string;
  (** [str(tok)] of a bytes token *)
  bytes_str : string → string;
  (** a decoded RGBA colour *)
  fColor4 : Type;
  wmo_read_color : Z → string → fColor4;
  (** the names of the flags set in a group's bit mask *)
  wmo_read_group_flags : Z → list string;
  (** [JsonWmoMetadata.from_dict] *)
  from_dict : json → decoded;
}.

(** ** The data read from the obj file *)

Definition Tri : Type := Z * Z * Z.

(** [ObjGroup]: one object group ([g] section) of the obj. *)
Record ObjGroup : Type := mkObjGroup {
  og_mtlname : option string;
  og_name : option string;
  (** vertex indexes used in the group, 0-based *)
  og_verts : gset Z;
  (** faces of the group, by 1-based vertex indexes *)
  og_faces : list Tri;
}.

(** [ObjGroup()] *)
Definition ObjGroup_new : ObjGroup :=
  {| og_mtlname := None; og_name := None; og_verts := ∅; og_faces := [] |}.

(** ** Effects of the import

    What [import_wmo] does to the world outside is recorded as a trace of
    events, in the order of the calls. *)

Inductive event : Type :=
| EvFromDict
| EvDeselectAll
| EvReadObj
| EvNewMesh (name : string)
| EvNewObject (name : string)
| EvNewMaterial (name : string)
| EvSetupObject (base_name : string).

Record io (A : Type) : Type := IO {
  trace : list event;
  outcome : result A;
}.
Arguments IO {A} trace outcome.
Arguments trace {A} _.
Arguments outcome {A} _.

#[global] Instance io_ret : MRet io := λ A a, IO [] (Ok a).
#[global] Instance io_bind : MBind io := λ A B k m,
  match outcome m with
  | Ok a => IO (trace m ++ trace (k a)) (outcome (k a))
  | Raise e => IO (trace m) (Raise e)
  end.

Definition emit (e : event) : io unit := IO [e] (Ok tt).
Definition lift {A} (r : result A) : io A := IO [] r.
Definition raise {A} (e : exn) : io A := IO [] (Raise e).

Fixpoint forM {A B} (f : A → io B) (l : list A) : io (list B) :=
  match l with
  | [] => mret []
  | x :: l' => y ← f x; ys ← forM f l'; mret (y :: ys)
  end.

(** [not x] for a decoded document *)
Definition json_falsy (j : json) : bool :=
  match j with
  | JNull => true
  | JBool b => negb b
  | JNum z => z =? 0
  | JStr s => String.eqb s ""
  | JArr l => match l with [] => true | _ => false end
  | JObj kv => match kv with [] => true | _ => false end
  end.

(** The value of a key of an object; the last occurrence wins, as in
    the dict that [json.load] builds. *)
Fixpoint obj_get (kv : list (string * json)) (k : string) : option json :=
  match kv with
  | [] => None
  | (k', v) :: kv' =>
      match obj_get kv' k with
      | Some v' => Some v'
      | None => if String.eqb k' k then Some v else None
      end
  end.

(** [j[k]] with a string key *)
Definition json_item (j : json) (k : string) : result json :=
  match j with
  | JObj kv => of_option KeyError (obj_get kv k)
  | _ => Raise TypeError
  end.

(** [needle in s] for two strings *)
Fixpoint contains (needle s : string) : bool :=
  String.prefix needle s ||
  match s with
  | EmptyString => false
  | String _ s' => contains needle s'
  end.

Definition json_eq_str (j : json) (s : string) : bool :=
  match j with
  | JStr s' => String.eqb s' s
  | _ => false
  end.

(** [needle in j] *)
Definition json_contains (needle : string) (j : json) : result bool :=
  match j with
  | JStr s => Ok (contains needle s)
  | JArr l => Ok (existsb (λ x, json_eq_str x needle) l)
  | JObj kv => Ok (existsb (λ p, String.eqb p.1 needle) kv)
  | _ => Raise TypeError
  end.

(** What [import_wmo] finds on disk and in the scene. *)
Record world : Type := mkWorld {
  (** the path of the sidecar, [file.with_suffix(".json")] *)
  json_path : string;
  json_exists : bool;
  (** [json.load] on the sidecar *)
  json_load : result json;
  (** the bytes of the obj file, or the exception of [open] *)
  obj_open : result string;
  select_all_poll : bool;
}.

Definition str_nat (n : nat) : string := NilEmpty.string_of_uint (Nat.to_uint n).

(** [f"{i:03d}"] *)
Definition fmt_03d (n : nat) : string :=
  let s := str_nat n in
  (string_of_list_ascii (replicate (3 - String.length s) "0"%char) +:+ s)%string.

(** Addresses and the heap of the list objects that are shared: a heap
    cell holds a list of colour layers. *)
Abbreviation loc := nat (only parsing).
Abbreviation heap := (list (list (list Z))) (only parsing).

Section Reader.
Context `{Ext : Externals}.

(** [ObjData]: vertexes, normals, UV sets and groups of the whole obj.
    A vector is the tuple of the floats read from its line. *)
Record ObjData : Type := mkObjData {
  od_usemtl : string;
  od_mtlfile : string;
  od_name : option string;
  od_verts : list (list float);
  od_normals : list (list float);
  od_uv : list (list float);
  od_uv2 : list (list float);
  od_uv3 : list (list float);
  od_groups : list ObjGroup;
}.

(** [ObjData()] *)
Definition ObjData_new : ObjData :=
  {| od_usemtl := ""; od_mtlfile := ""; od_name := None;
     od_verts := []; od_normals := []; od_uv := []; od_uv2 := [];
     od_uv3 := []; od_groups := [] |}.

Definition set_mtlfile (s : string) (o : ObjData) : ObjData :=
  mkObjData (od_usemtl o) s (od_name o) (od_verts o) (od_normals o)
    (od_uv o) (od_uv2 o) (od_uv3 o) (od_groups o).
Definition set_name (s : option string) (o : ObjData) : ObjData :=
  mkObjData (od_usemtl o) (od_mtlfile o) s (od_verts o) (od_normals o)
    (od_uv o) (od_uv2 o) (od_uv3 o) (od_groups o).
Definition set_verts (l : list (list float)) (o : ObjData) : ObjData :=
  mkObjData (od_usemtl o) (od_mtlfile o) (od_name o) l (od_normals o)
    (od_uv o) (od_uv2 o) (od_uv3 o) (od_groups o).
Definition set_normals (l : list (list float)) (o : ObjData) : ObjData :=
  mkObjData (od_usemtl o) (od_mtlfile o) (od_name o) (od_verts o) l
    (od_uv o) (od_uv2 o) (od_uv3 o) (od_groups o).
Definition set_uv (l : list (list float)) (o : ObjData) : ObjData :=
  mkObjData (od_usemtl o) (od_mtlfile o) (od_name o) (od_verts o)
    (od_normals o) l (od_uv2 o) (od_uv3 o) (od_groups o).
Definition set_uv2 (l : list (list float)) (o : ObjData) : ObjData :=
  mkObjData (od_usemtl o) (od_mtlfile o) (od_name o) (od_verts o)
    (od_normals o) (od_uv o) l (od_uv3 o) (od_groups o).
Definition set_uv3 (l : list (list float)) (o : ObjData) : ObjData :=
  mkObjData (od_usemtl o) (od_mtlfile o) (od_name o) (od_verts o)
    (od_normals o) (od_uv o) (od_uv2 o) l (od_groups o).
Definition set_groups (l : list ObjGroup) (o : ObjData) : ObjData :=
  mkObjData (od_usemtl o) (od_mtlfile o) (od_name o) (od_verts o)
    (od_normals o) (od_uv o) (od_uv2 o) (od_uv3 o) l.

(** The loop state of [read_obj]: the data so far and [groupIndex]. *)
Definition reader_state : Type := ObjData * Z.

Definition reader_init : reader_state := (ObjData_new, -1).

Definition faces_before_group : exn :=
  RuntimeError "obj file specifies faces before a face group".

(** [tuple([float(v) for v in line_split[a:b]])] *)
Definition py_float (tok : string) : result float :=
  of_option (ValueError "could not convert string to float") (parse_float tok).

Definition utf8_decode (tok : string) : result string :=
  of_option UnicodeDecodeError (utf8 tok).

Definition floats (line_split : list string) (a b : Z) : result (list float) :=
  mapM py_float (Py.slice line_split a b).

(** [[int(v.split(b'/')[0]) for v in line_split[1:]]]: the vertex index
    is the first component of each token after the [f]. *)
Definition face_vertex_indices (line_split : list string) : result (list Z) :=
  mapM (λ v, Py.int (Py.before_slash v)) (Py.slice_from line_split 1).

(** The [f] branch. *)
Definition read_face (obj_data : ObjData) (groupIndex : Z)
    (line_split : list string) : result ObjData :=
  if groupIndex <? 0 then Raise faces_before_group
  else
    fv ← face_vertex_indices line_split;
    _ ← Py.index (od_groups obj_data) groupIndex;
    fv0 ← Py.index fv 0;
    fv1 ← Py.index fv 1;
    fv2 ← Py.index fv 2;
    groups ← Py.update (od_groups obj_data) groupIndex
      (λ g, mkObjGroup (og_mtlname g) (og_name g) (og_verts g)
              (og_faces g ++ [(fv0, fv1, fv2)]));
    groups ← Py.update groups groupIndex
      (λ g, mkObjGroup (og_mtlname g) (og_name g)
              (og_verts g ∪ list_to_set ((λ i, i - 1) <$> fv))
              (og_faces g));
    Ok (set_groups groups obj_data).

(** The [g] branch: a new group is appended and becomes current. *)
Definition read_group (obj_data : ObjData) (groupIndex : Z)
    (line_split : list string) : result reader_state :=
  let groupIndex := groupIndex + 1 in
  let obj_data := set_groups (od_groups obj_data ++ [ObjGroup_new]) obj_data in
  tok ← Py.index line_split 1;
  name ← utf8_decode tok;
  groups ← Py.update (od_groups obj_data) groupIndex
    (λ g, mkObjGroup (og_mtlname g) (Some name) (og_verts g) (og_faces g));
  Ok (set_groups groups obj_data, groupIndex).

(** The [usemtl] branch. The right-hand side is evaluated before the
    group is looked up. *)
Definition read_usemtl (obj_data : ObjData) (groupIndex : Z)
    (line_split : list string) : result ObjData :=
  tok ← Py.index line_split 1;
  mtl ← utf8_decode tok;
  groups ← Py.update (od_groups obj_data) groupIndex
    (λ g, mkObjGroup (Some mtl) (og_name g) (og_verts g) (og_faces g));
  Ok (set_groups groups obj_data).

(** The body of [for line in f]. *)
Definition read_line (st : reader_state) (line : string) : result reader_state :=
  let '(obj_data, groupIndex) := st in
  let line_split := Py.split line in
  match line_split with
  | [] => Ok st
  | line_start :: _ =>
      if String.eqb line_start "mtllib" then
        tok ← Py.index line_split 1;
        Ok (set_mtlfile (bytes_str tok) obj_data, groupIndex)
      else if String.eqb line_start "v" then
        v ← floats line_split 1 4;
        Ok (set_verts (od_verts obj_data ++ [v]) obj_data, groupIndex)
      else if String.eqb line_start "vn" then
        v ← floats line_split 1 4;
        Ok (set_normals (od_normals obj_data ++ [v]) obj_data, groupIndex)
      else if String.eqb line_start "vt3" then
        v ← floats line_split 1 3;
        Ok (set_uv3 (od_uv3 obj_data ++ [v]) obj_data, groupIndex)
      else if String.eqb line_start "vt2" then
        tok ← Py.index line_split 1;
        if negb (String.eqb tok "undefined") then
          v ← floats line_split 1 3;
          Ok (set_uv2 (od_uv2 obj_data ++ [v]) obj_data, groupIndex)
        else
          Ok (set_uv2 (od_uv2 obj_data ++ [[float_zero; float_zero]]) obj_data,
              groupIndex)
      else if String.eqb line_start "vt" then
        v ← floats line_split 1 3;
        Ok (set_uv (od_uv obj_data ++ [v]) obj_data, groupIndex)
      else if String.eqb line_start "f" then
        obj_data ← read_face obj_data groupIndex line_split;
        Ok (obj_data, groupIndex)
      else if String.eqb line_start "o" then
        tok ← Py.index line_split 1;
        Ok (set_name (Some (bytes_str tok)) obj_data, groupIndex)
      else if String.eqb line_start "g" then
        read_group obj_data groupIndex line_split
      else if String.eqb line_start "usemtl" then
        obj_data ← read_usemtl obj_data groupIndex line_split;
        Ok (obj_data, groupIndex)
      else Ok st
  end.

Definition read_lines (st : reader_state) (ls : list string) : result reader_state :=
  foldM read_line st ls.

(** [read_obj], on the content of the file. *)
Definition read_obj (content : string) : result ObjData :=
  st ← read_lines reader_init (Py.lines content);
  Ok st.1.


(** ** Groups of the WMO

    [flat_colors] is one list object that the loop of [import_wmo]
    extends in place and that every [WmoGroup] with batches refers to;
    the heap holds such objects and a group holds the address. *)


Definition heap_alloc (h : heap) (v : list (list Z)) : heap * loc :=
  (h ++ [v], length h).

(** [obj[layer] += xs], in place. *)
Definition heap_extend (h : heap) (obj : loc) (layer : nat) (xs : list Z) : heap :=
  alter (alter (λ l, l ++ xs) layer) obj h.

(** [WmoGroup]. The class is declared with [init=False]: the fields with
    a default factory and those without a default stay unset until the
    loop assigns them, and reading an unset one raises AttributeError. *)
Record WmoGroup : Type := mkWmoGroup {
  wg_obj_data : option ObjData;
  wg_json_group : option JsonWmoGroup;
  wg_group_offset : Z;
  wg_batch_count : Z;
  wg_mesh_batches : option (list ObjGroup);
  wg_json_batches : option (list JsonWmoRenderBatch);
  wg_colors : option loc;
}.

(** [WmoGroup()] *)
Definition WmoGroup_new : WmoGroup :=
  {| wg_obj_data := None; wg_json_group := None; wg_group_offset := -1;
     wg_batch_count := -1; wg_mesh_batches := None;
     wg_json_batches := None; wg_colors := None |}.

Definition attr {A} (o : option A) : result A := of_option AttributeError o.

(** The first loop of the repacking (a sanity check that only prints):
    batch number [total_batches], counted over all groups, is looked up
    among the obj groups. *)
Definition check_batch (obj_data : ObjData) (total_batches : Z)
    (batch : JsonWmoRenderBatch) : result Z :=
  let total_batches := total_batches + 1 in
  _ ← Py.index (od_groups obj_data) total_batches;
  Ok total_batches.

Definition check_batches (obj_data : ObjData) (gs : list JsonWmoGroup) : result Z :=
  foldM (λ total_batches group,
           foldM (check_batch obj_data) total_batches (renderBatches group))
        (-1) gs.

(** [sum(len(batch.verts))] over the claimed obj groups *)
Definition vertex_count (mesh_batches : list ObjGroup) : Z :=
  foldl (λ n batch, n + Z.of_nat (size (og_verts batch))) 0 mesh_batches.

(** The three-way branch on [len(vcolors)] that extends [flat_colors]. *)
Definition extend_colors (h : heap) (flat_colors : loc) (vcolors : list (list Z))
    (last_vertex group_vertex_count : Z) : result heap :=
  if Py.len vcolors =? 2 then
    c0 ← Py.index vcolors 0;
    let h := heap_extend h flat_colors 0 (Py.slice c0 0 last_vertex) in
    c1 ← Py.index vcolors 1;
    Ok (heap_extend h flat_colors 1 (Py.slice c1 0 last_vertex))
  else if Py.len vcolors =? 1 then
    c0 ← Py.index vcolors 0;
    let h := heap_extend h flat_colors 0 (Py.slice c0 0 last_vertex) in
    Ok (heap_extend h flat_colors 1 (Py.zeros last_vertex))
  else if Py.len vcolors =? 0 then
    if 0 <? group_vertex_count then
      let h := heap_extend h flat_colors 0 (Py.zeros last_vertex) in
      Ok (heap_extend h flat_colors 1 (Py.zeros last_vertex))
    else Ok h
  else Ok h.

(** The state of the second loop: the heap, [offset] and [wmo_groups]. *)
Definition repack_state : Type := heap * Z * list WmoGroup.

(** The body of [for group in json_config.groups]. *)
Definition repack_group (obj_data : ObjData) (flat_colors : loc)
    (st : repack_state) (group : JsonWmoGroup) : result repack_state :=
  let '(h, offset, wmo_groups) := st in
  let batch_count := Py.len (renderBatches group) in
  if 0 <? batch_count then
    let batch_range_stop := offset + batch_count in
    let mesh_batches := Py.slice (od_groups obj_data) offset batch_range_stop in
    let vcolors := vertexColours group in
    last ← Py.index (renderBatches group) (-1);
    let last_vertex := lastVertex last + 1 in
    let group_vertex_count := vertex_count mesh_batches in
    h ← extend_colors h flat_colors vcolors last_vertex group_vertex_count;
    let offset := offset + batch_count in
    Ok (h, offset,
        wmo_groups ++
        [{| wg_obj_data := Some obj_data; wg_json_group := Some group;
            wg_group_offset := offset; wg_batch_count := batch_count;
            wg_mesh_batches := Some mesh_batches;
            wg_json_batches := Some (renderBatches group);
            wg_colors := Some flat_colors |}])
  else
    Ok (h, offset,
        wmo_groups ++
        [{| wg_obj_data := Some obj_data; wg_json_group := None;
            wg_group_offset := -1; wg_batch_count := batch_count;
            wg_mesh_batches := None; wg_json_batches := None;
            wg_colors := None |}]).

Definition repack_groups (obj_data : ObjData) (flat_colors : loc)
    (st : repack_state) (gs : list JsonWmoGroup) : result repack_state :=
  foldM (repack_group obj_data flat_colors) st gs.

(** The repacking part of [import_wmo]: [flat_colors = [[], [], []]],
    the sanity loop, then the loop over the groups. It returns the heap,
    the address of [flat_colors] and [wmo_groups]. *)
Definition repack_wmo (obj_data : ObjData) (json_config : JsonWmoMetadata)
    : result (heap * loc * list WmoGroup) :=
  let '(h, flat_colors) := heap_alloc [] [[]; []; []] in
  _ ← check_batches obj_data (groups json_config);
  '(h, _, wmo_groups) ← repack_groups obj_data flat_colors (h, 0, []) (groups json_config);
  Ok (h, flat_colors, wmo_groups).

(** [group.colors], read through the heap. *)
Definition colors_of (h : heap) (g : WmoGroup) : result (list (list Z)) :=
  c ← attr (wg_colors g);
  of_option AttributeError (h !! c).


(** ** The mesh under construction

    [bmesh] as the builder uses it. A vertex is the handle it got when it
    was created (its position in [bm_verts]); a face keeps its three
    vertex handles in loop order and its [material_index]. *)

Record BMFace : Type := mkFace {
  bf_verts : nat * nat * nat;
  bf_material_index : Z;
}.

Record BMesh : Type := mkBMesh {
  bm_verts : list (list float);
  bm_faces : list BMFace;
}.

Definition bmesh_new : BMesh := {| bm_verts := []; bm_faces := [] |}.

(** [bm.verts.new(co)], for a coordinate that Blender accepts. *)
Definition verts_new (bm : BMesh) (co : list float) : BMesh * nat :=
  ({| bm_verts := bm_verts bm ++ [co]; bm_faces := bm_faces bm |},
   length (bm_verts bm)).

Definition tri_list (t : nat * nat * nat) : list nat :=
  let '(a, b, c) := t in [a; b; c].

Definition repeats_vertex (t : nat * nat * nat) : bool :=
  let '(a, b, c) := t in
  bool_decide (a = b) || bool_decide (b = c) || bool_decide (a = c).

(** Two faces are the same face when they use the same vertices, in
    whatever order. *)
Definition same_vertices (t u : nat * nat * nat) : bool :=
  forallb (λ v, bool_decide (v ∈ tri_list u)) (tri_list t)
  && forallb (λ v, bool_decide (v ∈ tri_list t)) (tri_list u).

Definition face_exists (bm : BMesh) (t : nat * nat * nat) : bool :=
  existsb (λ f, same_vertices (bf_verts f) t) (bm_faces bm).

(** [bm.faces.new(verts, example)]: ValueError when a vertex is used
    twice or when the face exists already; with an example face, the new
    face takes its attributes, here the material index. The result is
    the mesh and the handle of the new face. *)
Definition faces_new (bm : BMesh) (t : nat * nat * nat) (example : option nat)
    : result (BMesh * nat) :=
  if repeats_vertex t then
    Raise (ValueError "faces.new(verts): found the same (BMVert) used multiple times")
  else if face_exists bm t then
    Raise (ValueError "faces.new(verts): face already exists")
  else
    let mi := match example with
              | Some e => default 0 (bf_material_index <$> bm_faces bm !! e)
              | None => 0
              end in
    Ok ({| bm_verts := bm_verts bm;
           bm_faces := bm_faces bm ++ [{| bf_verts := t; bf_material_index := mi |}] |},
        length (bm_faces bm)).

(** [bface.material_index = i] *)
Definition set_material_index (bm : BMesh) (bface : nat) (i : Z) : BMesh :=
  {| bm_verts := bm_verts bm;
     bm_faces := alter (λ f, mkFace (bf_verts f) i) bface (bm_faces bm) |}.

(** A material of [bpy.data.materials], known by its name. *)
Record Material : Type := mkMat { mat_name : string }.

(** [mesh.materials.find(name)]: the first slot with that name, or -1. *)
Fixpoint materials_find_from (i : Z) (slots : list Material) (name : string) : Z :=
  match slots with
  | [] => -1
  | m :: slots' =>
      if String.eqb (mat_name m) name then i
      else materials_find_from (i + 1) slots' name
  end.

Definition materials_find (slots : list Material) (name : string) : Z :=
  materials_find_from 0 slots name.

(** The locals of [wmo_setup_blender_object] that its loops change. *)
Record builder : Type := mkBuilder {
  b_bm : BMesh;
  b_v_dict : gmap Z nat;
  b_colors : gmap nat (list fColor4);
  b_materials : list Material;
}.

Definition builder_init : builder :=
  {| b_bm := bmesh_new; b_v_dict := ∅; b_colors := ∅; b_materials := [] |}.

Definition dict_get {K V} `{Countable K} (d : gmap K V) (k : K) : result V :=
  of_option KeyError (d !! k).

(** [v_dict[v]] when [v] is mapped, else a new vertex at
    [obj_data.verts[v - 1]], which [v_dict] remembers. *)
Definition map_vertex (obj_data : ObjData) (st : builder) (v : Z)
    : result (nat * builder) :=
  match b_v_dict st !! v with
  | Some vert => Ok (vert, st)
  | None =>
      co ← Py.index (od_verts obj_data) (v - 1);
      let '(bm, vert) := verts_new (b_bm st) co in
      Ok (vert, mkBuilder bm (<[v := vert]> (b_v_dict st)) (b_colors st)
                  (b_materials st))
  end.

(** The body of [for v in face]. ([color_list] holds lists, so the test
    on [type(color_list[0])] is true whenever [do_colors] is.) *)
Definition visit_vertex (obj_data : ObjData) (color_list : list (list Z))
    (do_colors : bool) (st : builder) (v : Z) : result builder :=
  '(vert, st) ← map_vertex obj_data st v;
  if do_colors then
    v_color ← mapM (λ sublist,
                      c ← Py.index sublist (v - 1);
                      Ok (wmo_read_color c "CImVector")) color_list;
    Ok (mkBuilder (b_bm st) (b_v_dict st) (<[vert := v_color]> (b_colors st))
          (b_materials st))
  else Ok st.

(** The material id of a render batch: the third element of
    [possibleBox2] when the flags are 2, [materialID] otherwise. *)
Definition batch_mat_ID (batch : JsonWmoRenderBatch) : result Z :=
  if rb_flags batch =? 2 then
    box ← of_option TypeError (possibleBox2 batch);
    Py.index box 2
  else Ok (materialID batch).

(** What follows [exampleFace = bface] in both branches: the material of
    batch [i] is looked up among the slots of the mesh, appended when it
    is not there, and its slot becomes the material index of the face. *)
Definition assign_material (mat_dict : gmap Z Material)
    (json_batches : list JsonWmoRenderBatch) (i : Z) (st : builder)
    (bface : nat) : result builder :=
  batch ← Py.index json_batches i;
  mat_ID ← batch_mat_ID batch;
  mat ← dict_get mat_dict mat_ID;
  let local_index := materials_find (b_materials st) (mat_name mat) in
  if local_index =? -1 then
    let slots := b_materials st ++ [mat] in
    Ok (mkBuilder (set_material_index (b_bm st) bface
                     (materials_find slots (mat_name mat)))
          (b_v_dict st) (b_colors st) slots)
  else
    Ok (mkBuilder (set_material_index (b_bm st) bface local_index)
          (b_v_dict st) (b_colors st) (b_materials st)).

(** [bm.faces.new(...)] with or without the example face, and the
    material of the first face of a batch. *)
Definition new_face (mat_dict : gmap Z Material)
    (json_batches : list JsonWmoRenderBatch) (i : Z) (st : builder)
    (exampleFace : option nat) (t : nat * nat * nat)
    : result (builder * option nat) :=
  match exampleFace with
  | None =>
      '(bm, bface) ← faces_new (b_bm st) t None;
      let st := mkBuilder bm (b_v_dict st) (b_colors st) (b_materials st) in
      st ← assign_material mat_dict json_batches i st bface;
      Ok (st, Some bface)
  | Some e =>
      '(bm, bface) ← faces_new (b_bm st) t (Some e);
      Ok (mkBuilder bm (b_v_dict st) (b_colors st) (b_materials st), Some e)
  end.

(** The [except ValueError] handler: three new vertices at the positions
    of the face, the colours of the mapped vertices copied to them, and
    the face made on the new vertices. *)
Definition duplicate_face (obj_data : ObjData) (mat_dict : gmap Z Material)
    (json_batches : list JsonWmoRenderBatch) (i : Z) (st : builder)
    (exampleFace : option nat) (face : Tri) : result (builder * option nat) :=
  let '(f0, f1, f2) := face in
  co ← Py.index (od_verts obj_data) (f0 - 1);
  let '(bm, v1) := verts_new (b_bm st) co in
  co ← Py.index (od_verts obj_data) (f1 - 1);
  let '(bm, v2) := verts_new bm co in
  co ← Py.index (od_verts obj_data) (f2 - 1);
  let '(bm, v3) := verts_new bm co in
  let colors := b_colors st in
  m0 ← dict_get (b_v_dict st) f0;
  c ← dict_get colors m0;
  let colors := <[v1 := c]> colors in
  m1 ← dict_get (b_v_dict st) f1;
  c ← dict_get colors m1;
  let colors := <[v2 := c]> colors in
  m2 ← dict_get (b_v_dict st) f2;
  c ← dict_get colors m2;
  let colors := <[v3 := c]> colors in
  new_face mat_dict json_batches i
    (mkBuilder bm (b_v_dict st) colors (b_materials st)) exampleFace (v1, v2, v3).

(** The [try] statement: a ValueError raised by the first attempt is
    handled by [duplicate_face]; any other exception propagates. *)
Definition add_face (obj_data : ObjData) (mat_dict : gmap Z Material)
    (json_batches : list JsonWmoRenderBatch) (i : Z) (st : builder)
    (exampleFace : option nat) (face : Tri) : result (builder * option nat) :=
  let '(f0, f1, f2) := face in
  let attempt :=
    m0 ← dict_get (b_v_dict st) f0;
    m1 ← dict_get (b_v_dict st) f1;
    m2 ← dict_get (b_v_dict st) f2;
    new_face mat_dict json_batches i st exampleFace (m0, m1, m2) in
  match attempt with
  | Raise (ValueError _) =>
      duplicate_face obj_data mat_dict json_batches i st exampleFace face
  | r => r
  end.

(** The body of [for face in batch.faces]. *)
Definition build_face (obj_data : ObjData) (mat_dict : gmap Z Material)
    (json_batches : list JsonWmoRenderBatch) (color_list : list (list Z))
    (do_colors : bool) (i : Z) (acc : builder * option nat) (face : Tri)
    : result (builder * option nat) :=
  let '(st, exampleFace) := acc in
  let '(f0, f1, f2) := face in
  st ← foldM (visit_vertex obj_data color_list do_colors) st [f0; f1; f2];
  add_face obj_data mat_dict json_batches i st exampleFace face.

(** The body of [for i, batch in enumerate(batches)]. *)
Definition build_batch (obj_data : ObjData) (mat_dict : gmap Z Material)
    (json_batches : list JsonWmoRenderBatch) (color_list : list (list Z))
    (do_colors : bool) (st : builder) (ib : Z * ObjGroup) : result builder :=
  let '(i, batch) := ib in
  '(st, _) ← foldM (build_face obj_data mat_dict json_batches color_list
                      do_colors i) (st, None) (og_faces batch);
  Ok st.

(** [enumerate(l)] *)
Definition enumerate {A} (l : list A) : list (Z * A) :=
  imap (λ i x, (Z.of_nat i, x)) l.


(** The [WBJ.wmo_lighting_type] of the new object, from the names of the
    flags of the group. *)
Definition lighting_type (flags : list string) : string :=
  if bool_decide ("INTERIOR" ∈ flags) && bool_decide ("EXTERIOR" ∈ flags)
  then "TRANSITION"
  else if bool_decide ("INTERIOR" ∈ flags) then "INTERIOR"
  else if bool_decide ("EXTERIOR" ∈ flags) then "EXTERIOR"
  else "UNLIT".

(** The object that [wmo_setup_blender_object] returns, with what the
    function wrote to it. The rotation, the origin and the smooth
    shading are left out. *)
Record BlenderObject : Type := mkObject {
  bo_name : string;
  bo_wow_model_type : string;
  bo_wmo_lighting_type : string;
  bo_verts : list (list float);
  bo_faces : list BMFace;
  bo_materials : list Material;
  (** per face and loop: the value of the first UV layer *)
  bo_uv : list (list (list float));
  bo_uv2 : option (list (list (list float)));
  bo_uv3 : option (list (list (list float)));
  (** per face and loop: the value of every colour layer [vcols_i] *)
  bo_vcols : option (list (list (list fColor4)));
  (** the collection the object is linked to, when not the active one *)
  bo_collection : option string;
}.

(** [[obj_data.uv[face[j] - 1] for j in 0..2]], for the loops of a face *)
Definition face_uv (uv : list (list float)) (face : Tri) : result (list (list float)) :=
  let '(f0, f1, f2) := face in
  mapM (λ v, Py.index uv (v - 1)) [f0; f1; f2].

(** The colours written to the loops of a face: every loop gets
    [colors[vert][i]] for each layer [i]. *)
Definition face_vcols (colors : gmap nat (list fColor4)) (layers : nat)
    (f : BMFace) : result (list (list fColor4)) :=
  mapM (λ vert,
          mapM (λ i : nat, c ← dict_get colors vert; Py.index c (Z.of_nat i))
               (seq 0 layers))
       (tri_list (bf_verts f)).

(** [x or "section"] *)
Definition or_section (x : option string) : string :=
  match x with
  | Some n => if String.eqb n "" then "section" else n
  | None => "section"
  end.

(** [wmo_setup_blender_object], called as [import_wmo] calls it
    ([merge_verts] and [make_quads] false). [None] is returned for a
    group without batches. The function is followed up to the data of
    the object it returns; the calls into Blender that come after the
    layers are written are taken to succeed. *)
Definition wmo_setup_blender_object (h : heap) (base_name : string)
    (group : WmoGroup) (mat_dict : gmap Z Material) (use_collections : bool)
    : result (option BlenderObject) :=
  if wg_batch_count group <? 1 then Ok None
  else
    obj_data ← attr (wg_obj_data group);
    json_group ← attr (wg_json_group group);
    let full_name := (base_name +:+ "_" +:+ or_section (groupName json_group))%string in
    let flags := wmo_read_group_flags (grp_flags json_group) in
    let lighting := lighting_type flags in
    batches ← attr (wg_mesh_batches group);
    json_batches ← attr (wg_json_batches group);
    group_colors ← colors_of h group;
    let color_list := filter (λ clist, 0 < Py.len clist) group_colors in
    let do_colors := 0 <? Py.len color_list in
    st ← foldM (build_batch obj_data mat_dict json_batches color_list do_colors)
           builder_init (enumerate batches);
    let face_list := concat (og_faces <$> batches) in
    uv ← mapM (face_uv (od_uv obj_data)) face_list;
    uv2 ← (if 0 <? Py.len (od_uv2 obj_data)
           then Some <$> mapM (face_uv (od_uv2 obj_data)) face_list
           else Ok None);
    uv3 ← (if 0 <? Py.len (od_uv3 obj_data)
           then Some <$> mapM (face_uv (od_uv3 obj_data)) face_list
           else Ok None);
    vcols ← (if 0 <? Py.len color_list
             then Some <$> mapM (face_vcols (b_colors st) (length color_list))
                                (bm_faces (b_bm st))
             else Ok None);
    let collection :=
      match groupDescription json_group with
      | Some d => if use_collections && negb (String.eqb d "") then Some d else None
      | None => None
      end in
    Ok (Some {| bo_name := full_name; bo_wow_model_type := "WMO";
                bo_wmo_lighting_type := lighting;
                bo_verts := bm_verts (b_bm st); bo_faces := bm_faces (b_bm st);
                bo_materials := b_materials st;
                bo_uv := uv; bo_uv2 := uv2; bo_uv3 := uv3; bo_vcols := vcols;
                bo_collection := collection |}).


(** ** The import as a whole *)

(** The checks at the head of [import_wmo], up to the decoding of the
    metadata. *)
Definition load_metadata (w : world) : io JsonWmoMetadata :=
  if negb (json_exists w) then
    raise (RuntimeError ("failed to load metadata from '" +:+ json_path w
                         +:+ ", can't continue"))
  else
    json_config ← lift (json_load w);
    if json_falsy json_config then
      raise (RuntimeError ("failed to load metadata file " +:+ json_path w))
    else
      fn ← lift (json_item json_config "fileName");
      has ← lift (json_contains ".wmo" fn);
      if negb has then
        raise (ValueError "import_wmo called to import a non-WMO file")
      else
        _ ← emit EvFromDict;
        match from_dict json_config with
        | Decoded m => mret m
        | MissingField msg => raise (RuntimeError msg)
        | InvalidFieldValue => raise (RuntimeError "invalid field value (not repeating)")
        end.

(** The loop that fills [mat_dict]. *)
Definition new_materials (basename : string) (ms : list JsonWmoMaterial)
    : io (list (Z * Material)) :=
  forM (λ im : Z * JsonWmoMaterial,
          let name := (basename +:+ "_mat_" +:+ str_nat (Z.to_nat im.1))%string in
          _ ← emit (EvNewMaterial name);
          mret (im.1, mkMat name))
       (enumerate ms).

(** The loop over [wmo_groups] that fills [objects]. *)
Definition setup_objects (h : heap) (basename : string) (mat_dict : gmap Z Material)
    (wmo_groups : list WmoGroup) : io (list BlenderObject) :=
  objs ← forM (λ ig : Z * WmoGroup,
                 let base_name := (fmt_03d (Z.to_nat ig.1) +:+ "_" +:+ basename)%string in
                 _ ← emit (EvSetupObject base_name);
                 lift (wmo_setup_blender_object h base_name ig.2 mat_dict true))
              (enumerate wmo_groups);
  mret (omap (M := list) id objs).

(** [import_wmo] after the metadata is decoded, up to the list
    [objects]; the wiring of the shader nodes that follows is not part of
    the model. [stem] is [file.stem]. *)
Definition import_obj (w : world) (stem : string) (name_override : option string)
    (json_config : JsonWmoMetadata) : io (list BlenderObject) :=
  let basename :=
    match name_override with
    | Some n => if String.eqb n "" then stem else n
    | None => stem
    end in
  _ ← (if select_all_poll w then emit EvDeselectAll else mret tt);
  _ ← emit EvReadObj;
  content ← lift (obj_open w);
  obj_data ← lift (read_obj content);
  _ ← emit (EvNewMesh basename);
  _ ← emit (EvNewObject basename);
  packed ← lift (repack_wmo obj_data json_config);
  let '(h, _, wmo_groups) := packed in
  mats ← new_materials basename (materials json_config);
  setup_objects h basename (list_to_map mats) wmo_groups.

(** [import_wmo] *)
Definition import_wmo (w : world) (stem : string) (name_override : option string)
    : io (list BlenderObject) :=
  load_metadata w ≫= import_obj w stem name_override.

End Reader.

(** ** The metadata of a material slot

    After the objects are built, [import_wmo] finds the metadata of each
    material slot through the name of its material: the text after the
    last underscore, cut at the first dot (Blender adds a dot and a number
    to a name that is taken), read as an index into the materials of the
    metadata. *)

Module PyStr.

(** [s.split(sep)[-1]] for a separator of one character *)
Fixpoint split_last_go (sep : ascii) (cur : list ascii) (s : string) : string :=
  match s with
  | EmptyString => string_of_list_ascii (rev cur)
  | String c s' =>
      if Ascii.eqb c sep then split_last_go sep [] s'
      else split_last_go sep (c :: cur) s'
  end.

Definition split_last (sep : ascii) (s : string) : string := split_last_go sep [] s.

(** [s.split(sep)[0]] for a separator of one character *)
Fixpoint split_first (sep : ascii) (s : string) : string :=
  match s with
  | EmptyString => EmptyString
  | String c s' =>
      if Ascii.eqb c sep then EmptyString else String c (split_first sep s')
  end.

Fixpoint lstrip (s : string) : string :=
  match s with
  | EmptyString => EmptyString
  | String c s' => if Py.is_space c then lstrip s' else s
  end.

Fixpoint rstrip (s : string) : string :=
  match s with
  | EmptyString => EmptyString
  | String c s' =>
      match rstrip s' with
      | EmptyString => if Py.is_space c then EmptyString else String c EmptyString
      | r => String c r
      end
  end.

(** [int(s)] for a string of ASCII characters: the whitespace around the
    number is dropped; then come an optional sign and the digits. *)
Definition int (s : string) : result Z := Py.int (rstrip (lstrip s)).

End PyStr.

(** [mat_number], as the loop over the material slots computes it. *)
Definition mat_number (name : string) : string :=
  let mat_number := PyStr.split_last "_" name in
  if contains "." mat_number then PyStr.split_first "." mat_number else mat_number.

(** [json_config.materials[int(mat_number)]] for a slot. *)
Definition slot_metadata (json_config : JsonWmoMetadata) (slot : Material)
    : result JsonWmoMaterial :=
  i ← PyStr.int (mat_number (mat_name slot));
  Py.index (materials json_config) i.

(** ** A concrete setting for examples

    A float is kept as the token it was written as, names are ASCII,
    colours are kept as their raw value, and of the group flags the two
    that matter are decoded (bit 3: exterior, bit 13: interior). The
    decoder of the metadata is given with the document. *)

Definition sample_flags (z : Z) : list string :=
  (if Z.testbit z 3 then ["EXTERIOR"] else []) ++
  (if Z.testbit z 13 then ["INTERIOR"] else []).

Definition sample_externals (d : decoded) : Externals :=
  {| float := string;
     parse_float := Some;
     float_zero := "0.0";
     utf8 := Some;
     bytes_str := λ s, ("b'" +:+ s +:+ "'")%string;
     fColor4 := Z;
     wmo_read_color := λ z _, z;
     wmo_read_group_flags := sample_flags;
     from_dict := λ _, d |}.

Definition nl : string := String "010" EmptyString.

Definition obj_of_lines (ls : list string) : string :=
  foldr (λ l acc, (l +:+ nl +:+ acc)%string) EmptyString ls.

Definition quad_obj : string :=
  obj_of_lines
    ["o quad"; "v 0 0 0"; "v 1 0 0"; "v 1 1 0"; "v 0 1 0";
     "vt 0 0"; "vt 1 0"; "vt 1 1"; "vt 0 1";
     "g batch0"; "usemtl m0"; "f 1/1/1 2/2/2 3/3/3"; "f 1/1/1 3/3/3 4/4/4"].

Definition quad_meta : JsonWmoMetadata :=
  {| fileName := "world/quad.wmo";
     groups := [ {| groupName := Some "g0"; groupDescription := None; grp_flags := 0;
                    renderBatches := [ mkBatch 0 3 0 0 None ];
                    vertexColours := [ replicate 4 4286545791 ] |} ];
     materials := [ mkMaterial 1 0 0 0 ];
     ambientColor := 0 |}.

(** A triangle whose face record names vertex 0. *)
Definition zero_index_obj : string :=
  obj_of_lines
    ["v 0 0 0"; "v 1 0 0"; "v 0 1 0"; "vt 0 0"; "vt 1 0"; "vt 0 1";
     "g batch0"; "f 0/0/0 1/1/1 2/2/2"].

Definition one_batch_meta (last : Z) (colours : list (list Z)) : JsonWmoMetadata :=
  {| fileName := "world/sample.wmo";
     groups := [ {| groupName := Some "g0"; groupDescription := None; grp_flags := 0;
                    renderBatches := [ mkBatch 0 last 0 0 None ];
                    vertexColours := colours |} ];
     materials := [ mkMaterial 1 0 0 0 ];
     ambientColor := 0 |}.

Definition sample_world (obj : string) : world :=
  {| json_path := "sample.json"; json_exists := true;
     json_load := Ok (JObj [("fileName", JStr "world/sample.wmo")]);
     obj_open := Ok obj; select_all_poll := false |}.

(** A triangle given twice in one group. *)
Definition twice_obj : string :=
  obj_of_lines
    ["v 0 0 0"; "v 1 0 0"; "v 0 1 0"; "vt 0 0"; "vt 1 0"; "vt 0 1";
     "g batch0"; "f 1/1/1 2/2/2 3/3/3"; "f 1/1/1 2/2/2 3/3/3"].

(** Two groups of one batch and one vertex each, with one colour layer. *)
Definition two_groups_obj : string :=
  obj_of_lines ["v 0 0 0"; "v 1 0 0"; "g batch0"; "g batch1"].

Definition colour_group (c : Z) : JsonWmoGroup :=
  {| groupName := None; groupDescription := None; grp_flags := 0;
     renderBatches := [ mkBatch 0 0 0 0 None ];
     vertexColours := [[c]] |}.

Definition two_groups_meta : JsonWmoMetadata :=
  {| fileName := "world/two.wmo";
     groups := [ colour_group 5; colour_group 6 ];
     materials := []; ambientColor := 0 |}.

(** The setting in which the metadata is not decoded from a document. *)
Definition plain : Externals := sample_externals InvalidFieldValue.

(** The same setting with a decoder for ASCII names: a name with a byte
    above 127 is refused (such a byte alone is no UTF-8 text). *)
Definition ascii_name (s : string) : option string :=
  if forallb (λ c, N_of_ascii c <? 128)%N (list_ascii_of_string s)
  then Some s else None.

Definition ascii_names : Externals :=
  {| float := string;
     parse_float := Some;
     float_zero := "0.0";
     utf8 := ascii_name;
     bytes_str := λ s, ("b'" +:+ s +:+ "'")%string;
     fColor4 := Z;
     wmo_read_color := λ z _, z;
     wmo_read_group_flags := sample_flags;
     from_dict := λ _, InvalidFieldValue |}.

(** A [usemtl] record whose name is the byte 255. *)
Definition undecodable_name_obj : string :=
  obj_of_lines ["usemtl " +:+ String "255" EmptyString]%string.

(** The data of an obj and the groups of a repacking, for inputs that are
    read without error. *)
Definition data_of (content : string) : ObjData (Ext := plain) :=
  match read_obj (Ext := plain) content with
  | Ok od => od
  | Raise _ => ObjData_new
  end.

Definition packed_of (od : ObjData (Ext := plain)) (meta : JsonWmoMetadata)
    : list (list (list Z)) * list (WmoGroup (Ext := plain)) :=
  match repack_wmo od meta with
  | Ok (h, _, wgs) => (h, wgs)
  | Raise _ => ([], [])
  end.

(** A batch whose flags are 2 and whose [possibleBox2] ends in 7. *)
Definition sentinel_batch : JsonWmoRenderBatch := mkBatch 0 3 1 2 (Some [0; 0; 7]).

Definition sentinel_mats : gmap Z Material := {[ 7 := mkMat "m7" ]}.

(** The builder after the three vertices of the first face of the quad. *)
Definition quad_builder : builder (Ext := plain) :=
  match foldM (visit_vertex (data_of quad_obj) [] false) builder_init [1; 2; 3] with
  | Ok st => st
  | Raise _ => builder_init
  end.

(** The setting in which the metadata of the quad is decoded. *)
Definition quad_ext : Externals := sample_externals (Decoded quad_meta).

(** The quad with an obj file that cannot be opened. *)
Definition locked_world : world :=
  {| json_path := "sample.json"; json_exists := true;
     json_load := Ok (JObj [("fileName", JStr "world/sample.wmo")]);
     obj_open := Raise OSError; select_all_poll := false |}.

(** A sidecar that is no JSON document. *)
Definition garbled_world : world :=
  {| json_path := "sample.json"; json_exists := true;
     json_load := Raise JSONDecodeError;
     obj_open := Ok quad_obj; select_all_poll := false |}.

(** An obj without groups; a face of two vertexes; a material record
    without a name. *)
Definition bare_obj : string := obj_of_lines ["v 0 0 0"].

Definition short_face_obj : string := obj_of_lines ["g a"; "f 1 2"].

Definition nameless_obj : string := obj_of_lines ["v 0 0 0"; "usemtl"].

(** A triangle without texture coordinates. *)
Definition no_uv_obj : string :=
  obj_of_lines ["v 0 0 0"; "v 1 0 0"; "v 0 1 0"; "g batch0"; "f 1 2 3"].

(** The heap and the first group of a repacking. *)
Definition first_group (content : string) (meta : JsonWmoMetadata)
    : list (list (list Z)) * WmoGroup (Ext := plain) :=
  ((packed_of (data_of content) meta).1,
   default WmoGroup_new (head (packed_of (data_of content) meta).2)).


(** ** Vocabulary of the statements *)

(** The kind of a record is the first token of its line. *)
Definition record_kind (line : string) : option string := head (Py.split line).

Definition is_record (kind line : string) : Prop := record_kind line = Some kind.

#[global] Instance is_record_dec kind line : Decision (is_record kind line).
Proof. unfold is_record. apply _. Defined.

(** No group has been declared by the lines [ls]. *)
Definition no_group (ls : list string) : Prop := Forall (λ l, ¬ is_record "g" l) ls.

(** The number of render batches of a group, and of the groups before
    position [i]: the running offset of the specification. *)
Definition batch_count (g : JsonWmoGroup) : Z := Py.len (renderBatches g).

Definition sum_batches (gs : list JsonWmoGroup) : Z :=
  foldr (λ g acc, batch_count g + acc) 0 gs.

Definition batches_before (gs : list JsonWmoGroup) (i : nat) : Z :=
  sum_batches (take i gs).

(** The face groups a [WmoGroup] has claimed: none while [mesh_batches]
    is unset. *)
Definition claimed `{Ext : Externals} (wg : WmoGroup) : list ObjGroup :=
  default [] (wg_mesh_batches wg).

(** [wg] is what the loop makes of the metadata group [g] when the
    running offset is [offset]. *)
Definition reconciles `{Ext : Externals} (od : ObjData) (fc : loc) (offset : Z)
    (g : JsonWmoGroup) (wg : WmoGroup) : Prop :=
  wg_batch_count wg = batch_count g ∧
  wg_obj_data wg = Some od ∧
  if 0 <? batch_count g then
    wg_mesh_batches wg = Some (Py.slice (od_groups od) offset (offset + batch_count g)) ∧
    wg_json_group wg = Some g ∧
    wg_json_batches wg = Some (renderBatches g) ∧
    wg_group_offset wg = offset + batch_count g ∧
    wg_colors wg = Some fc
  else
    wg_mesh_batches wg = None ∧ wg_json_group wg = None ∧ wg_colors wg = None.

(** The two colour layers of one group, in the words of the
    specification. For a group with batches, met at the running offset
    [offset], with [n] the [lastVertex + 1] of its final batch: no raw
    layer and a positive vertex count give two layers of [n] zeros; one raw
    layer gives its slice [[0:n]] and [n] zeros; two raw layers give the
    slice [[0:n]] of each; no raw layer and no vertex give two empty
    layers. A group without batches, or with more than two raw layers,
    has empty layers. *)
Definition group_layers `{Ext : Externals} (od : ObjData) (offset : Z)
    (g : JsonWmoGroup) : list Z * list Z :=
  match last (renderBatches g) with
  | None => ([], [])
  | Some final =>
      let n := lastVertex final + 1 in
      let count :=
        vertex_count (Py.slice (od_groups od) offset (offset + batch_count g)) in
      match vertexColours g with
      | [] => if 0 <? count then (Py.zeros n, Py.zeros n) else ([], [])
      | [c0] => (Py.slice c0 0 n, Py.zeros n)
      | [c0; c1] => (Py.slice c0 0 n, Py.slice c1 0 n)
      | _ => ([], [])
      end
  end.

(** The numbers of vertices and of faces of the mesh of an object. *)
Definition mesh_size `{Ext : Externals} (o : BlenderObject) : nat * nat :=
  (length (bo_verts o), length (bo_faces o)).

(** The invariant of the reader: [groupIndex] is the index of the last
    group. *)
Definition reader_inv `{Ext : Externals} (st : reader_state) : Prop :=
  st.2 = Py.len (od_groups st.1) - 1.

(** The three checks at the head of the import pass: the sidecar exists,
    its document is not falsy and its [fileName] contains [".wmo"]. *)
Definition checks_pass (w : world) : Prop :=
  json_exists w = true ∧
  ∃ j fn, json_load w = Ok j ∧ json_falsy j = false ∧
          json_item j "fileName" = Ok fn ∧ json_contains ".wmo" fn = Ok true.

(** Every face of the mesh uses vertices of the mesh. *)
Definition faces_wf `{Ext : Externals} (bm : BMesh) : Prop :=
  ∀ f v, f ∈ bm_faces bm → v ∈ tri_list (bf_verts f) →
         (v < length (bm_verts bm))%nat.

(** Every vertex index of every face is a position of the vertex list,
    counted from 1. *)
Definition face_in_range (n : Z) (t : Tri) : bool :=
  let '(a, b, c) := t in
  (1 <=? a) && (a <=? n) && (1 <=? b) && (b <=? n) && (1 <=? c) && (c <=? n).

Definition faces_in_range `{Ext : Externals} (od : ObjData) : bool :=
  forallb (λ g, forallb (face_in_range (Py.len (od_verts od))) (og_faces g))
          (od_groups od).

(** The events of [import_obj] up to the reading of the obj. *)
Definition read_events (w : world) : list event :=
  (if select_all_poll w then [EvDeselectAll] else []) ++ [EvReadObj].

(** The kinds of record that [read_obj] acts on. *)
Definition known_kinds : list string :=
  ["mtllib"; "v"; "vn"; "vt3"; "vt2"; "vt"; "f"; "o"; "g"; "usemtl"].

Definition is_known (line : string) : bool :=
  match record_kind line with
  | Some k => bool_decide (k ∈ known_kinds)
  | None => false
  end.

(** The lines of a given kind, in the order of the file. *)
Definition records (kind : string) (ls : list string) : list string :=
  filter (is_record kind) ls.

(** The name that a [g] record gives to its group. *)
Definition group_name `{Ext : Externals} (line : string) : result string :=
  tok ← Py.index (Py.split line) 1;
  utf8_decode tok.

(** The used-vertex set of a group holds every vertex of its faces,
    counted from 0. *)
Definition verts_cover (g : ObjGroup) : Prop :=
  ∀ a b c, (a, b, c) ∈ og_faces g →
           a - 1 ∈ og_verts g ∧ b - 1 ∈ og_verts g ∧ c - 1 ∈ og_verts g.

(** The face that an [f] record gives: the first three of its vertex
    indexes. *)
Definition face_of (line : string) : result Tri :=
  fv ← face_vertex_indices (Py.split line);
  a ← Py.index fv 0;
  b ← Py.index fv 1;
  c ← Py.index fv 2;
  Ok (a, b, c).

(** The [f] records of a file by group: those before the first [g]
    record and, for each [g] record, those between it and the next. *)
Fixpoint face_runs (ls : list string) : list string * list (list string) :=
  match ls with
  | [] => ([], [])
  | l :: ls' =>
      let '(pre, runs) := face_runs ls' in
      if decide (is_record "g" l) then ([], pre :: runs)
      else if decide (is_record "f" l) then (l :: pre, runs)
      else (pre, runs)
  end.

(** [fs[-1] += ts] when there is a last element. *)
Definition extend_last {A} (fs : list (list A)) (ts : list A) : list (list A) :=
  alter (λ x, x ++ ts) (length fs - 1)%nat fs.

(** What a [vt2] record gives to the second UV set. *)
Definition uv2_of `{Ext : Externals} (line : string) : result (list float) :=
  tok ← Py.index (Py.split line) 1;
  if negb (String.eqb tok "undefined") then floats (Py.split line) 1 3
  else Ok [float_zero; float_zero].

(** The kinds of record that need an argument. *)
Definition argument_kinds : list string := ["mtllib"; "vt2"; "o"; "g"; "usemtl"].

(** The name that [import_wmo] gives to the material it makes for the
    material [i] of the metadata. *)
Definition material_name (basename : string) (i : nat) : string :=
  (basename +:+ "_mat_" +:+ str_nat i)%string.

(** The characters of a string. *)
Definition chars (s : string) : list ascii := list_ascii_of_string s.

(** [basename], as [import_wmo] chooses it: the override when it is given
    and not empty, the stem of the file otherwise. *)
Definition basename_of (stem : string) (name_override : option string) : string :=
  match name_override with
  | Some n => if String.eqb n "" then stem else n
  | None => stem
  end.

(** The name of the object of the group at position [i], for a group
    with batches; a group without batches gets no object. *)
Definition object_name (basename : string) (ig : Z * JsonWmoGroup) : option string :=
  if 0 <? batch_count ig.2
  then Some (fmt_03d (Z.to_nat ig.1) +:+ "_" +:+ basename +:+ "_"
             +:+ or_section (groupName ig.2))%string
  else None.

(** The trace of an import that goes through. *)
Definition full_trace (w : world) (basename : string) (cfg : JsonWmoMetadata)
    : list event :=
  EvFromDict :: read_events w
  ++ [EvNewMesh basename; EvNewObject basename]
  ++ imap (λ i _, EvNewMaterial (material_name basename i)) (materials cfg)
  ++ imap (λ i _, EvSetupObject (fmt_03d i +:+ "_" +:+ basename)%string) (groups cfg).

(** The vertex [vert] of the mesh sits where the obj has its vertex [v],
    that is at [obj_data.verts[v - 1]]. *)
Definition placed `{Ext : Externals} (obj_data : ObjData) (verts : list (list float))
    (vert : nat) (v : Z) : Prop :=
  ∃ co, verts !! vert = Some co ∧ Py.index (od_verts obj_data) (v - 1) = Ok co.

(** The three corners of a face of the mesh sit where the obj has the
    vertexes of the face [src], in the same order. *)
Definition corners `{Ext : Externals} (obj_data : ObjData) (verts : list (list float))
    (f : BMFace) (src : Tri) : Prop :=
  placed obj_data verts (bf_verts f).1.1 src.1.1 ∧
  placed obj_data verts (bf_verts f).1.2 src.1.2 ∧
  placed obj_data verts (bf_verts f).2 src.2.

(** The material index of the face is the slot of the material of render
    batch [i]. *)
Definition wears `{Ext : Externals} (mat_dict : gmap Z Material)
    (json_batches : list JsonWmoRenderBatch) (slots : list Material)
    (f : BMFace) (i : Z) : Prop :=
  ∃ batch mat_ID mat slot,
    Py.index json_batches i = Ok batch ∧
    batch_mat_ID batch = Ok mat_ID ∧
    mat_dict !! mat_ID = Some mat ∧
    0 ≤ bf_material_index f ∧
    slots !! Z.to_nat (bf_material_index f) = Some slot ∧
    mat_name slot = mat_name mat.

(** The faces of some batches, each with the position of its batch. *)
Definition tag_faces (ibs : list (Z * ObjGroup)) : list (Z * Tri) :=
  concat ((λ ib, pair ib.1 <$> og_faces ib.2) <$> ibs).

(** The state of the builder after the faces [srcs]: a mapped vertex
    sits where the obj has it, the faces of the mesh are the faces [srcs]
    in order, each with the material of its batch, and no two slots hold
    materials of the same name. *)
Definition built `{Ext : Externals} (obj_data : ObjData) (mat_dict : gmap Z Material)
    (json_batches : list JsonWmoRenderBatch) (st : builder)
    (srcs : list (Z * Tri)) : Prop :=
  (∀ v vert, b_v_dict st !! v = Some vert →
     placed obj_data (bm_verts (b_bm st)) vert v) ∧
  Forall2 (λ f src, corners obj_data (bm_verts (b_bm st)) f src.2 ∧
                    wears mat_dict json_batches (b_materials st) f src.1)
          (bm_faces (b_bm st)) srcs ∧
  NoDup (mat_name <$> b_materials st).

(** The colours of the vertex [v] of the obj: for each colour layer, the
    colour read at [v - 1]. *)
Definition vertex_colors `{Ext : Externals} (color_list : list (list Z)) (v : Z)
    : result (list fColor4) :=
  mapM (λ sublist, c ← Py.index sublist (v - 1); Ok (wmo_read_color c "CImVector"))
       color_list.

(** The vertex [vert] of the mesh is stashed with the colours of the
    vertex [v] of the obj. *)
Definition tinted `{Ext : Externals} (color_list : list (list Z))
    (colors : gmap nat (list fColor4)) (vert : nat) (v : Z) : Prop :=
  ∃ cs, vertex_colors color_list v = Ok cs ∧ colors !! vert = Some cs.

(** A corner of a face: a vertex of the mesh with the colours of [v],
    which is either the vertex that [v] is mapped to or a vertex that
    nothing is mapped to. *)
Definition shaded `{Ext : Externals} (color_list : list (list Z)) (st : builder)
    (vert : nat) (v : Z) : Prop :=
  (vert < length (bm_verts (b_bm st)))%nat ∧
  tinted color_list (b_colors st) vert v ∧
  (b_v_dict st !! v = Some vert ∨ ∀ v0, b_v_dict st !! v0 ≠ Some vert).

(** The colours of the builder after the faces [srcs]: a mapped vertex
    has the colours of the one vertex that is mapped to it, and the
    corners of the faces of the mesh have the colours of the corners of
    the faces [srcs]. *)
Definition coloured `{Ext : Externals} (color_list : list (list Z)) (st : builder)
    (srcs : list Tri) : Prop :=
  (∀ v vert, b_v_dict st !! v = Some vert →
     (vert < length (bm_verts (b_bm st)))%nat ∧
     tinted color_list (b_colors st) vert v) ∧
  (∀ v v' vert, b_v_dict st !! v = Some vert → b_v_dict st !! v' = Some vert →
     v = v') ∧
  Forall2 (λ f src, shaded color_list st (bf_verts f).1.1 src.1.1 ∧
                    shaded color_list st (bf_verts f).1.2 src.1.2 ∧
                    shaded color_list st (bf_verts f).2 src.2)
          (bm_faces (b_bm st)) srcs.

(** The exceptions of [read_obj] on a file that can be opened. *)
Definition reader_error (e : exn) : Prop :=
  e = faces_before_group ∨
  e = ValueError "could not convert string to float" ∨
  e = ValueError "invalid literal for int() with base 10" ∨
  e = IndexError ∨
  e = UnicodeDecodeError.

(** * Properties *)

(** ** Results and loops *)

Lemma bind_Ok {A B} (m : result A) (k : A → result B) (b : B) :
  m ≫= k = Ok b ↔ ∃ a, m = Ok a ∧ k a = Ok b.
Proof.
  destruct m as [a|e]; simpl; split.
  - intros H. by exists a.
  - by intros (a' & [= <-] & H).
  - discriminate.
  - by intros (a' & [=] & _).
Qed.

Lemma bind_Raise {A B} (m : result A) (k : A → result B) (e : exn) :
  m ≫= k = Raise e ↔ m = Raise e ∨ ∃ a, m = Ok a ∧ k a = Raise e.
Proof.
  destruct m as [a|e']; simpl; split.
  - intros H. right. by exists a.
  - intros [[=] | (a' & [= <-] & H)]. done.
  - intros [= ->]. by left.
  - intros [[= ->] | (a' & [=] & _)]. done.
Qed.

Lemma of_option_Raise {A} (e0 e : exn) (o : option A) :
  of_option e0 o = Raise e → e = e0.
Proof. destruct o; simpl; [discriminate | by intros [= <-]]. Qed.

Lemma foldM_cons {S A} (body : S → A → result S) (st : S) (x : A) (l : list A) :
  foldM body st (x :: l) = body st x ≫= λ st', foldM body st' l.
Proof. done. Qed.

Lemma foldM_app {S A} (body : S → A → result S) (st : S) (l1 l2 : list A) :
  foldM body st (l1 ++ l2) = foldM body st l1 ≫= λ st', foldM body st' l2.
Proof.
  revert st. induction l1 as [|x l1 IH]; intros st; simpl; [done|].
  destruct (body st x) as [st'|e]; simpl; [apply IH | done].
Qed.

Lemma mapM_Raise {A B} (f : A → result B) (l : list A) (e : exn) :
  mapM f l = Raise e → ∃ x, x ∈ l ∧ f x = Raise e.
Proof.
  induction l as [|x l IH]; simpl; [discriminate|].
  destruct (f x) as [y|e'] eqn:Hx; simpl.
  - destruct (mapM f l) as [ys|e'']; simpl; [discriminate|].
    intros [= ->]. destruct IH as (x' & Hin & Hx'); [done|].
    exists x'. split; [by right | done].
  - intros [= ->]. exists x. split; [by left | done].
Qed.

Lemma mapM_Ok_length {A B} (f : A → result B) (l : list A) (ys : list B) :
  mapM f l = Ok ys → length ys = length l.
Proof.
  revert ys. induction l as [|x l IH]; intros ys; simpl.
  - by intros [= <-].
  - destruct (f x) as [y|]; simpl; [|discriminate].
    destruct (mapM f l) as [ys'|]; simpl; [|discriminate].
    intros [= <-]. simpl. f_equal. by apply IH.
Qed.

(** ** Python indexing *)

Lemma index_Raise {A} (l : list A) (i : Z) (e : exn) :
  Py.index l i = Raise e → e = IndexError.
Proof.
  unfold Py.index. destruct (Py.norm_index l i) as [n|]; [|by intros [= <-]].
  destruct (l !! n); simpl; [discriminate | by intros [= <-]].
Qed.

Lemma index_in_range {A} (l : list A) (i : Z) :
  0 ≤ i < Py.len l → Py.index l i = of_option IndexError (l !! Z.to_nat i).
Proof.
  intros [H0 H1]. unfold Py.index, Py.norm_index.
  destruct (Z.leb_spec 0 i); [|lia]. destruct (Z.ltb_spec i (Py.len l)); [done|lia].
Qed.

Lemma index_Ok_in_range {A} (l : list A) (i : Z) :
  0 ≤ i < Py.len l → ∃ x, l !! Z.to_nat i = Some x ∧ Py.index l i = Ok x.
Proof.
  intros H. rewrite index_in_range by done.
  destruct (lookup_lt_is_Some_2 l (Z.to_nat i)) as [x Hx].
  { unfold Py.len in H. lia. }
  exists x. by rewrite Hx.
Qed.

Lemma index_too_large {A} (l : list A) (i : Z) :
  Py.len l ≤ i → Py.index l i = Raise IndexError.
Proof.
  intros H. unfold Py.index, Py.norm_index, Py.len in *.
  destruct (Z.leb_spec 0 i); [|lia].
  destruct (Z.ltb_spec i (Z.of_nat (length l))); [lia|done].
Qed.

Lemma index_last {A} (l : list A) (x : A) :
  Py.index (l ++ [x]) (-1) = Ok x.
Proof.
  unfold Py.index, Py.norm_index, Py.len. simpl.
  rewrite length_app. simpl.
  destruct (Z.leb_spec 0 (-1 + Z.of_nat (length l + 1))); [|lia].
  replace (Z.to_nat (-1 + Z.of_nat (length l + 1))) with (length l) by lia.
  by rewrite list_lookup_middle.
Qed.

Lemma update_Raise {A} (l : list A) (i : Z) (f : A → A) (e : exn) :
  Py.update l i f = Raise e → e = IndexError.
Proof.
  unfold Py.update. destruct (Py.norm_index l i); [discriminate | by intros [= <-]].
Qed.

Lemma update_length {A} (l l' : list A) (i : Z) (f : A → A) :
  Py.update l i f = Ok l' → length l' = length l.
Proof.
  unfold Py.update. destruct (Py.norm_index l i); [|discriminate].
  intros [= <-]. apply length_alter.
Qed.

Lemma update_in_range {A} (l : list A) (i : Z) (f : A → A) :
  0 ≤ i < Py.len l → Py.update l i f = Ok (alter f (Z.to_nat i) l).
Proof.
  intros [H0 H1]. unfold Py.update, Py.norm_index.
  destruct (Z.leb_spec 0 i); [|lia]. destruct (Z.ltb_spec i (Py.len l)); [done|lia].
Qed.

Lemma update_empty {A} (i : Z) (f : A → A) :
  Py.update [] i f = Raise IndexError.
Proof.
  unfold Py.update, Py.norm_index, Py.len. simpl length.
  change (Z.of_nat 0) with 0. rewrite Z.add_0_r.
  destruct (Z.leb_spec 0 i); [|done].
  destruct (Z.ltb_spec i 0); [lia|done].
Qed.

Lemma clamp_nonneg {A} (l : list A) (i : Z) :
  0 ≤ i → Py.clamp l i = (Z.to_nat i `min` length l)%nat.
Proof.
  intros Hi. unfold Py.clamp, Py.len.
  destruct (Z.ltb_spec i 0); lia.
Qed.

Lemma slice_prefix {A} (l : list A) (n : Z) :
  0 ≤ n → Py.slice l 0 n = take (Z.to_nat n) l.
Proof.
  intros Hn. unfold Py.slice. rewrite !clamp_nonneg by lia.
  change (Z.to_nat 0) with 0%nat. rewrite Nat.min_0_l, Nat.sub_0_r, drop_0.
  destruct (Nat.le_ge_cases (Z.to_nat n) (length l)).
  - by rewrite Nat.min_l.
  - rewrite Nat.min_r by done. by rewrite !take_ge by lia.
Qed.

Lemma slice_window {A} (l : list A) (a b : Z) :
  0 ≤ a → a ≤ b → b ≤ Py.len l →
  Py.slice l a b = take (Z.to_nat (b - a)) (drop (Z.to_nat a) l).
Proof.
  intros Ha Hab Hb. unfold Py.slice, Py.len in *.
  rewrite !clamp_nonneg by lia. f_equal; f_equal; lia.
Qed.

(** ** The reader *)

Section ReaderFacts.
Context `{Ext : Externals}.

Lemma read_lines_app (st : reader_state) (l1 l2 : list string) :
  read_lines st (l1 ++ l2) = read_lines st l1 ≫= λ st', read_lines st' l2.
Proof. apply foldM_app. Qed.

Lemma read_lines_cons (st : reader_state) (l : string) (ls : list string) :
  read_lines st (l :: ls) = read_line st l ≫= λ st', read_lines st' ls.
Proof. done. Qed.

Lemma read_line_face (od : ObjData) (gi : Z) (l : string) :
  is_record "f" l →
  read_line (od, gi) l = read_face od gi (Py.split l) ≫= λ od', Ok (od', gi).
Proof.
  unfold is_record, record_kind, read_line.
  destruct (Py.split l) as [|k tl]; [discriminate|]. by intros [= ->].
Qed.

Lemma read_line_usemtl (od : ObjData) (gi : Z) (l : string) :
  is_record "usemtl" l →
  read_line (od, gi) l = read_usemtl od gi (Py.split l) ≫= λ od', Ok (od', gi).
Proof.
  unfold is_record, record_kind, read_line.
  destruct (Py.split l) as [|k tl]; [discriminate|]. by intros [= ->].
Qed.

Ltac kind_case :=
  match goal with
  | |- context [String.eqb ?k ?c] =>
      destruct (String.eqb_spec k c) as [->|?]
  end.

Ltac bind_ok H :=
  let x := fresh "x" in let Hx := fresh "Hx" in
  apply bind_Ok in H as (x & Hx & H).

Ltac update_lengths :=
  repeat match goal with
         | H : Py.update _ _ _ = Ok _ |- _ => apply update_length in H
         end.

(** A [g] record moves [groupIndex] to the group it appends; no other
    record changes [groupIndex] or the number of groups. *)
Lemma read_line_groups (od od' : ObjData) (gi gi' : Z) (l : string) :
  read_line (od, gi) l = Ok (od', gi') →
  (is_record "g" l →
     gi' = gi + 1 ∧ length (od_groups od') = S (length (od_groups od))) ∧
  (¬ is_record "g" l →
     gi' = gi ∧ length (od_groups od') = length (od_groups od)).
Proof.
  unfold is_record, record_kind, read_line.
  destruct (Py.split l) as [|k tl]; simpl head.
  { intros [= <- <-]. by split. }
  repeat kind_case; intros H;
    (split; intros Hk; [simpl in Hk; try discriminate Hk; try congruence | try (by destruct Hk)]);
    repeat (bind_ok H); try (injection H as <- <-; done).
  - (* vt2 *)
    destruct (negb _); [bind_ok H|]; by injection H as <- <-.
  - (* f *)
    injection H as <- <-. split; [done|].
    unfold read_face in Hx. destruct (gi <? 0); [discriminate|].
    repeat (bind_ok Hx). injection Hx as <-. simpl.
    update_lengths. congruence.
  - (* g *)
    unfold read_group in H. repeat (bind_ok H). injection H as <- <-.
    split; [done|]. simpl in *. update_lengths.
    rewrite length_app in *. simpl in *. lia.
  - (* usemtl *)
    injection H as <- <-. split; [done|].
    unfold read_usemtl in Hx. repeat (bind_ok Hx). injection Hx as <-. simpl.
    update_lengths. congruence.
Qed.

Lemma read_lines_no_group (ls : list string) (od od' : ObjData) (gi gi' : Z) :
  no_group ls →
  read_lines (od, gi) ls = Ok (od', gi') →
  gi' = gi ∧ length (od_groups od') = length (od_groups od).
Proof.
  intros Hng. revert od gi.
  induction Hng as [|l ls Hl _ IH]; intros od gi; simpl.
  - by intros [= <- <-].
  - intros H. bind_ok H. destruct x as [od1 gi1].
    apply read_line_groups in Hx as [_ Hx]. destruct (Hx Hl) as [-> Hlen].
    destruct (IH _ _ H) as [-> Hlen']. split; [done | congruence].
Qed.

Lemma reader_init_inv : reader_inv reader_init.
Proof. done. Qed.

Lemma read_line_inv (st st' : reader_state) (l : string) :
  reader_inv st → read_line st l = Ok st' → reader_inv st'.
Proof.
  destruct st as [od gi], st' as [od' gi']. unfold reader_inv, Py.len. simpl.
  intros Hinv H. apply read_line_groups in H as [Hg Hng].
  destruct (decide (is_record "g" l)) as [Hk|Hk].
  - destruct (Hg Hk) as [-> ->]. lia.
  - destruct (Hng Hk) as [-> ->]. lia.
Qed.

Lemma read_lines_inv (ls : list string) (st st' : reader_state) :
  reader_inv st → read_lines st ls = Ok st' → reader_inv st'.
Proof.
  revert st. induction ls as [|l ls IH]; intros st Hinv; simpl.
  - by intros [= <-].
  - intros H. bind_ok H. eapply IH; [|done]. by eapply read_line_inv.
Qed.

(** Once a group is declared there is a current group. *)
Lemma read_lines_group_declared (ls : list string) (st st' : reader_state) :
  -1 ≤ st.2 → read_lines st ls = Ok st' →
  -1 ≤ st'.2 ∧ (0 ≤ st.2 ∨ Exists (is_record "g") ls → 0 ≤ st'.2).
Proof.
  revert st. induction ls as [|l ls IH]; intros [od gi]; simpl; intros Hgi.
  - intros [= <-]. simpl. split; [done|]. intros [?|H%Exists_nil]; done.
  - intros H. bind_ok H. destruct x as [od1 gi1].
    apply read_line_groups in Hx as [Hg Hng].
    destruct (decide (is_record "g" l)) as [Hk|Hk].
    + destruct (Hg Hk) as [-> _].
      destruct (IH (od1, gi + 1)) as [? Hpos]; [simpl; lia | done |]. simpl in *.
      split; [done|]. intros _. apply Hpos. left. lia.
    + destruct (Hng Hk) as [-> _].
      destruct (IH (od1, gi)) as [? Hpos]; [simpl; lia | done |]. simpl in *.
      split; [done|]. intros [?|Hex]; apply Hpos; [by left|].
      apply Exists_cons in Hex as [?|?]; [done | by right].
Qed.

Lemma floats_Raise (ls : list string) (a b : Z) (e : exn) :
  floats ls a b = Raise e → e = ValueError "could not convert string to float".
Proof.
  intros (x & _ & H)%mapM_Raise. unfold py_float in H.
  destruct (parse_float x); simpl in H; [discriminate | by injection H].
Qed.

Lemma utf8_decode_Raise (tok : string) (e : exn) :
  utf8_decode tok = Raise e → e = UnicodeDecodeError.
Proof.
  unfold utf8_decode. destruct (utf8 tok); simpl; [discriminate | by intros [= <-]].
Qed.

Lemma int_Raise (tok : string) (e : exn) :
  Py.int tok = Raise e → e = ValueError "invalid literal for int() with base 10".
Proof.
  unfold Py.int. intros H.
  repeat match type of H with
         | context [match ?x with _ => _ end] => destruct x
         end; by apply of_option_Raise in H.
Qed.

Lemma face_vertex_indices_Raise (ls : list string) (e : exn) :
  face_vertex_indices ls = Raise e →
  e = ValueError "invalid literal for int() with base 10".
Proof. intros (x & _ & H)%mapM_Raise. by apply int_Raise in H. Qed.

Ltac bind_raise H :=
  repeat match type of H with
         | _ ≫= _ = Raise _ => apply bind_Raise in H as [H | (? & ? & H)]
         end.

Ltac raise_leaf H :=
  first [ apply index_Raise in H | apply update_Raise in H
        | apply floats_Raise in H | apply utf8_decode_Raise in H
        | apply face_vertex_indices_Raise in H ].

(** The error about faces before a group has one source: an [f] record
    read while no group is current. *)
Lemma read_line_faces_before_group (od : ObjData) (gi : Z) (l : string) :
  read_line (od, gi) l = Raise faces_before_group →
  is_record "f" l ∧ gi < 0.
Proof.
  unfold is_record, record_kind, read_line.
  destruct (Py.split l) as [|k tl]; simpl head; [discriminate|].
  repeat kind_case; intros H; bind_raise H;
    try (raise_leaf H; discriminate H); try discriminate H.
  - destruct (negb _); bind_raise H; try discriminate H.
    raise_leaf H; discriminate H.
  - split; [done|]. unfold read_face in H.
    destruct (Z.ltb_spec gi 0); [done|].
    bind_raise H; try discriminate H; raise_leaf H; discriminate H.
  - unfold read_group in H. bind_raise H; try discriminate H;
      raise_leaf H; discriminate H.
  - unfold read_usemtl in H. bind_raise H; try discriminate H;
      raise_leaf H; discriminate H.
Qed.

Lemma read_obj_Raise (content : string) (e : exn) :
  read_obj content = Raise e ↔ read_lines reader_init (Py.lines content) = Raise e.
Proof.
  unfold read_obj. rewrite bind_Raise. split; [|by left].
  intros [H | (st & _ & H)]; [done | discriminate].
Qed.

Lemma read_obj_Ok (content : string) (od : ObjData) :
  read_obj content = Ok od →
  ∃ gi, read_lines reader_init (Py.lines content) = Ok (od, gi).
Proof.
  unfold read_obj. intros ([od' gi] & H & [= <-])%bind_Ok. by exists gi.
Qed.

(** Where a failing run of the reader stopped. *)
Lemma read_lines_Raise (ls : list string) (st : reader_state) (e : exn) :
  read_lines st ls = Raise e →
  ∃ pre l post st1,
    ls = pre ++ l :: post ∧ read_lines st pre = Ok st1 ∧ read_line st1 l = Raise e.
Proof.
  revert st. induction ls as [|l ls IH]; intros st; simpl; [discriminate|].
  intros [H | (st1 & H1 & H)]%bind_Raise.
  - by exists [], l, ls, st.
  - destruct (IH _ H) as (pre & l' & post & st2 & -> & Hpre & Hl).
    exists (l :: pre), l', post, st2. split; [done|]. split; [|done].
    rewrite read_lines_cons, H1. done.
Qed.

(** A face record read while a group is current is recorded in that
    group, whatever its vertex indexes are. *)
Lemma read_face_records (od : ObjData) (gi a b c : Z) (rest : list Z)
    (ls : list string) :
  reader_inv (od, gi) → 0 ≤ gi →
  face_vertex_indices ls = Ok (a :: b :: c :: rest) →
  ∃ g od',
    od_groups od !! Z.to_nat gi = Some g ∧
    read_face od gi ls = Ok od' ∧
    od_verts od' = od_verts od ∧
    length (od_groups od') = length (od_groups od) ∧
    od_groups od' !! Z.to_nat gi =
      Some {| og_mtlname := og_mtlname g; og_name := og_name g;
              og_verts := og_verts g ∪ list_to_set ((λ i, i - 1) <$> a :: b :: c :: rest);
              og_faces := og_faces g ++ [(a, b, c)] |}.
Proof.
  unfold reader_inv. simpl. intros Hinv Hgi Hfv.
  destruct (index_Ok_in_range (od_groups od) gi) as (g & Hg & Hig); [lia|].
  exists g. unfold read_face. destruct (Z.ltb_spec gi 0); [lia|].
  rewrite Hfv. cbn [mbind result_bind]. rewrite Hig. cbn [mbind result_bind].
  rewrite !index_in_range by (unfold Py.len; simpl length; lia).
  change (Z.to_nat 0) with 0%nat. change (Z.to_nat 1) with 1%nat.
  change (Z.to_nat 2) with 2%nat.
  cbn [lookup list_lookup of_option mbind result_bind].
  rewrite update_in_range by lia. cbn [mbind result_bind].
  rewrite update_in_range
    by (unfold Py.len in *; rewrite length_alter; lia).
  cbn [mbind result_bind]. eexists. split; [done|]. split; [done|]. simpl.
  split; [done|]. split; [by rewrite !length_alter|].
  by rewrite !list_lookup_alter_eq, Hg.
Qed.

(** ** The claims about the reader *)

Lemma read_lines_before_group (pre : list string) (od : ObjData) (gi : Z) :
  no_group pre → read_lines reader_init pre = Ok (od, gi) →
  gi = -1 ∧ od_groups od = [].
Proof.
  intros Hng H. apply read_lines_no_group in H as [-> Hlen]; [|done].
  split; [done|]. by apply nil_length_inv.
Qed.

Lemma read_lines_after_group (pre : list string) (st : reader_state) :
  Exists (is_record "g") pre → read_lines reader_init pre = Ok st →
  reader_inv st ∧ 0 ≤ st.2.
Proof.
  intros Hg H. split.
  - eapply read_lines_inv; [apply reader_init_inv | done].
  - apply read_lines_group_declared in H as [_ H]; [|done]. apply H. by right.
Qed.

(** C7, as the code has it. A face record that comes before every group
    record makes the reader fail. The exception is the error about faces
    before a face group when the records before the face record are read
    without an exception; when one of them raises, the reader ends with
    that exception and the face record is never reached. After a group
    record, a face record never raises that error: its triple of vertex
    indexes is appended to the faces of the current group. And the reader
    raises that error in no other situation. *)
Theorem read_obj_faces_before_group (content l : string) (pre post : list string) :
  Py.lines content = pre ++ l :: post →
  is_record "f" l →
  (no_group pre →
     (∀ od, read_obj content ≠ Ok od) ∧
     (∀ st, read_lines reader_init pre = Ok st →
        read_obj content = Raise faces_before_group) ∧
     (∀ e, read_lines reader_init pre = Raise e → read_obj content = Raise e)) ∧
  (Exists (is_record "g") pre →
     ∀ st, read_lines reader_init pre = Ok st →
       read_line st l ≠ Raise faces_before_group ∧
       ∀ a b c rest,
         face_vertex_indices (Py.split l) = Ok (a :: b :: c :: rest) →
         ∃ g od',
           od_groups st.1 !! Z.to_nat st.2 = Some g ∧
           read_line st l = Ok (od', st.2) ∧
           og_faces <$> od_groups od' !! Z.to_nat st.2 =
             Some (og_faces g ++ [(a, b, c)])) ∧
  (read_obj content = Raise faces_before_group →
     ∃ pre' l' post' st,
       Py.lines content = pre' ++ l' :: post' ∧ no_group pre' ∧
       is_record "f" l' ∧ read_lines reader_init pre' = Ok st).
Proof.
  intros Hlines Hf. split; [|split].
  - intros Hng.
    assert (∀ st, read_lines reader_init pre = Ok st →
              read_lines reader_init (Py.lines content) = Raise faces_before_group)
      as Hreach.
    { intros [od gi] Hpre. rewrite Hlines, read_lines_app, Hpre.
      cbn [mbind result_bind]. rewrite read_lines_cons.
      destruct (read_lines_before_group _ _ _ Hng Hpre) as [-> _].
      rewrite read_line_face by done. unfold read_face. done. }
    split; [|split].
    + intros od (gi & Hok)%read_obj_Ok.
      destruct (read_lines reader_init pre) as [st|e] eqn:Hpre.
      * rewrite (Hreach st) in Hok; done.
      * rewrite Hlines, read_lines_app, Hpre in Hok. done.
    + intros st Hpre. apply read_obj_Raise. by apply (Hreach st).
    + intros e Hpre. apply read_obj_Raise.
      by rewrite Hlines, read_lines_app, Hpre.
  - intros Hg [od gi] Hpre.
    destruct (read_lines_after_group _ _ Hg Hpre) as [Hinv Hgi]. simpl in Hgi.
    split.
    + intros [_ Hneg]%read_line_faces_before_group. lia.
    + intros a b c rest Hfv.
      destruct (read_face_records od gi a b c rest _ Hinv Hgi Hfv)
        as (g & od' & Hg0 & Hface & _ & _ & Hnew).
      exists g, od'. cbn [fst snd]. split; [done|]. split.
      * rewrite read_line_face by done. by rewrite Hface.
      * by rewrite Hnew.
  - intros Hraise%read_obj_Raise.
    apply read_lines_Raise in Hraise
      as (pre' & l' & post' & [od1 gi1] & Heq & Hpre' & Hl').
    apply read_line_faces_before_group in Hl' as [Hf' Hneg].
    exists pre', l', post', (od1, gi1). split; [done|]. split; [|done].
    apply not_Exists_Forall; [apply _|]. intros Hex.
    apply read_lines_after_group in Hpre' as [_ Hpos]; [|done]. simpl in Hpos. lia.
Qed.

(** C10, as the code has it. A [usemtl] record that comes before every
    group record makes the reader fail. When a record before it raises,
    the reader ends with that exception. When the records before it are
    read, the group list is empty and [groupIndex] is -1, and the
    exception is never the error about faces before a face group: it is
    the IndexError of [line_split[1]] when the record has no name, the
    UnicodeDecodeError when the name does not decode, and the IndexError
    of indexing the empty group list when the name decodes. After a group
    record, a [usemtl] record with a name that decodes sets the material
    name of the current group. *)
Theorem read_obj_usemtl_before_group (content l : string) (pre post : list string) :
  Py.lines content = pre ++ l :: post →
  is_record "usemtl" l →
  (no_group pre →
     (∀ od, read_obj content ≠ Ok od) ∧
     (∀ e, read_lines reader_init pre = Raise e → read_obj content = Raise e) ∧
     (∀ st, read_lines reader_init pre = Ok st →
        od_groups st.1 = [] ∧ st.2 = -1 ∧
        read_obj content ≠ Raise faces_before_group ∧
        (Py.split l !! 1%nat = None →
           Py.index (Py.split l) 1 = Raise IndexError ∧
           read_obj content = Raise IndexError) ∧
        (∀ tok, Py.split l !! 1%nat = Some tok → utf8 tok = None →
           read_obj content = Raise UnicodeDecodeError) ∧
        (∀ tok name f, Py.split l !! 1%nat = Some tok → utf8 tok = Some name →
           Py.update (od_groups st.1) st.2 f = Raise IndexError ∧
           read_obj content = Raise IndexError))) ∧
  (Exists (is_record "g") pre →
     ∀ st tok name,
       read_lines reader_init pre = Ok st →
       Py.split l !! 1%nat = Some tok → utf8 tok = Some name →
       ∃ g od',
         od_groups st.1 !! Z.to_nat st.2 = Some g ∧
         read_line st l = Ok (od', st.2) ∧
         od_groups od' !! Z.to_nat st.2 =
           Some {| og_mtlname := Some name; og_name := og_name g;
                   og_verts := og_verts g; og_faces := og_faces g |}).
Proof.
  intros Hlines Hu.
  assert (∀ tok, Py.split l !! 1%nat = Some tok → Py.index (Py.split l) 1 = Ok tok)
    as Hindex.
  { intros tok Htok. apply lookup_lt_Some in Htok as Hlt.
    rewrite index_in_range by (unfold Py.len; lia).
    change (Z.to_nat 1) with 1%nat. by rewrite Htok. }
  split.
  - intros Hng.
    assert (∀ od gi e, read_lines reader_init pre = Ok (od, gi) →
              read_line (od, gi) l = Raise e → read_obj content = Raise e) as Hreach.
    { intros od gi e Hpre He. apply read_obj_Raise.
      rewrite Hlines, read_lines_app, Hpre. cbn [mbind result_bind].
      by rewrite read_lines_cons, He. }
    assert (∀ od gi, read_lines reader_init pre = Ok (od, gi) →
              od_groups od = [] ∧ gi = -1 ∧
              (Py.split l !! 1%nat = None →
                 Py.index (Py.split l) 1 = Raise IndexError ∧
                 read_line (od, gi) l = Raise IndexError) ∧
              (∀ tok, Py.split l !! 1%nat = Some tok → utf8 tok = None →
                 read_line (od, gi) l = Raise UnicodeDecodeError) ∧
              (∀ tok name, Py.split l !! 1%nat = Some tok → utf8 tok = Some name →
                 read_line (od, gi) l = Raise IndexError)) as Hstep.
    { intros od gi Hpre.
      destruct (read_lines_before_group _ _ _ Hng Hpre) as [-> Hnil].
      split; [done|]. split; [done|].
      rewrite read_line_usemtl by done. unfold read_usemtl. rewrite Hnil.
      split; [|split].
      - intros Hnone.
        assert (Py.index (Py.split l) 1 = Raise IndexError) as Hraise.
        { apply index_too_large. apply lookup_ge_None in Hnone.
          unfold Py.len. lia. }
        by rewrite Hraise.
      - intros tok Htok Hname. rewrite (Hindex tok Htok).
        cbn [mbind result_bind]. unfold utf8_decode. by rewrite Hname.
      - intros tok name Htok Hname. rewrite (Hindex tok Htok).
        cbn [mbind result_bind]. unfold utf8_decode. rewrite Hname.
        cbn [of_option mbind result_bind]. by rewrite update_empty. }
    split; [|split].
    + intros od (gi & Hok)%read_obj_Ok.
      destruct (read_lines reader_init pre) as [[od1 gi1]|e] eqn:Hpre.
      * destruct (Hstep _ _ eq_refl) as (_ & _ & Hmiss & Hbad & Hgood).
        assert (∃ e, read_obj content = Raise e) as [e He].
        { destruct (Py.split l !! 1%nat) as [tok|] eqn:Htok.
          - destruct (utf8 tok) as [name|] eqn:Hname.
            + exists IndexError. eapply Hreach; [done|]. by eapply Hgood.
            + exists UnicodeDecodeError. eapply Hreach; [done|]. by eapply Hbad.
          - exists IndexError. eapply Hreach; [done|]. by apply Hmiss. }
        apply read_obj_Raise in He. congruence.
      * rewrite Hlines, read_lines_app, Hpre in Hok. done.
    + intros e Hpre. apply read_obj_Raise.
      by rewrite Hlines, read_lines_app, Hpre.
    + intros [od gi] Hpre.
      destruct (Hstep _ _ Hpre) as (Hnil & -> & Hmiss & Hbad & Hgood).
      cbn [fst snd]. split; [done|]. split; [done|].
      assert (∀ e, read_line (od, -1) l = Raise e → read_obj content = Raise e)
        as Hup by (intros e; by apply Hreach).
      split; [|split; [|split]].
      * destruct (Py.split l !! 1%nat) as [tok|] eqn:Htok.
        -- destruct (utf8 tok) as [name|] eqn:Hname.
           ++ rewrite (Hup IndexError) by (by eapply Hgood). discriminate.
           ++ rewrite (Hup UnicodeDecodeError) by (by eapply Hbad). discriminate.
        -- rewrite (Hup IndexError) by (by apply Hmiss). discriminate.
      * intros Hnone. destruct (Hmiss Hnone) as [? ?]. split; [done|]. by apply Hup.
      * intros tok Htok Hname. apply Hup. by eapply Hbad.
      * intros tok name f Htok Hname. rewrite Hnil. split; [apply update_empty|].
        apply Hup. by eapply Hgood.
  - intros Hg [od gi] tok name Hpre Htok Hname.
    destruct (read_lines_after_group _ _ Hg Hpre) as [Hinv Hgi].
    unfold reader_inv in Hinv. cbn [fst snd] in *.
    destruct (index_Ok_in_range (od_groups od) gi) as (g & Hg0 & _); [lia|].
    exists g. rewrite read_line_usemtl by done. unfold read_usemtl.
    rewrite (Hindex tok Htok).
    cbn [mbind result_bind]. unfold utf8_decode. rewrite Hname.
    cbn [of_option mbind result_bind].
    rewrite update_in_range by lia. cbn [mbind result_bind].
    eexists. split; [done|]. split; [done|]. simpl.
    by rewrite list_lookup_alter_eq, Hg0.
Qed.

End ReaderFacts.

(** ** The repacking of the groups *)

Section RepackFacts.
Context `{Ext : Externals}.

Ltac bind_ok H :=
  let x := fresh "x" in let Hx := fresh "Hx" in
  apply bind_Ok in H as (x & Hx & H).

Lemma index_last_nonempty {A} (l : list A) (x : A) :
  Py.index l (-1) = Ok x → 0 < Py.len l ∧ last l = Some x.
Proof.
  destruct l as [|y l _] using rev_ind.
  - discriminate.
  - rewrite index_last. intros [= ->]. unfold Py.len.
    rewrite length_app, last_snoc. simpl. split; [lia | done].
Qed.

Lemma heap_extend_lookup_0 (h : heap) (fc : loc) (l0 l1 l2 xs : list Z) :
  h !! fc = Some [l0; l1; l2] →
  heap_extend h fc 0 xs !! fc = Some [l0 ++ xs; l1; l2].
Proof. intros H. unfold heap_extend. by rewrite list_lookup_alter_eq, H. Qed.

Lemma heap_extend_lookup_1 (h : heap) (fc : loc) (l0 l1 l2 xs : list Z) :
  h !! fc = Some [l0; l1; l2] →
  heap_extend h fc 1 xs !! fc = Some [l0; l1 ++ xs; l2].
Proof. intros H. unfold heap_extend. by rewrite list_lookup_alter_eq, H. Qed.

Lemma zeros_replicate (n : Z) : Py.zeros n = replicate (Z.to_nat n) 0.
Proof. done. Qed.

(** What the branch on the number of colour layers appends. *)
Lemma extend_colors_spec (h : heap) (fc : loc) (vcolors : list (list Z))
    (n count : Z) (l0 l1 l2 : list Z) :
  h !! fc = Some [l0; l1; l2] →
  ∃ h' a b,
    extend_colors h fc vcolors n count = Ok h' ∧
    h' !! fc = Some [l0 ++ a; l1 ++ b; l2] ∧
    match vcolors with
    | [] => if 0 <? count
            then a = Py.zeros n ∧ b = Py.zeros n
            else a = [] ∧ b = []
    | [c0] => a = Py.slice c0 0 n ∧ b = Py.zeros n
    | [c0; c1] => a = Py.slice c0 0 n ∧ b = Py.slice c1 0 n
    | _ => a = [] ∧ b = []
    end.
Proof.
  intros Hh. unfold extend_colors.
  destruct vcolors as [|c0 [|c1 [|c2 rest]]].
  - cbn. destruct (0 <? count).
    + eexists _, _, _. split; [done|]. split; [|done].
      by erewrite heap_extend_lookup_1; [|by apply heap_extend_lookup_0].
    + exists h, [], []. by rewrite !app_nil_r.
  - cbn. eexists _, _, _. split; [done|]. split; [|done].
    by erewrite heap_extend_lookup_1; [|by apply heap_extend_lookup_0].
  - cbn. eexists _, _, _. split; [done|]. split; [|done].
    by erewrite heap_extend_lookup_1; [|by apply heap_extend_lookup_0].
  - destruct (Z.eqb_spec (Py.len (c0 :: c1 :: c2 :: rest)) 2) as [E|_];
      [unfold Py.len in E; simpl in E; lia|].
    destruct (Z.eqb_spec (Py.len (c0 :: c1 :: c2 :: rest)) 1) as [E|_];
      [unfold Py.len in E; simpl in E; lia|].
    destruct (Z.eqb_spec (Py.len (c0 :: c1 :: c2 :: rest)) 0) as [E|_];
      [unfold Py.len in E; simpl in E; lia|].
    exists h, [], []. by rewrite !app_nil_r.
Qed.

(** One iteration of the loop over the groups: it succeeds, appends one
    [WmoGroup], and only appends to [flat_colors]. *)
Lemma repack_group_spec (od : ObjData) (fc : loc) (h : heap) (offset : Z)
    (wgs : list WmoGroup) (g : JsonWmoGroup) (l0 l1 l2 : list Z) :
  h !! fc = Some [l0; l1; l2] →
  let n := Py.len (renderBatches g) in
  ∃ h' wg a b,
    repack_group od fc (h, offset, wgs) g
      = Ok (h', if 0 <? n then offset + n else offset, wgs ++ [wg]) ∧
    h' !! fc = Some [l0 ++ a; l1 ++ b; l2] ∧
    wg_batch_count wg = n ∧
    wg_obj_data wg = Some od ∧
    if 0 <? n then
      wg_mesh_batches wg = Some (Py.slice (od_groups od) offset (offset + n)) ∧
      wg_json_group wg = Some g ∧
      wg_json_batches wg = Some (renderBatches g) ∧
      wg_group_offset wg = offset + n ∧
      wg_colors wg = Some fc ∧
      ∃ final, Py.index (renderBatches g) (-1) = Ok final ∧
        match vertexColours g with
        | [] => if 0 <? vertex_count (Py.slice (od_groups od) offset (offset + n))
                then a = Py.zeros (lastVertex final + 1)
                     ∧ b = Py.zeros (lastVertex final + 1)
                else a = [] ∧ b = []
        | [c0] => a = Py.slice c0 0 (lastVertex final + 1)
                  ∧ b = Py.zeros (lastVertex final + 1)
        | [c0; c1] => a = Py.slice c0 0 (lastVertex final + 1)
                      ∧ b = Py.slice c1 0 (lastVertex final + 1)
        | _ => a = [] ∧ b = []
        end
    else
      wg_mesh_batches wg = None ∧ wg_colors wg = None ∧
      wg_json_group wg = None ∧ a = [] ∧ b = [].
Proof.
  intros Hh n. unfold repack_group. fold n.
  destruct (Z.ltb_spec 0 n) as [Hn|Hn].
  - destruct (index_Ok_in_range (renderBatches g) (n - 1)) as (final & Hl & _);
      [lia|].
    assert (Py.index (renderBatches g) (-1) = Ok final) as Hfinal.
    { unfold Py.index, Py.norm_index. fold n.
      destruct (Z.leb_spec 0 (-1)); [lia|].
      destruct (Z.leb_spec 0 (-1 + n)); [|lia].
      replace (-1 + n) with (n - 1) by lia. by rewrite Hl. }
    rewrite Hfinal. cbn [mbind result_bind].
    destruct (extend_colors_spec h fc (vertexColours g) (lastVertex final + 1)
                (vertex_count (Py.slice (od_groups od) offset (offset + n)))
                l0 l1 l2 Hh) as (h' & a & b & -> & Hh' & Hab).
    cbn [mbind result_bind]. eexists h', _, a, b.
    split; [done|]. split; [done|]. cbn. repeat (split; [done|]).
    by exists final.
  - eexists h, _, [], []. split; [done|]. rewrite !app_nil_r.
    split; [done|]. cbn. done.
Qed.

Lemma batch_count_nonneg (g : JsonWmoGroup) : 0 ≤ batch_count g.
Proof. unfold batch_count, Py.len. lia. Qed.

Lemma sum_batches_nonneg (gs : list JsonWmoGroup) : 0 ≤ sum_batches gs.
Proof.
  induction gs as [|g gs IH]; simpl; [done|].
  pose proof (batch_count_nonneg g). lia.
Qed.

Lemma repack_group_reconciles (od : ObjData) (fc : loc) (h : heap) (offset : Z)
    (wgs : list WmoGroup) (g : JsonWmoGroup) (l0 l1 l2 : list Z) :
  h !! fc = Some [l0; l1; l2] →
  ∃ h' wg a b,
    repack_group od fc (h, offset, wgs) g
      = Ok (h', offset + batch_count g, wgs ++ [wg]) ∧
    h' !! fc = Some [l0 ++ a; l1 ++ b; l2] ∧
    reconciles od fc offset g wg.
Proof.
  intros Hh.
  destruct (repack_group_spec od fc h offset wgs g l0 l1 l2 Hh)
    as (h' & wg & a & b & Hrun & Hh' & Hbc & Hod & Hrest).
  exists h', wg, a, b. unfold reconciles, batch_count in *.
  pose proof (batch_count_nonneg g) as Hpos. unfold batch_count in Hpos.
  destruct (Z.ltb_spec 0 (Py.len (renderBatches g))) as [Hn|Hn].
  - split; [done|]. split; [done|]. split; [done|]. split; [done|].
    destruct Hrest as (? & ? & ? & ? & ? & _). done.
  - replace (offset + Py.len (renderBatches g)) with offset by lia.
    split; [done|]. split; [done|]. split; [done|]. split; [done|].
    destruct Hrest as (? & ? & ? & _). done.
Qed.

(** The loop over the groups, from any state: it succeeds, the offset
    advances by the batch counts, one [WmoGroup] per group is appended
    in order, and [flat_colors] is only appended to. *)
Lemma repack_groups_spec (od : ObjData) (fc : loc) (gs : list JsonWmoGroup) :
  ∀ (h : heap) (offset : Z) (wgs : list WmoGroup) (l0 l1 l2 : list Z),
    h !! fc = Some [l0; l1; l2] →
    ∃ h' new a b,
      repack_groups od fc (h, offset, wgs) gs
        = Ok (h', offset + sum_batches gs, wgs ++ new) ∧
      h' !! fc = Some [l0 ++ a; l1 ++ b; l2] ∧
      length new = length gs ∧
      ∀ i g wg, gs !! i = Some g → new !! i = Some wg →
        reconciles od fc (offset + batches_before gs i) g wg.
Proof.
  induction gs as [|g gs IH]; intros h offset wgs l0 l1 l2 Hh.
  - exists h, [], [], []. rewrite !app_nil_r. cbn. rewrite Z.add_0_r.
    split; [done|]. split; [done|]. split; [done|]. intros i ??. by rewrite lookup_nil.
  - destruct (repack_group_reconciles od fc h offset wgs g l0 l1 l2 Hh)
      as (h1 & wg & a & b & Hrun & Hh1 & Hrec).
    destruct (IH h1 (offset + batch_count g) (wgs ++ [wg]) _ _ _ Hh1)
      as (h' & new & a' & b' & Hrun' & Hh' & Hlen & Hall).
    exists h', (wg :: new), (a ++ a'), (b ++ b').
    split.
    { unfold repack_groups in *. cbn [foldM]. rewrite Hrun.
      cbn [mbind result_bind]. rewrite Hrun'.
      change (sum_batches (g :: gs)) with (batch_count g + sum_batches gs).
      f_equal. f_equal; [f_equal; lia|]. by rewrite <- app_assoc. }
    split; [by rewrite !app_assoc|]. split; [simpl; by rewrite Hlen|].
    intros [|i] g' wg'; simpl.
    + intros [= <-] [= <-]. unfold batches_before. simpl.
      by rewrite Z.add_0_r.
    + intros Hg' Hwg'. specialize (Hall i g' wg' Hg' Hwg').
      unfold batches_before in *. simpl.
      by replace (offset + (batch_count g + sum_batches (take i gs)))
        with (offset + batch_count g + sum_batches (take i gs)) by lia.
Qed.

(** The face groups a reconciled group holds, when its range lies
    within the list of obj groups. *)
Lemma reconciles_claimed (od : ObjData) (fc : loc) (offset : Z)
    (g : JsonWmoGroup) (wg : WmoGroup) :
  reconciles od fc offset g wg →
  0 ≤ offset → offset + batch_count g ≤ Py.len (od_groups od) →
  claimed wg = take (Z.to_nat (batch_count g)) (drop (Z.to_nat offset) (od_groups od)) ∧
  length (claimed wg) = Z.to_nat (batch_count g).
Proof.
  intros (_ & _ & Hrec) Hoff Hfit. unfold claimed.
  pose proof (batch_count_nonneg g) as Hpos.
  destruct (Z.ltb_spec 0 (batch_count g)) as [Hn|Hn].
  - destruct Hrec as (-> & _). simpl.
    rewrite slice_window by lia.
    replace (offset + batch_count g - offset) with (batch_count g) by lia.
    split; [done|]. rewrite length_take, length_drop.
    unfold Py.len in Hfit. lia.
  - destruct Hrec as (-> & _). simpl.
    replace (batch_count g) with 0 by lia. done.
Qed.

Lemma claimed_concat (od : ObjData) (fc : loc) (gs : list JsonWmoGroup) :
  ∀ (new : list WmoGroup) (offset : Z),
    length new = length gs →
    (∀ i g wg, gs !! i = Some g → new !! i = Some wg →
       reconciles od fc (offset + batches_before gs i) g wg) →
    0 ≤ offset → offset + sum_batches gs ≤ Py.len (od_groups od) →
    concat (claimed <$> new)
      = take (Z.to_nat (sum_batches gs)) (drop (Z.to_nat offset) (od_groups od)).
Proof.
  induction gs as [|g gs IH]; intros new offset Hlen Hall Hoff Hfit.
  - destruct new; [done | discriminate].
  - destruct new as [|wg new]; [discriminate|].
    change (sum_batches (g :: gs)) with (batch_count g + sum_batches gs) in *.
    pose proof (batch_count_nonneg g) as Hg.
    pose proof (sum_batches_nonneg gs) as Hgs.
    assert (reconciles od fc offset g wg) as Hrec.
    { specialize (Hall 0%nat g wg eq_refl eq_refl).
      unfold batches_before in Hall. simpl in Hall. by rewrite Z.add_0_r in Hall. }
    destruct (reconciles_claimed _ _ _ _ _ Hrec) as [Hcl _]; [lia | lia |].
    cbn [fmap list_fmap concat]. rewrite Hcl.
    rewrite (IH new (offset + batch_count g)); [| by injection Hlen | | lia | lia].
    + rewrite Z2Nat.inj_add by lia. rewrite <- drop_drop.
      rewrite take_take_drop. f_equal. lia.
    + intros i g' wg' Hg' Hwg'. specialize (Hall (S i) g' wg' Hg' Hwg').
      unfold batches_before in *. simpl in Hall.
      by replace (offset + batch_count g + sum_batches (take i gs))
        with (offset + (batch_count g + sum_batches (take i gs))) by lia.
Qed.

(** The sanity loop looks up one obj group per render batch. *)
Lemma check_batch_fold (od : ObjData) (bs : list JsonWmoRenderBatch) :
  ∀ t, -1 ≤ t →
    foldM (check_batch od) t bs =
      if decide (bs = [] ∨ t + Py.len bs < Py.len (od_groups od))
      then Ok (t + Py.len bs) else Raise IndexError.
Proof.
  induction bs as [|b bs IH]; intros t Ht.
  - cbn [foldM]. rewrite decide_True by (by left). unfold Py.len. simpl.
    by rewrite Z.add_0_r.
  - rewrite foldM_cons.
    assert (check_batch od t b
            = Py.index (od_groups od) (t + 1) ≫= λ _, Ok (t + 1)) as -> by done.
    assert (Py.len (b :: bs) = 1 + Py.len bs) as Hlen
      by (unfold Py.len; simpl length; lia).
    pose proof (Nat2Z.is_nonneg (length bs)) as Hbs. fold (Py.len bs) in Hbs.
    destruct (Z.lt_ge_cases (t + 1) (Py.len (od_groups od))) as [Hlt|Hge].
    + destruct (index_Ok_in_range (od_groups od) (t + 1)) as (x & _ & ->); [lia|].
      cbn [mbind result_bind]. rewrite IH by lia.
      destruct (decide (bs = [] ∨ t + 1 + Py.len bs < Py.len (od_groups od)))
        as [Hc|Hc].
      * rewrite decide_True.
        { f_equal. lia. }
        right. destruct Hc as [->|?]; [unfold Py.len in *; simpl in *|]; lia.
      * rewrite decide_False; [done|].
        intros [?|?]; [done|]. apply Hc. right. lia.
    + rewrite index_too_large by lia. cbn [mbind result_bind].
      rewrite decide_False; [done|]. intros [?|?]; [done | lia].
Qed.

Lemma check_groups_fold (od : ObjData) (gs : list JsonWmoGroup) :
  ∀ t, -1 ≤ t →
    foldM (λ total_batches group,
             foldM (check_batch od) total_batches (renderBatches group)) t gs =
      if decide (sum_batches gs = 0 ∨ t + sum_batches gs < Py.len (od_groups od))
      then Ok (t + sum_batches gs) else Raise IndexError.
Proof.
  induction gs as [|g gs IH]; intros t Ht.
  - cbn [foldM sum_batches foldr]. rewrite decide_True by (by left).
    by rewrite Z.add_0_r.
  - rewrite foldM_cons.
    change (sum_batches (g :: gs)) with (batch_count g + sum_batches gs).
    pose proof (batch_count_nonneg g) as Hg.
    pose proof (sum_batches_nonneg gs) as Hgs.
    rewrite check_batch_fold by done. fold (batch_count g).
    assert (renderBatches g = [] ↔ batch_count g = 0) as Hnil.
    { unfold batch_count, Py.len. destruct (renderBatches g); simpl; split;
        try done; lia. }
    destruct (decide (renderBatches g = [] ∨
                      t + batch_count g < Py.len (od_groups od))) as [Hc|Hc].
    + cbn [mbind result_bind]. rewrite IH by lia.
      destruct (decide (sum_batches gs = 0 ∨
                        t + batch_count g + sum_batches gs < Py.len (od_groups od)))
        as [Hd|Hd].
      * rewrite decide_True; [f_equal; lia|].
        destruct Hd as [Hd|Hd]; [|right; lia].
        destruct Hc as [Hc%Hnil|Hc]; [left; lia | right; lia].
      * rewrite decide_False; [done|].
        intros [?|?]; apply Hd; [left; lia | right; lia].
    + cbn [mbind result_bind]. rewrite decide_False; [done|].
      intros [?|?]; apply Hc; [left; apply Hnil; lia | right; lia].
Qed.

Lemma check_batches_Ok (od : ObjData) (gs : list JsonWmoGroup) :
  is_ok (check_batches od gs) = true ↔ sum_batches gs ≤ Py.len (od_groups od).
Proof.
  unfold check_batches. rewrite check_groups_fold by done.
  pose proof (sum_batches_nonneg gs).
  pose proof (Nat2Z.is_nonneg (length (od_groups od))) as Hl.
  fold (Py.len (od_groups od)) in Hl.
  case_decide as Hc; simpl; split; try done; lia.
Qed.

Lemma sum_batches_app (gs1 gs2 : list JsonWmoGroup) :
  sum_batches (gs1 ++ gs2) = sum_batches gs1 + sum_batches gs2.
Proof.
  induction gs1 as [|g gs1 IH]; [done|].
  change (sum_batches ((g :: gs1) ++ gs2))
    with (batch_count g + sum_batches (gs1 ++ gs2)).
  change (sum_batches (g :: gs1)) with (batch_count g + sum_batches gs1). lia.
Qed.

Lemma batches_before_le (gs : list JsonWmoGroup) (i : nat) :
  batches_before gs i ≤ sum_batches gs.
Proof.
  unfold batches_before. rewrite <- (take_drop i gs) at 2.
  rewrite sum_batches_app. pose proof (sum_batches_nonneg (drop i gs)). lia.
Qed.

Lemma batches_before_S (gs : list JsonWmoGroup) (i : nat) (g : JsonWmoGroup) :
  gs !! i = Some g → batches_before gs (S i) = batches_before gs i + batch_count g.
Proof.
  intros Hg. unfold batches_before. erewrite take_S_r by done.
  rewrite sum_batches_app. simpl. lia.
Qed.

Lemma repack_wmo_unfold (od : ObjData) (meta : JsonWmoMetadata) :
  repack_wmo od meta =
    check_batches od (groups meta) ≫= λ _,
    repack_groups od 0%nat ([[[]; []; []]], 0, []) (groups meta) ≫= λ st,
    Ok (st.1.1, 0%nat, st.2).
Proof.
  unfold repack_wmo. simpl. destruct (check_batches od (groups meta)); [|done].
  simpl. by destruct (repack_groups _ _ _ _) as [[[??]?]|].
Qed.

Lemma repack_wmo_Ok (od : ObjData) (meta : JsonWmoMetadata) :
  is_ok (repack_wmo od meta) = true ↔
  sum_batches (groups meta) ≤ Py.len (od_groups od).
Proof.
  rewrite <- check_batches_Ok, repack_wmo_unfold.
  destruct (check_batches od (groups meta)) as [t|]; [|done].
  cbn [mbind result_bind].
  destruct (repack_groups_spec od 0%nat (groups meta) [[[]; []; []]] 0 [] [] [] [])
    as (h' & new & a & b & -> & _); done.
Qed.

(** C4. The reconciliation completes exactly when the obj has at least
    as many face groups as the metadata has render batches; then the
    group at position [i] of the metadata, met with the running offset
    [batches_before _ i], claims the [batch_count] consecutive face groups
    that start at this offset and the offset advances by [batch_count],
    while a group without batches claims nothing and leaves the offset
    where it is. When the batch counts sum to the number of face groups,
    the claimed ranges, concatenated in order, are the list of face
    groups. *)
Theorem repack_wmo_partition (od : ObjData) (meta : JsonWmoMetadata) :
  sum_batches (groups meta) ≤ Py.len (od_groups od) →
  (is_ok (repack_wmo od meta) = true ↔
   sum_batches (groups meta) ≤ Py.len (od_groups od)) ∧
  ∃ h fc wgs,
    repack_wmo od meta = Ok (h, fc, wgs) ∧
    length wgs = length (groups meta) ∧
    (∀ i, ∃ hi wgsi,
       repack_groups od fc ([[[]; []; []]], 0, []) (take i (groups meta))
         = Ok (hi, batches_before (groups meta) i, wgsi)) ∧
    (∀ i g wg, groups meta !! i = Some g → wgs !! i = Some wg →
       let offset := batches_before (groups meta) i in
       reconciles od fc offset g wg ∧
       claimed wg = take (Z.to_nat (batch_count g))
                         (drop (Z.to_nat offset) (od_groups od)) ∧
       length (claimed wg) = Z.to_nat (batch_count g) ∧
       (batch_count g = 0 → wg_mesh_batches wg = None) ∧
       batches_before (groups meta) (S i) = offset + batch_count g) ∧
    (sum_batches (groups meta) = Py.len (od_groups od) →
       concat (claimed <$> wgs) = od_groups od).
Proof.
  intros Hfit. split; [apply repack_wmo_Ok|].
  destruct (repack_groups_spec od 0%nat (groups meta) [[[]; []; []]] 0 [] [] [] [])
    as (h & wgs & a & b & Hrun & _ & Hlen & Hall); [done|].
  rewrite Z.add_0_l in Hrun. simpl in Hrun.
  exists h, 0%nat, wgs. split; [|split; [done|split; [|split]]].
  - rewrite repack_wmo_unfold.
    apply check_batches_Ok in Hfit.
    destruct (check_batches od (groups meta)) as [t|]; [|done].
    cbn [mbind result_bind]. by rewrite Hrun.
  - intros i.
    destruct (repack_groups_spec od 0%nat (take i (groups meta)) [[[]; []; []]] 0 []
                [] [] []) as (hi & wgsi & _ & _ & Hruni & _); [done|].
    exists hi, wgsi. by rewrite Z.add_0_l in Hruni.
  - intros i g wg Hg Hwg offset.
    specialize (Hall i g wg Hg Hwg). rewrite Z.add_0_l in Hall.
    pose proof (batches_before_S _ _ _ Hg) as HS.
    pose proof (batches_before_le (groups meta) (S i)) as Hle.
    assert (0 ≤ offset) as Hoff by apply sum_batches_nonneg.
    destruct (reconciles_claimed _ _ _ _ _ Hall) as [Hcl Hcllen]; [done | lia |].
    split; [done|]. split; [done|]. split; [done|]. split; [|done].
    intros Hzero. destruct Hall as (_ & _ & Hrec).
    destruct (Z.ltb_spec 0 (batch_count g)); [lia|]. by destruct Hrec.
  - intros Heq.
    rewrite (claimed_concat od 0%nat (groups meta) wgs 0); [| done | done | done | lia].
    rewrite Heq. unfold Py.len. rewrite Nat2Z.id. simpl. by rewrite take_ge.
Qed.

(** One iteration of the loop appends the layers of its group. *)
Lemma repack_group_layers (od : ObjData) (fc : loc) (h : heap) (offset : Z)
    (wgs : list WmoGroup) (g : JsonWmoGroup) (l0 l1 l2 : list Z) :
  h !! fc = Some [l0; l1; l2] →
  ∃ h' wg,
    repack_group od fc (h, offset, wgs) g
      = Ok (h', offset + batch_count g, wgs ++ [wg]) ∧
    h' !! fc = Some [l0 ++ (group_layers od offset g).1;
                     l1 ++ (group_layers od offset g).2; l2].
Proof.
  intros Hh.
  destruct (repack_group_spec od fc h offset wgs g l0 l1 l2 Hh)
    as (h' & wg & a & b & Hrun & Hh' & _ & _ & Hrest).
  exists h', wg. unfold group_layers. fold (batch_count g) in Hrun, Hrest.
  destruct (Z.ltb_spec 0 (batch_count g)) as [Hn|Hn].
  - split; [done|].
    destruct Hrest as (_ & _ & _ & _ & _ & final & Hfinal & Hab).
    apply index_last_nonempty in Hfinal as [_ ->].
    destruct (vertexColours g) as [|c0 [|c1 [|c2 rest]]].
    + destruct (0 <? _); by destruct Hab as [-> ->].
    + by destruct Hab as [-> ->].
    + by destruct Hab as [-> ->].
    + by destruct Hab as [-> ->].
  - assert (renderBatches g = []) as E.
    { unfold batch_count, Py.len in Hn. destruct (renderBatches g); [done|].
      simpl in Hn. lia. }
    assert (batch_count g = 0) as E0 by (unfold batch_count; by rewrite E).
    rewrite E0, Z.add_0_r, E. split; [done|].
    by destruct Hrest as (_ & _ & _ & -> & ->).
Qed.

Lemma layers_cons {B} (p : list Z * list Z → list B) (od : ObjData) (offset : Z)
    (g : JsonWmoGroup) (gs : list JsonWmoGroup) (l : list B) :
  (l ++ p (group_layers od offset g))
    ++ concat (imap (λ i g0, p (group_layers od (offset + batch_count g
                                                  + batches_before gs i) g0)) gs)
  = l ++ concat (imap (λ i g0, p (group_layers od (offset + batches_before (g :: gs) i)
                                               g0)) (g :: gs)).
Proof.
  rewrite <- app_assoc. f_equal. cbn [imap concat]. f_equal.
  - unfold batches_before. cbn [take sum_batches foldr]. by rewrite Z.add_0_r.
  - f_equal. apply imap_ext. intros i x _. unfold compose, batches_before, sum_batches.
    cbn [take foldr]. f_equal. f_equal. lia.
Qed.

(** The loop over the groups, from any state: each group appends its
    layers, in the order of the metadata. *)
Lemma repack_groups_layers (od : ObjData) (fc : loc) (gs : list JsonWmoGroup) :
  ∀ (h : heap) (offset : Z) (wgs : list WmoGroup) (l0 l1 l2 : list Z),
    h !! fc = Some [l0; l1; l2] →
    ∃ h' new,
      repack_groups od fc (h, offset, wgs) gs
        = Ok (h', offset + sum_batches gs, wgs ++ new) ∧
      h' !! fc = Some
        [l0 ++ concat (imap (λ i g, (group_layers od (offset + batches_before gs i) g).1)
                            gs);
         l1 ++ concat (imap (λ i g, (group_layers od (offset + batches_before gs i) g).2)
                            gs);
         l2].
Proof.
  induction gs as [|g gs IH]; intros h offset wgs l0 l1 l2 Hh.
  - exists h, []. rewrite !app_nil_r. cbn. by rewrite Z.add_0_r.
  - destruct (repack_group_layers od fc h offset wgs g l0 l1 l2 Hh)
      as (h1 & wg & Hrun & Hh1).
    destruct (IH h1 (offset + batch_count g) (wgs ++ [wg]) _ _ _ Hh1)
      as (h' & new & Hrun' & Hh').
    exists h', (wg :: new). split.
    { unfold repack_groups in *. cbn [foldM]. rewrite Hrun.
      cbn [mbind result_bind]. rewrite Hrun'.
      change (sum_batches (g :: gs)) with (batch_count g + sum_batches gs).
      f_equal. f_equal; [f_equal; lia|]. by rewrite <- app_assoc. }
    rewrite Hh'.
    by rewrite (layers_cons fst od offset g gs l0), (layers_cons snd od offset g gs l1).
Qed.

(** In a concatenation, the part of the element at position [i] starts
    where the parts before it end. *)
Lemma concat_segment {A} (ls : list (list A)) (i : nat) (x : list A) :
  ls !! i = Some x →
  take (length x) (drop (length (concat (take i ls))) (concat ls)) = x.
Proof.
  intros Hi. rewrite <- (take_drop_middle ls i x Hi) at 2.
  rewrite concat_app, drop_app_length. cbn [concat]. by rewrite take_app_length.
Qed.

(** C5, as the code has it. The colour table that every group with
    batches reads after the reconciliation is the one cumulative table:
    its first two layers are the concatenation, over the groups in the
    order of the metadata, of the two layers of each group, and its third
    layer is empty. The layers of one group are, with [n] the
    [lastVertex + 1] of its final batch: for no raw layer and a positive
    vertex count of the group, [n] zeros each; for one raw layer, its slice
    [[0:n]] and [n] zeros; for two raw layers, the slice [[0:n]] of each;
    for no raw layer and no vertex, nothing; the slice is the first [n]
    values when [n] is not negative. A group without batches appends
    nothing. The layers of the group at position [i] lie in the table
    where the layers of the groups before it end. *)
Theorem repack_wmo_color_layers (od : ObjData) (meta : JsonWmoMetadata)
    (h : heap) (fc : loc) (wgs : list WmoGroup) :
  repack_wmo od meta = Ok (h, fc, wgs) →
  let layers i g := group_layers od (batches_before (groups meta) i) g in
  let s0 := imap (λ i g, (layers i g).1) (groups meta) in
  let s1 := imap (λ i g, (layers i g).2) (groups meta) in
  h !! fc = Some [concat s0; concat s1; []] ∧
  (∀ wg, wg ∈ wgs → 0 < wg_batch_count wg →
     colors_of h wg = Ok [concat s0; concat s1; []]) ∧
  (∀ i g, groups meta !! i = Some g →
     take (length (layers i g).1) (drop (length (concat (take i s0))) (concat s0))
       = (layers i g).1 ∧
     take (length (layers i g).2) (drop (length (concat (take i s1))) (concat s1))
       = (layers i g).2) ∧
  (∀ offset g final, last (renderBatches g) = Some final →
     let n := lastVertex final + 1 in
     let count :=
       vertex_count (Py.slice (od_groups od) offset (offset + batch_count g)) in
     (vertexColours g = [] → 0 < count →
        group_layers od offset g = (replicate (Z.to_nat n) 0, replicate (Z.to_nat n) 0)) ∧
     (∀ c0, vertexColours g = [c0] →
        group_layers od offset g = (Py.slice c0 0 n, replicate (Z.to_nat n) 0)) ∧
     (∀ c0 c1, vertexColours g = [c0; c1] →
        group_layers od offset g = (Py.slice c0 0 n, Py.slice c1 0 n)) ∧
     (vertexColours g = [] → count ≤ 0 → group_layers od offset g = ([], [])) ∧
     (∀ c : list Z, 0 ≤ n → Py.slice c 0 n = take (Z.to_nat n) c)) ∧
  (∀ offset g, renderBatches g = [] → group_layers od offset g = ([], [])).
Proof.
  intros Hrun layers s0 s1.
  rewrite repack_wmo_unfold in Hrun.
  apply bind_Ok in Hrun as (t & _ & ([[h' o'] wgs'] & Hrun & [= -> <- ->])%bind_Ok).
  destruct (repack_groups_layers od 0%nat (groups meta) [[[]; []; []]] 0 [] [] [] [])
    as (h1 & new & Hrun1 & Hh1); [done|].
  rewrite Hrun in Hrun1. injection Hrun1 as -> _ ->. cbn [app] in Hh1.
  assert (h1 !! 0%nat = Some [concat s0; concat s1; []]) as Htable.
  { exact Hh1. }
  split; [done|]. split; [|split; [|split]].
  - intros wg [i Hi]%list_elem_of_lookup Hbc.
    destruct (repack_groups_spec od 0%nat (groups meta) [[[]; []; []]] 0 [] [] [] [])
      as (h2 & new2 & a & b & Hrun2 & _ & Hlen & Hall); [done|].
    rewrite Hrun in Hrun2. injection Hrun2 as _ _ <-. cbn [app] in Hi.
    destruct (lookup_lt_is_Some_2 (groups meta) i) as [g Hg].
    { rewrite <- Hlen. by eapply lookup_lt_Some. }
    destruct (Hall i g wg Hg Hi) as (Hcount & _ & Hcase).
    rewrite Hcount in Hbc. destruct (Z.ltb_spec 0 (batch_count g)); [|lia].
    destruct Hcase as (_ & _ & _ & _ & Hcol).
    unfold colors_of. rewrite Hcol. simpl. by rewrite Htable.
  - intros i g Hg. split; apply concat_segment; unfold s0, s1;
      by rewrite list_lookup_imap, Hg.
  - intros offset g final Hlast n count. unfold group_layers. rewrite Hlast.
    fold n. fold count. rewrite !zeros_replicate.
    split; [|split; [|split; [|split]]].
    + intros -> Hc. by destruct (Z.ltb_spec 0 count); [|lia].
    + by intros c0 ->.
    + by intros c0 c1 ->.
    + intros -> Hc. by destruct (Z.ltb_spec 0 count); [lia|].
    + intros c Hn. by apply slice_prefix.
  - intros offset g E. unfold group_layers. by rewrite E.
Qed.

(** C2, as the code has it. Every group with batches refers to the one
    list [flat_colors], so that after the reconciliation all of them
    read the same table; this table is the cumulative one: once the first
    [i] groups are reconciled their table has the layers [p0] and [p1],
    and when all groups are reconciled the same groups read the layers
    [t0] and [t1], of which [p0] and [p1] are prefixes. Reconciling a
    later group appends to the table of an earlier one and rewrites
    nothing of it. *)
Theorem repack_wmo_shared_colors (od : ObjData) (meta : JsonWmoMetadata)
    (h : heap) (fc : loc) (wgs : list WmoGroup) :
  repack_wmo od meta = Ok (h, fc, wgs) →
  ∃ t0 t1,
    h !! fc = Some [t0; t1; []] ∧
    (∀ wg, wg ∈ wgs → 0 < wg_batch_count wg →
       wg_colors wg = Some fc ∧ colors_of h wg = Ok [t0; t1; []]) ∧
    (∀ i, ∃ hi oi p0 p1,
       repack_groups od fc ([[[]; []; []]], 0, []) (take i (groups meta))
         = Ok (hi, oi, take i wgs) ∧
       hi !! fc = Some [p0; p1; []] ∧
       p0 `prefix_of` t0 ∧ p1 `prefix_of` t1 ∧
       ∀ wg, wg ∈ take i wgs → 0 < wg_batch_count wg →
         colors_of hi wg = Ok [p0; p1; []]).
Proof.
  rewrite repack_wmo_unfold.
  intros (t & _ & ([[h' o'] wgs'] & Hrun & [= -> <- ->])%bind_Ok)%bind_Ok.
  destruct (repack_groups_spec od 0%nat (groups meta) [[[]; []; []]] 0 [] [] [] [])
    as (h1 & new & t0 & t1 & Hrun1 & Hh1 & Hlen & Hall); [done|].
  rewrite Hrun in Hrun1. injection Hrun1 as -> _ ->. simpl in Hh1.
  assert (∀ (hx : heap) (ws : list WmoGroup) (gs : list JsonWmoGroup) x0 x1,
            hx !! 0%nat = Some [x0; x1; []] →
            length ws = length gs →
            (∀ i g wg, gs !! i = Some g → ws !! i = Some wg →
               reconciles od 0%nat (0 + batches_before gs i) g wg) →
            ∀ wg, wg ∈ ws → 0 < wg_batch_count wg →
              wg_colors wg = Some 0%nat ∧ colors_of hx wg = Ok [x0; x1; []])
    as Hshared.
  { intros hx ws gs x0 x1 Hhx Hl Hrec wg [i Hi]%list_elem_of_lookup Hbc.
    destruct (lookup_lt_is_Some_2 gs i) as [g Hg].
    { rewrite <- Hl. by eapply lookup_lt_Some. }
    destruct (Hrec i g wg Hg Hi) as (Hcount & _ & Hcase).
    rewrite Hcount in Hbc. destruct (Z.ltb_spec 0 (batch_count g)); [|lia].
    destruct Hcase as (_ & _ & _ & _ & Hcol). split; [done|].
    unfold colors_of. rewrite Hcol. simpl. by rewrite Hhx. }
  exists t0, t1. simpl. split; [done|]. split.
  { by apply (Hshared h1 new (groups meta)). }
  intros i.
  destruct (repack_groups_spec od 0%nat (take i (groups meta)) [[[]; []; []]] 0 []
              [] [] []) as (hi & wi & p0 & p1 & Hruni & Hhi & Hleni & Halli); [done|].
  simpl in Hruni, Hhi.
  destruct (repack_groups_spec od 0%nat (drop i (groups meta)) hi
              (0 + sum_batches (take i (groups meta))) wi p0 p1 [] Hhi)
    as (h2 & w2 & a & b & Hrun2 & Hh2 & _ & _).
  assert (repack_groups od 0%nat ([[[]; []; []]], 0, []) (groups meta)
          = Ok (h2, 0 + sum_batches (take i (groups meta))
                      + sum_batches (drop i (groups meta)), wi ++ w2)) as Hwhole.
  { rewrite <- (take_drop i (groups meta)) at 1. unfold repack_groups in *.
    rewrite foldM_app, Hruni. cbn [mbind result_bind]. by rewrite Hrun2. }
  rewrite Hrun in Hwhole. injection Hwhole as -> _ ->.
  rewrite Hh1 in Hh2. injection Hh2 as -> ->.
  assert (take i (wi ++ w2) = wi) as Htake.
  { rewrite length_take in Hleni.
    destruct (Nat.le_ge_cases i (length (groups meta))) as [Hle|Hge].
    - rewrite take_app_le by lia. apply take_ge. lia.
    - rewrite length_app in Hlen. rewrite take_ge; [|rewrite length_app; lia].
      assert (length w2 = 0%nat) as Hw2 by lia.
      apply nil_length_inv in Hw2 as ->. by rewrite app_nil_r. }
  exists hi, (0 + sum_batches (take i (groups meta))), p0, p1.
  rewrite Htake. split; [done|]. split; [done|].
  split; [by apply prefix_app_r|]. split; [by apply prefix_app_r|].
  intros wg Hwg Hbc.
  by apply (Hshared hi wi (take i (groups meta)) p0 p1 Hhi Hleni Halli wg Hwg Hbc).
Qed.

End RepackFacts.

(** ** The mesh builder *)

Section BuilderFacts.
Context `{Ext : Externals}.

Ltac bind_ok H :=
  let x := fresh "x" in let Hx := fresh "Hx" in
  apply bind_Ok in H as (x & Hx & H).

Lemma lighting_type_cases (flags : list string) :
  ("INTERIOR" ∈ flags → "EXTERIOR" ∈ flags → lighting_type flags = "TRANSITION") ∧
  ("INTERIOR" ∈ flags → "EXTERIOR" ∉ flags → lighting_type flags = "INTERIOR") ∧
  ("INTERIOR" ∉ flags → "EXTERIOR" ∈ flags → lighting_type flags = "EXTERIOR") ∧
  ("INTERIOR" ∉ flags → "EXTERIOR" ∉ flags → lighting_type flags = "UNLIT").
Proof.
  unfold lighting_type.
  destruct (decide ("INTERIOR" ∈ flags)) as [Hi|Hi],
           (decide ("EXTERIOR" ∈ flags)) as [He|He];
    repeat first [rewrite (bool_decide_eq_true_2 _ Hi)
                 | rewrite (bool_decide_eq_false_2 _ Hi)
                 | rewrite (bool_decide_eq_true_2 _ He)
                 | rewrite (bool_decide_eq_false_2 _ He)];
    simpl; repeat split; intros; done.
Qed.

(** C9. The lighting type written to the object of a group with batches
    is a function of the names of the flags of the group: TRANSITION when
    both INTERIOR and EXTERIOR are among them, INTERIOR or EXTERIOR when
    only that one is, UNLIT when neither is. *)
Theorem lighting_classification (h : heap) (base_name : string) (group : WmoGroup)
    (mat_dict : gmap Z Material) (use_collections : bool) (obj : BlenderObject) :
  wmo_setup_blender_object h base_name group mat_dict use_collections
    = Ok (Some obj) →
  ∃ json_group,
    wg_json_group group = Some json_group ∧
    let flags := wmo_read_group_flags (grp_flags json_group) in
    bo_wmo_lighting_type obj = lighting_type flags ∧
    ("INTERIOR" ∈ flags → "EXTERIOR" ∈ flags →
       bo_wmo_lighting_type obj = "TRANSITION") ∧
    ("INTERIOR" ∈ flags → "EXTERIOR" ∉ flags →
       bo_wmo_lighting_type obj = "INTERIOR") ∧
    ("INTERIOR" ∉ flags → "EXTERIOR" ∈ flags →
       bo_wmo_lighting_type obj = "EXTERIOR") ∧
    ("INTERIOR" ∉ flags → "EXTERIOR" ∉ flags →
       bo_wmo_lighting_type obj = "UNLIT").
Proof.
  unfold wmo_setup_blender_object.
  destruct (wg_batch_count group <? 1); [discriminate|].
  intros H. repeat (bind_ok H). injection H as <-.
  unfold attr in Hx0. destruct (wg_json_group group) as [jg|]; [|discriminate].
  injection Hx0 as <-. exists jg. split; [done|]. cbn.
  split; [done|]. apply lighting_type_cases.
Qed.

Lemma materials_find_from_spec (slots : list Material) (name : string) :
  ∀ i, 0 ≤ i →
    (materials_find_from i slots name = -1 ∧
     ∀ m, m ∈ slots → mat_name m ≠ name) ∨
    (i ≤ materials_find_from i slots name ∧
     ∃ m, slots !! Z.to_nat (materials_find_from i slots name - i) = Some m ∧
          mat_name m = name).
Proof.
  induction slots as [|m slots IH]; intros i Hi; simpl.
  - left. split; [done|]. intros m Hm. by apply elem_of_nil in Hm.
  - destruct (String.eqb_spec (mat_name m) name) as [E|E].
    + right. split; [lia|]. exists m. by rewrite Z.sub_diag.
    + destruct (IH (i + 1)) as [[Hnone Hall] | [Hle (m' & Hm' & Hname)]]; [lia | |].
      * left. split; [done|]. intros m' [->|?]%elem_of_cons; [done | by apply Hall].
      * right. split; [lia|]. exists m'. split; [|done].
        replace (Z.to_nat (materials_find_from (i + 1) slots name - i))
          with (S (Z.to_nat (materials_find_from (i + 1) slots name - (i + 1))))
          by lia.
        done.
Qed.

Lemma materials_find_spec (slots : list Material) (name : string) :
  (materials_find slots name = -1 ∧ ∀ m, m ∈ slots → mat_name m ≠ name) ∨
  (0 ≤ materials_find slots name ∧
   ∃ m, slots !! Z.to_nat (materials_find slots name) = Some m ∧ mat_name m = name).
Proof.
  unfold materials_find.
  destruct (materials_find_from_spec slots name 0) as [?|[? (m & Hm & ?)]];
    [done | by left |].
  right. split; [done|]. exists m. by rewrite Z.sub_0_r in Hm.
Qed.

Lemma batch_mat_ID_cases (batch : JsonWmoRenderBatch) (mat_ID : Z) :
  batch_mat_ID batch = Ok mat_ID →
  (rb_flags batch = 2 →
     ∃ box, possibleBox2 batch = Some box ∧ box !! 2%nat = Some mat_ID) ∧
  (rb_flags batch ≠ 2 → mat_ID = materialID batch).
Proof.
  unfold batch_mat_ID. destruct (Z.eqb_spec (rb_flags batch) 2) as [E|E].
  - destruct (possibleBox2 batch) as [box|]; [|discriminate].
    cbn [of_option mbind result_bind]. intros H. split; [|done].
    intros _. exists box. split; [done|].
    unfold Py.index, Py.norm_index in H. simpl in H.
    destruct (2 <? Py.len box); [|discriminate].
    change (Z.to_nat 2) with 2%nat in H.
    destruct (box !! 2%nat); [by injection H as -> | discriminate].
  - intros [= <-]. done.
Qed.

(** The material of the first face of a batch. *)
Lemma assign_material_slot (mat_dict : gmap Z Material)
    (json_batches : list JsonWmoRenderBatch) (i : Z) (st st' : builder)
    (bface : nat) :
  (bface < length (bm_faces (b_bm st)))%nat →
  assign_material mat_dict json_batches i st bface = Ok st' →
  ∃ batch mat_ID mat f slot,
    Py.index json_batches i = Ok batch ∧
    batch_mat_ID batch = Ok mat_ID ∧
    mat_dict !! mat_ID = Some mat ∧
    bm_faces (b_bm st') !! bface = Some f ∧
    0 ≤ bf_material_index f ∧
    b_materials st' !! Z.to_nat (bf_material_index f) = Some slot ∧
    mat_name slot = mat_name mat ∧
    bm_verts (b_bm st') = bm_verts (b_bm st) ∧
    length (bm_faces (b_bm st')) = length (bm_faces (b_bm st)).
Proof.
  intros Hlt H. unfold assign_material in H.
  apply bind_Ok in H as (batch & Hbatch & H).
  apply bind_Ok in H as (mat_ID & Hid & H).
  apply bind_Ok in H as (mat & Hmat & H).
  unfold dict_get in Hmat.
  destruct (mat_dict !! mat_ID) as [mat'|] eqn:Hlook; [|discriminate].
  injection Hmat as ->.
  destruct (lookup_lt_is_Some_2 _ _ Hlt) as [f0 Hf0].
  exists batch, mat_ID, mat.
  destruct (Z.eqb_spec (materials_find (b_materials st) (mat_name mat)) (-1))
    as [Hnone|Hsome]; injection H as <-; cbn.
  - destruct (materials_find_spec (b_materials st ++ [mat]) (mat_name mat))
      as [[_ Hall] | [Hpos (slot & Hslot & Hname)]].
    + exfalso. apply (Hall mat); [|done]. apply elem_of_app. right. by left.
    + eexists _, slot. rewrite list_lookup_alter_eq, Hf0. cbn.
      rewrite length_alter. done.
  - destruct (materials_find_spec (b_materials st) (mat_name mat))
      as [[Hm _] | [Hpos (slot & Hslot & Hname)]]; [done|].
    eexists _, slot. rewrite list_lookup_alter_eq, Hf0. cbn.
    rewrite length_alter. done.
Qed.

Lemma faces_new_Ok (bm bm' : BMesh) (t : nat * nat * nat) (example : option nat)
    (bface : nat) :
  faces_new bm t example = Ok (bm', bface) →
  bface = length (bm_faces bm) ∧
  bm_verts bm' = bm_verts bm ∧
  ∃ mi, bm_faces bm' = bm_faces bm ++ [mkFace t mi].
Proof.
  unfold faces_new. destruct (repeats_vertex t); [discriminate|].
  destruct (face_exists bm t); [discriminate|].
  intros [= <- <-]. cbn. eauto.
Qed.

Lemma new_face_first (mat_dict : gmap Z Material)
    (json_batches : list JsonWmoRenderBatch) (i : Z) (st st' : builder)
    (t : nat * nat * nat) (ex : option nat) :
  new_face mat_dict json_batches i st None t = Ok (st', ex) →
  ∃ batch mat_ID mat bface f slot,
    Py.index json_batches i = Ok batch ∧
    batch_mat_ID batch = Ok mat_ID ∧
    mat_dict !! mat_ID = Some mat ∧
    ex = Some bface ∧
    bm_faces (b_bm st') !! bface = Some f ∧
    0 ≤ bf_material_index f ∧
    b_materials st' !! Z.to_nat (bf_material_index f) = Some slot ∧
    mat_name slot = mat_name mat.
Proof.
  unfold new_face. intros H.
  apply bind_Ok in H as ([bm bface] & Hnew & H).
  apply bind_Ok in H as (st1 & Hassign & [= <- <-]).
  apply faces_new_Ok in Hnew as (-> & _ & mi & Hfaces).
  apply assign_material_slot in Hassign
    as (batch & mat_ID & mat & f & slot & ? & ? & ? & ? & ? & ? & ? & _).
  - by exists batch, mat_ID, mat, (length (bm_faces (b_bm st))), f, slot.
  - cbn. rewrite Hfaces, length_app. simpl. lia.
Qed.

(** C6. The first face made for batch [i], by the first attempt or by
    the handler of the duplicate face, gets the material slot of the
    material whose id is the third element of [possibleBox2] when the
    flags of the batch are 2 and [materialID] otherwise; with flags 2 and
    a [possibleBox2] that ends in 7 the id is 7 whatever [materialID]
    is. *)
Theorem first_face_material (obj_data : ObjData) (mat_dict : gmap Z Material)
    (json_batches : list JsonWmoRenderBatch) (i : Z) (st st' : builder)
    (face : Tri) (ex : option nat) :
  add_face obj_data mat_dict json_batches i st None face = Ok (st', ex) →
  ∃ batch mat_ID mat bface f slot,
    Py.index json_batches i = Ok batch ∧
    batch_mat_ID batch = Ok mat_ID ∧
    (rb_flags batch = 2 →
       ∃ box, possibleBox2 batch = Some box ∧ box !! 2%nat = Some mat_ID) ∧
    (rb_flags batch ≠ 2 → mat_ID = materialID batch) ∧
    (∀ x y, rb_flags batch = 2 → possibleBox2 batch = Some [x; y; 7] →
       mat_ID = 7) ∧
    mat_dict !! mat_ID = Some mat ∧
    ex = Some bface ∧
    bm_faces (b_bm st') !! bface = Some f ∧
    0 ≤ bf_material_index f ∧
    b_materials st' !! Z.to_nat (bf_material_index f) = Some slot ∧
    mat_name slot = mat_name mat.
Proof.
  intros H.
  assert (∃ st0 t, new_face mat_dict json_batches i st0 None t = Ok (st', ex))
    as (st0 & t & Hnew).
  { unfold add_face in H. destruct face as [[f0 f1] f2].
    match type of H with
    | match ?a with _ => _ end = _ => destruct a as [r|e] eqn:Ha
    end.
    - apply bind_Ok in Ha as (m0 & _ & Ha).
      apply bind_Ok in Ha as (m1 & _ & Ha).
      apply bind_Ok in Ha as (m2 & _ & Ha).
      rewrite H in Ha. eauto.
    - destruct e; try discriminate H.
      unfold duplicate_face in H. do 9 (bind_ok H). eauto. }
  apply new_face_first in Hnew
    as (batch & mat_ID & mat & bface & f & slot & Hb & Hid & Hmat & Hex & Hf & Hpos
        & Hslot & Hname).
  destruct (batch_mat_ID_cases _ _ Hid) as [Htwo Hother].
  exists batch, mat_ID, mat, bface, f, slot.
  repeat (split; [done|]). split; [|done].
  intros x y Hflags Hbox. destruct (Htwo Hflags) as (box & Hbox' & Hthird).
  rewrite Hbox in Hbox'. injection Hbox' as <-. by injection Hthird.
Qed.

(** C1, as the code has it. The reader does not compare the vertex
    indexes of a face with the vertex list: after a group record, a face
    record whose tokens are integers is recorded with whatever indexes it
    has. The builder looks up an index [v] that is not mapped yet as
    [obj_data.verts[v - 1]]: with [1 ≤ v ≤ len(verts)] the new vertex is
    made at that position; with [v > len(verts)] the lookup raises
    IndexError, in the builder and not in the reader. *)
Theorem face_indices_unchecked (od : ObjData) (gi a b c v : Z) (rest : list Z)
    (ls : list string) (st : builder) :
  reader_inv (od, gi) → 0 ≤ gi →
  face_vertex_indices ls = Ok (a :: b :: c :: rest) →
  b_v_dict st !! v = None →
  (∃ g od',
     od_groups od !! Z.to_nat gi = Some g ∧
     read_face od gi ls = Ok od' ∧
     od_verts od' = od_verts od ∧
     og_faces <$> od_groups od' !! Z.to_nat gi = Some (og_faces g ++ [(a, b, c)])) ∧
  (1 ≤ v ≤ Py.len (od_verts od) →
     ∃ co,
       od_verts od !! Z.to_nat (v - 1) = Some co ∧
       map_vertex od st v =
         Ok (length (bm_verts (b_bm st)),
             mkBuilder (mkBMesh (bm_verts (b_bm st) ++ [co]) (bm_faces (b_bm st)))
               (<[v := length (bm_verts (b_bm st))]> (b_v_dict st))
               (b_colors st) (b_materials st))) ∧
  (Py.len (od_verts od) < v → map_vertex od st v = Raise IndexError).
Proof.
  intros Hinv Hgi Hfv Hnew. split; [|split].
  - destruct (read_face_records od gi a b c rest ls Hinv Hgi Hfv)
      as (g & od' & Hg & Hface & Hverts & _ & Hrec).
    exists g, od'. by rewrite Hrec.
  - intros Hv. destruct (index_Ok_in_range (od_verts od) (v - 1)) as (co & Hco & Hi);
      [lia|].
    exists co. split; [done|]. unfold map_vertex. by rewrite Hnew, Hi.
  - intros Hv. unfold map_vertex. rewrite Hnew.
    by rewrite index_too_large by lia.
Qed.

Lemma fresh_face_free (bm : BMesh) (n : nat) (vs : list (list float)) :
  faces_wf bm → n = length (bm_verts bm) →
  face_exists (mkBMesh vs (bm_faces bm)) (n, S n, S (S n)) = false.
Proof.
  intros Hwf ->. unfold face_exists. cbn [bm_faces].
  apply not_true_is_false. intros (f & Hf & Hsame)%existsb_exists.
  apply list_elem_of_In in Hf.
  destruct (bf_verts f) as [[a b] c] eqn:Hfv.
  assert (a < length (bm_verts bm))%nat as Ha.
  { apply (Hwf f a Hf). rewrite Hfv. by left. }
  unfold same_vertices in Hsame. cbn in Hsame.
  apply andb_prop in Hsame as [Hsame _].
  apply andb_prop in Hsame as [Hsame _].
  apply bool_decide_eq_true in Hsame.
  apply elem_of_cons in Hsame as [?|Hsame]; [lia|].
  apply elem_of_cons in Hsame as [?|Hsame]; [lia|].
  apply elem_of_cons in Hsame as [?|Hsame]; [lia|].
  by apply elem_of_nil in Hsame.
Qed.

(** The handler of the duplicate face at work, for a face that is not
    the first of its batch: when the colours of the three mapped vertices
    are stashed, it adds three vertices at the positions of the face and
    one face on them, and copies the colours. *)
Lemma add_face_duplicate (od : ObjData) (mat_dict : gmap Z Material)
    (json_batches : list JsonWmoRenderBatch) (i : Z) (st : builder) (e : nat)
    (f0 f1 f2 : Z) (m0 m1 m2 : nat) (c0 c1 c2 : list fColor4)
    (co0 co1 co2 : list float) :
  let n := length (bm_verts (b_bm st)) in
  faces_wf (b_bm st) →
  b_v_dict st !! f0 = Some m0 → b_v_dict st !! f1 = Some m1 →
  b_v_dict st !! f2 = Some m2 →
  (m0 < n)%nat → (m1 < n)%nat → (m2 < n)%nat →
  repeats_vertex (m0, m1, m2) || face_exists (b_bm st) (m0, m1, m2) = true →
  b_colors st !! m0 = Some c0 → b_colors st !! m1 = Some c1 →
  b_colors st !! m2 = Some c2 →
  Py.index (od_verts od) (f0 - 1) = Ok co0 →
  Py.index (od_verts od) (f1 - 1) = Ok co1 →
  Py.index (od_verts od) (f2 - 1) = Ok co2 →
  add_face od mat_dict json_batches i st (Some e) (f0, f1, f2) =
    Ok (mkBuilder
          (mkBMesh (bm_verts (b_bm st) ++ [co0; co1; co2])
             (bm_faces (b_bm st) ++
              [mkFace (n, S n, S (S n))
                 (default 0 (bf_material_index <$> bm_faces (b_bm st) !! e))]))
          (b_v_dict st)
          (<[S (S n) := c2]> (<[S n := c1]> (<[n := c0]> (b_colors st))))
          (b_materials st),
        Some e).
Proof.
  intros n Hwf Hm0 Hm1 Hm2 Hlt0 Hlt1 Hlt2 Hdup Hc0 Hc1 Hc2 Hi0 Hi1 Hi2.
  unfold add_face, dict_get. rewrite Hm0, Hm1, Hm2.
  cbn [of_option mbind result_bind]. unfold new_face at 1.
  assert (∃ msg, faces_new (b_bm st) (m0, m1, m2) (Some e) = Raise (ValueError msg))
    as [msg ->].
  { unfold faces_new. destruct (repeats_vertex (m0, m1, m2)); [eauto|].
    simpl in Hdup. rewrite Hdup. eauto. }
  cbn [mbind result_bind].
  unfold duplicate_face, dict_get. rewrite Hi0. cbn [mbind result_bind verts_new].
  rewrite Hi1. cbn [mbind result_bind verts_new bm_verts bm_faces].
  rewrite Hi2. cbn [mbind result_bind verts_new bm_verts bm_faces].
  rewrite Hm0, Hm1, Hm2. cbn [of_option mbind result_bind].
  rewrite Hc0. cbn [of_option mbind result_bind].
  rewrite !length_app. cbn [length]. fold n.
  replace (n + 1)%nat with (S n) by lia.
  replace (S n + 1)%nat with (S (S n)) by lia.
  rewrite lookup_insert_ne by lia. rewrite Hc1. cbn [of_option mbind result_bind].
  rewrite !lookup_insert_ne by lia. rewrite Hc2. cbn [of_option mbind result_bind].
  unfold new_face, faces_new. cbn [b_bm].
  assert (repeats_vertex (n, S n, S (S n)) = false) as ->.
  { unfold repeats_vertex. rewrite !bool_decide_eq_false_2 by lia. done. }
  rewrite fresh_face_free by done.
  cbn [mbind result_bind bm_verts bm_faces b_v_dict b_colors b_materials].
  by rewrite <- !app_assoc.
Qed.

End BuilderFacts.

(** ** The checks at the head of the import *)

Section ImportFacts.
Context `{Ext : Externals}.

Lemma io_bind_Raise {A B} (m : io A) (k : A → io B) (e : exn) :
  outcome m = Raise e → m ≫= k = IO (trace m) (Raise e).
Proof. intros H. unfold mbind, io_bind. by rewrite H. Qed.

Lemma io_bind_trace {A B} (m : io A) (k : A → io B) :
  ∃ rest, trace (m ≫= k) = trace m ++ rest.
Proof.
  unfold mbind, io_bind. destruct (outcome m); simpl; [eauto|].
  exists []. by rewrite app_nil_r.
Qed.

Lemma io_lift_Ok {A B} (a : A) (k : A → io B) : lift (Ok a) ≫= k = k a.
Proof. unfold mbind, io_bind, lift. simpl. by destruct (k a). Qed.

Lemma io_lift_Raise {A B} (e : exn) (k : A → io B) :
  lift (Raise e) ≫= k = IO [] (Raise e).
Proof. done. Qed.

Lemma io_emit {B} (ev : event) (k : unit → io B) :
  emit ev ≫= k = IO (ev :: trace (k tt)) (outcome (k tt)).
Proof. done. Qed.

(** The four ways the checks at the head of the import can go. *)
Lemma load_metadata_cases (w : world) :
  load_metadata w =
    if negb (json_exists w) then
      IO [] (Raise (RuntimeError ("failed to load metadata from '" +:+ json_path w
                                  +:+ ", can't continue")))
    else
      match json_load w with
      | Raise e => IO [] (Raise e)
      | Ok j =>
          if json_falsy j then
            IO [] (Raise (RuntimeError ("failed to load metadata file "
                                        +:+ json_path w)))
          else
            match json_item j "fileName" with
            | Raise e => IO [] (Raise e)
            | Ok fn =>
                match json_contains ".wmo" fn with
                | Raise e => IO [] (Raise e)
                | Ok false =>
                    IO [] (Raise (ValueError
                                    "import_wmo called to import a non-WMO file"))
                | Ok true =>
                    IO [EvFromDict]
                      match from_dict j with
                      | Decoded m => Ok m
                      | MissingField msg => Raise (RuntimeError msg)
                      | InvalidFieldValue =>
                          Raise (RuntimeError "invalid field value (not repeating)")
                      end
                end
            end
      end.
Proof.
  unfold load_metadata. destruct (json_exists w); cbn [negb]; [|done].
  destruct (json_load w) as [j|e]; [rewrite io_lift_Ok | by rewrite io_lift_Raise].
  destruct (json_falsy j); [done|].
  destruct (json_item j "fileName") as [fn|e];
    [rewrite io_lift_Ok | by rewrite io_lift_Raise].
  destruct (json_contains ".wmo" fn) as [has|e];
    [rewrite io_lift_Ok | by rewrite io_lift_Raise].
  destruct has; cbn [negb]; [|done].
  rewrite io_emit. by destruct (from_dict j).
Qed.

Lemma load_metadata_trace (w : world) :
  (trace (load_metadata w) = [] ∧ ∃ e, outcome (load_metadata w) = Raise e) ∨
  (trace (load_metadata w) = [EvFromDict] ∧ checks_pass w).
Proof.
  rewrite load_metadata_cases. unfold checks_pass.
  destruct (json_exists w); cbn [negb]; [|left; eauto].
  destruct (json_load w) as [j|e]; [|left; eauto].
  destruct (json_falsy j) eqn:Hfalsy; [left; eauto|].
  destruct (json_item j "fileName") as [fn|e] eqn:Hitem; [|left; eauto].
  destruct (json_contains ".wmo" fn) as [[]|e] eqn:Hhas; [|left; eauto..].
  right. split; [done|]. split; [done|]. by exists j, fn.
Qed.

(** C8. The import stops with an exception and an empty trace, so before
    the metadata is decoded, the obj is read or anything is made in the
    scene: with the RuntimeError of the missing metadata when the sidecar
    does not exist or its document is falsy, with the ValueError of the
    non-WMO file when the [fileName] string lacks [".wmo"]. And whatever
    the import does, the first event of its trace is the decoding of the
    metadata, which happens only after these checks have passed. *)
Theorem import_wmo_fatal_checks (w : world) (stem : string)
    (name_override : option string) :
  (json_exists w = false →
     import_wmo w stem name_override =
       IO [] (Raise (RuntimeError ("failed to load metadata from '"
                                   +:+ json_path w +:+ ", can't continue")))) ∧
  (∀ j, json_exists w = true → json_load w = Ok j → json_falsy j = true →
     import_wmo w stem name_override =
       IO [] (Raise (RuntimeError ("failed to load metadata file "
                                   +:+ json_path w)))) ∧
  (∀ j fn, json_exists w = true → json_load w = Ok j → json_falsy j = false →
     json_item j "fileName" = Ok (JStr fn) → contains ".wmo" fn = false →
     import_wmo w stem name_override =
       IO [] (Raise (ValueError "import_wmo called to import a non-WMO file"))) ∧
  (∀ ev, ev ∈ trace (import_wmo w stem name_override) →
     checks_pass w ∧
     head (trace (import_wmo w stem name_override)) = Some EvFromDict).
Proof.
  split; [|split; [|split]].
  - intros Hex. unfold import_wmo. erewrite io_bind_Raise;
      rewrite load_metadata_cases, Hex; done.
  - intros j Hex Hload Hfalsy. unfold import_wmo. erewrite io_bind_Raise;
      rewrite load_metadata_cases, Hex, Hload, Hfalsy; done.
  - intros j fn Hex Hload Hfalsy Hitem Hwmo. unfold import_wmo.
    erewrite io_bind_Raise;
      rewrite load_metadata_cases, Hex, Hload, Hfalsy, Hitem;
      cbn [negb json_contains]; rewrite Hwmo; done.
  - intros ev Hev. unfold import_wmo in *.
    destruct (load_metadata_trace w) as [[Hnil [e He]] | [Htr Hpass]].
    + rewrite (io_bind_Raise _ _ e He), Hnil in Hev. by apply elem_of_nil in Hev.
    + split; [done|].
      destruct (io_bind_trace (load_metadata w) (import_obj w stem name_override))
        as [rest Hrest].
      rewrite Hrest, Htr. done.
Qed.

End ImportFacts.

(** * Further properties of the code *)

(** ** Failures of the import and what they leave behind *)

Section ImportFailures.
Context `{Ext : Externals}.

Lemma io_bind_Ok {A B} (m : io A) (k : A → io B) (a : A) :
  outcome m = Ok a → m ≫= k = IO (trace m ++ trace (k a)) (outcome (k a)).
Proof. intros H. unfold mbind, io_bind. by rewrite H. Qed.

Lemma io_mret_bind {A B} (a : A) (k : A → io B) : mret a ≫= k = k a.
Proof. unfold mbind, io_bind, mret, io_ret. simpl. by destruct (k a). Qed.

Lemma import_obj_read (w : world) (stem : string) (name_override : option string)
    (cfg : JsonWmoMetadata) :
  ∃ k : ObjData → io (list BlenderObject),
    import_obj w stem name_override cfg =
      IO (read_events w ++ trace (lift (obj_open w ≫= read_obj) ≫= k))
         (outcome (lift (obj_open w ≫= read_obj) ≫= k)) ∧
    ∀ od, ∃ rest,
      trace (k od) = EvNewMesh (match name_override with
                                | Some n => if String.eqb n "" then stem else n
                                | None => stem
                                end)
                     :: EvNewObject (match name_override with
                                     | Some n => if String.eqb n "" then stem else n
                                     | None => stem
                                     end)
                     :: rest ∧
      (∀ e, repack_wmo od cfg = Raise e → rest = [] ∧ outcome (k od) = Raise e).
Proof.
  unfold import_obj, read_events.
  set (basename := match name_override with
                   | Some n => if String.eqb n "" then stem else n
                   | None => stem
                   end).
  eexists (λ obj_data,
             _ ← emit (EvNewMesh basename);
             _ ← emit (EvNewObject basename);
             packed ← lift (repack_wmo obj_data cfg);
             let '(h, _, wmo_groups) := packed in
             mats ← new_materials basename (materials cfg);
             setup_objects h basename (list_to_map mats) wmo_groups).
  split.
  - destruct (select_all_poll w); [rewrite io_emit | rewrite io_mret_bind];
      rewrite io_emit; cbn [app];
      (destruct (obj_open w) as [content|e];
       [cbn [mbind result_bind]; rewrite io_lift_Ok;
        destruct (read_obj content) as [od|e];
        [rewrite !io_lift_Ok | rewrite !io_lift_Raise]
       | cbn [mbind result_bind]; rewrite !io_lift_Raise]); done.
  - intros od. rewrite !io_emit. cbn [trace outcome]. eexists. split; [done|].
    intros e He. rewrite He, io_lift_Raise. done.
Qed.

(** X1. When the metadata is decoded, a failure to open or to read the
    obj ends the import with that exception after, at most, the
    deselection: no mesh, object or material was made. *)
Theorem import_wmo_geometry_failure (w : world) (stem : string)
    (name_override : option string) (cfg : JsonWmoMetadata) (e : exn) :
  load_metadata w = IO [EvFromDict] (Ok cfg) →
  obj_open w ≫= read_obj = Raise e →
  import_wmo w stem name_override = IO (EvFromDict :: read_events w) (Raise e).
Proof.
  intros Hload Hread. unfold import_wmo.
  rewrite (io_bind_Ok _ _ cfg) by (by rewrite Hload). rewrite Hload. cbn [trace].
  destruct (import_obj_read w stem name_override cfg) as (k & -> & _).
  rewrite Hread, io_lift_Raise. cbn [trace outcome]. by rewrite app_nil_r.
Qed.

(** X2. When the obj is read and the metadata declares more render
    batches than the obj has face groups, the import ends with the
    IndexError of the sanity loop: the mesh and the object named after the
    file are made by then, but no material and no group object. *)
Theorem import_wmo_batch_overflow (w : world) (stem : string)
    (name_override : option string) (cfg : JsonWmoMetadata) (od : ObjData) :
  load_metadata w = IO [EvFromDict] (Ok cfg) →
  obj_open w ≫= read_obj = Ok od →
  Py.len (od_groups od) < sum_batches (groups cfg) →
  let basename := basename_of stem name_override in
  import_wmo w stem name_override =
    IO (EvFromDict :: read_events w ++ [EvNewMesh basename; EvNewObject basename])
       (Raise IndexError).
Proof.
  intros Hload Hread Hover basename. unfold import_wmo.
  rewrite (io_bind_Ok _ _ cfg) by (by rewrite Hload). rewrite Hload. cbn [trace].
  destruct (import_obj_read w stem name_override cfg) as (k & -> & Hk).
  rewrite Hread, io_lift_Ok. cbn [trace outcome].
  destruct (Hk od) as (rest & Htr & Hfail).
  assert (repack_wmo od cfg = Raise IndexError) as Hrepack.
  { rewrite repack_wmo_unfold. unfold check_batches.
    rewrite check_groups_fold by done. rewrite decide_False; [done|].
    pose proof (Nat2Z.is_nonneg (length (od_groups od))) as Hl.
    fold (Py.len (od_groups od)) in Hl. lia. }
  destruct (Hfail _ Hrepack) as [-> Hout].
  by rewrite Htr, Hout.
Qed.

(** X3. A document that does not fit the checks of the file name: the
    exception of [json.load] passes through; a truthy document that is not
    an object, or whose [fileName] is a number, a boolean or null, raises
    TypeError; an object without [fileName] raises KeyError. In each case
    nothing else has happened. *)
Theorem import_wmo_malformed_document (w : world) (stem : string)
    (name_override : option string) :
  json_exists w = true →
  (∀ e, json_load w = Raise e → import_wmo w stem name_override = IO [] (Raise e)) ∧
  (∀ j, json_load w = Ok j → json_falsy j = false →
     (match j with JObj _ => False | _ => True end →
        import_wmo w stem name_override = IO [] (Raise TypeError)) ∧
     (∀ kv, j = JObj kv → obj_get kv "fileName" = None →
        import_wmo w stem name_override = IO [] (Raise KeyError)) ∧
     (∀ kv fn, j = JObj kv → obj_get kv "fileName" = Some fn →
        match fn with JNull | JBool _ | JNum _ => True | _ => False end →
        import_wmo w stem name_override = IO [] (Raise TypeError))).
Proof.
  intros Hex. split.
  - intros e Hload. unfold import_wmo. erewrite io_bind_Raise;
      rewrite load_metadata_cases, Hex, Hload; done.
  - intros j Hload Htruthy. split; [|split].
    + intros Hshape. unfold import_wmo.
      erewrite (io_bind_Raise _ _ TypeError);
        rewrite load_metadata_cases, Hex, Hload, Htruthy; cbn [negb];
        by destruct j.
    + intros kv -> Hkey. unfold import_wmo.
      erewrite (io_bind_Raise _ _ KeyError);
        rewrite load_metadata_cases, Hex, Hload, Htruthy; cbn [negb json_item];
        by rewrite Hkey.
    + intros kv fn -> Hkey Hfn. unfold import_wmo.
      erewrite (io_bind_Raise _ _ TypeError);
        rewrite load_metadata_cases, Hex, Hload, Htruthy; cbn [negb json_item];
        rewrite Hkey; cbn [of_option]; by destruct fn.
Qed.

(** X4. When the checks pass and the decoder of the metadata rejects the
    document, the import ends with a RuntimeError, whose message is that of
    the missing field or the fixed text of the invalid value, and the
    decoding is all that has happened. *)
Theorem import_wmo_decode_failure (w : world) (stem : string)
    (name_override : option string) (j fn : json) :
  json_exists w = true → json_load w = Ok j → json_falsy j = false →
  json_item j "fileName" = Ok fn → json_contains ".wmo" fn = Ok true →
  match from_dict j with
  | Decoded _ => ∃ rest, trace (import_wmo w stem name_override) = EvFromDict :: rest
  | MissingField msg =>
      import_wmo w stem name_override = IO [EvFromDict] (Raise (RuntimeError msg))
  | InvalidFieldValue =>
      import_wmo w stem name_override =
        IO [EvFromDict] (Raise (RuntimeError "invalid field value (not repeating)"))
  end.
Proof.
  intros Hex Hload Htruthy Hitem Hwmo.
  assert (load_metadata w =
            IO [EvFromDict]
              match from_dict j with
              | Decoded m => Ok m
              | MissingField msg => Raise (RuntimeError msg)
              | InvalidFieldValue =>
                  Raise (RuntimeError "invalid field value (not repeating)")
              end) as Hmeta.
  { by rewrite load_metadata_cases, Hex, Hload, Htruthy, Hitem, Hwmo. }
  unfold import_wmo. destruct (from_dict j) as [m|msg|].
  - destruct (io_bind_trace (load_metadata w) (import_obj w stem name_override))
      as [rest Hrest].
    exists rest. by rewrite Hrest, Hmeta.
  - erewrite io_bind_Raise; rewrite Hmeta; done.
  - erewrite io_bind_Raise; rewrite Hmeta; done.
Qed.

End ImportFailures.

(** ** What the reader keeps of a file *)

Section ReaderContents.
Context `{Ext : Externals}.

Ltac kind_case :=
  match goal with
  | |- context [String.eqb ?k ?c] =>
      destruct (String.eqb_spec k c) as [->|?]
  end.

Ltac bind_ok H :=
  let x := fresh "x" in let Hx := fresh "Hx" in
  apply bind_Ok in H as (x & Hx & H).

Lemma read_line_unknown (st : reader_state) (l : string) :
  is_known l = false → read_line st l = Ok st.
Proof.
  destruct st as [od gi]. unfold is_known, record_kind, read_line.
  destruct (Py.split l) as [|k tl]; [done|]. simpl head.
  intros Hk%bool_decide_eq_false. unfold known_kinds in Hk.
  repeat kind_case; try done; exfalso; apply Hk; set_solver.
Qed.

(** X5. Blank lines and records of a kind that the reader does not know
    (comments, smoothing groups, anything else) have no effect: the reader
    gives the same result, data or exception, on the file without them. *)
Theorem read_lines_ignores_unknown (st : reader_state) (ls : list string) :
  read_lines st (filter (λ l, is_known l = true) ls) = read_lines st ls.
Proof.
  revert st. induction ls as [|l ls IH]; intros st; [done|].
  rewrite filter_cons. destruct (decide (is_known l = true)) as [Hk|Hk].
  - rewrite !read_lines_cons. destruct (read_line st l); [apply IH | done].
  - rewrite read_lines_cons, read_line_unknown by (by destruct (is_known l)).
    apply IH.
Qed.

Lemma update_inv {A} (l l' : list A) (i : Z) (f : A → A) :
  Py.update l i f = Ok l' →
  ∃ n, Py.norm_index l i = Some n ∧ l' = alter f n l.
Proof.
  unfold Py.update. destruct (Py.norm_index l i) as [n|]; [|discriminate].
  intros [= <-]. by exists n.
Qed.

Lemma norm_index_length {A B} (l : list A) (l' : list B) (i : Z) :
  length l = length l' → Py.norm_index l i = Py.norm_index l' i.
Proof. intros H. unfold Py.norm_index, Py.len. by rewrite H. Qed.

Lemma update_fmap {A B} (h : A → B) (l l' : list A) (i : Z) (f : A → A) :
  (∀ x, h (f x) = h x) → Py.update l i f = Ok l' → h <$> l' = h <$> l.
Proof.
  intros Hf (n & _ & ->)%update_inv.
  rewrite (list_fmap_alter h f id) by (apply Forall_forall; intros; apply Hf).
  by rewrite list_alter_id.
Qed.

Lemma update_Forall {A} (P : A → Prop) (l l' : list A) (i : Z) (f : A → A) :
  (∀ x, P x → P (f x)) → Py.update l i f = Ok l' → Forall P l → Forall P l'.
Proof.
  intros Hf (n & _ & ->)%update_inv Hl. apply Forall_alter; [done|]. eauto.
Qed.

Lemma index_Ok_elem {A} (l : list A) (i : Z) (x : A) :
  Py.index l i = Ok x → x ∈ l.
Proof.
  unfold Py.index. destruct (Py.norm_index l i) as [n|]; [|discriminate].
  destruct (l !! n) as [y|] eqn:Hy; simpl; [|discriminate].
  intros [= <-]. by eapply list_elem_of_lookup_2.
Qed.

Ltac reader_crush :=
  repeat match goal with
         | H : read_face _ _ _ = Ok _ |- _ => unfold read_face in H
         | H : read_group _ _ _ = Ok _ |- _ => unfold read_group in H
         | H : read_usemtl _ _ _ = Ok _ |- _ => unfold read_usemtl in H
         | H : _ ≫= _ = Ok _ |- _ => apply bind_Ok in H as (? & ? & H)
         | H : (if ?b then _ else _) = Ok _ |- _ => destruct b eqn:?
         | H : Raise _ = Ok _ |- _ => discriminate H
         | H : Ok _ = Ok _ |- _ => injection H as ?; subst
         end.

(** What one line adds to the vertexes. *)
Lemma read_line_verts (od od' : ObjData) (gi gi' : Z) (l : string) :
  read_line (od, gi) l = Ok (od', gi') →
  (is_record "v" l →
     ∃ v, floats (Py.split l) 1 4 = Ok v ∧ od_verts od' = od_verts od ++ [v]) ∧
  (¬ is_record "v" l → od_verts od' = od_verts od).
Proof.
  unfold is_record, record_kind, read_line.
  destruct (Py.split l) as [|k tl]; simpl head.
  { intros [= <- <-]. by split. }
  repeat kind_case; intros H;
    (split; intros Hk;
     [simpl in Hk; try discriminate Hk; try congruence | try (by destruct Hk)]);
    reader_crush; try done.
  eexists. by split.
Qed.

(** What one line adds to the first UV set. *)
Lemma read_line_uv (od od' : ObjData) (gi gi' : Z) (l : string) :
  read_line (od, gi) l = Ok (od', gi') →
  (is_record "vt" l →
     ∃ v, floats (Py.split l) 1 3 = Ok v ∧ od_uv od' = od_uv od ++ [v]) ∧
  (¬ is_record "vt" l → od_uv od' = od_uv od).
Proof.
  unfold is_record, record_kind, read_line.
  destruct (Py.split l) as [|k tl]; simpl head.
  { intros [= <- <-]. by split. }
  repeat kind_case; intros H;
    (split; intros Hk;
     [simpl in Hk; try discriminate Hk; try congruence | try (by destruct Hk)]);
    reader_crush; try done.
  eexists. by split.
Qed.

(** What one line does to the names of the groups. *)
Lemma read_line_names (od od' : ObjData) (gi gi' : Z) (l : string) :
  reader_inv (od, gi) →
  read_line (od, gi) l = Ok (od', gi') →
  (is_record "g" l →
     ∃ n, group_name l = Ok n ∧
          og_name <$> od_groups od' = (og_name <$> od_groups od) ++ [Some n]) ∧
  (¬ is_record "g" l → og_name <$> od_groups od' = og_name <$> od_groups od).
Proof.
  unfold reader_inv. cbn [fst snd]. intros Hinv.
  unfold is_record, record_kind, read_line, group_name.
  destruct (Py.split l) as [|k tl]; simpl head.
  { intros [= <- <-]. by split. }
  repeat kind_case; intros H;
    (split; intros Hk;
     [simpl in Hk; try discriminate Hk; try congruence | try (by destruct Hk)]);
    reader_crush; try done; cbn [od_groups set_groups] in *.
  - (* f *)
    repeat match goal with
           | H : Py.update _ _ _ = Ok _ |- _ =>
               apply (update_fmap og_name) in H; [|done]
           end.
    congruence.
  - (* g *)
    match goal with
    | H1 : Py.index _ 1 = Ok ?tok, H2 : utf8_decode ?tok = Ok ?name,
      H3 : Py.update _ _ _ = Ok _ |- _ =>
        exists name; rewrite H1; cbn [mbind result_bind]; rewrite H2;
        split; [done|]; apply update_inv in H3 as (n' & Hn & ->)
    end.
    assert (n' = (length (od_groups od) + 0)%nat) as ->.
    { unfold Py.norm_index, Py.len in Hn. rewrite length_app in Hn. simpl in Hn.
      repeat match type of Hn with
             | context [?a <=? ?b] => destruct (Z.leb_spec a b)
             | context [?a <? ?b] => destruct (Z.ltb_spec a b)
             end; try discriminate Hn; injection Hn as <-; lia. }
    rewrite alter_app_r. by rewrite fmap_app.
  - (* usemtl *)
    repeat match goal with
           | H : Py.update _ _ _ = Ok _ |- _ =>
               apply (update_fmap og_name) in H; [|done]
           end.
    congruence.
Qed.

Lemma read_lines_collect {B} (kind : string) (field : ObjData → list B)
    (parse : string → result B) :
  (∀ od gi l od' gi',
     reader_inv (od, gi) → read_line (od, gi) l = Ok (od', gi') →
     (is_record kind l → ∃ v, parse l = Ok v ∧ field od' = field od ++ [v]) ∧
     (¬ is_record kind l → field od' = field od)) →
  ∀ ls od gi od' gi',
    reader_inv (od, gi) → read_lines (od, gi) ls = Ok (od', gi') →
    ∃ vs, mapM parse (records kind ls) = Ok vs ∧ field od' = field od ++ vs.
Proof.
  intros Hline. induction ls as [|l ls IH]; intros od gi od' gi' Hinv.
  - intros [= <- <-]. exists []. by rewrite app_nil_r.
  - rewrite read_lines_cons. intros ([od1 gi1] & Hl & Hls)%bind_Ok.
    pose proof (read_line_inv _ _ _ Hinv Hl) as Hinv1.
    destruct (IH _ _ _ _ Hinv1 Hls) as (vs & Hvs & Hfield).
    destruct (Hline _ _ _ _ _ Hinv Hl) as [Hyes Hno].
    unfold records. rewrite filter_cons.
    destruct (decide (is_record kind l)) as [Hk|Hk].
    + destruct (Hyes Hk) as (v & Hv & Hf1). exists (v :: vs).
      cbn [mapM]. rewrite Hv. cbn [mbind result_bind].
      unfold records in Hvs. rewrite Hvs. cbn [mbind result_bind].
      split; [done|]. by rewrite Hfield, Hf1, <- app_assoc.
    + exists vs. split; [done|]. by rewrite Hfield, (Hno Hk).
Qed.

(** X6. What a successful read keeps: the vertexes are the [v] records
    of the file, in order, each read as the floats of its first three
    arguments; the first UV set is the [vt] records, read likewise from two
    arguments; and the groups are named, in order, by the [g] records. *)
Theorem read_obj_contents (content : string) (od : ObjData) :
  read_obj content = Ok od →
  mapM (λ l, floats (Py.split l) 1 4) (records "v" (Py.lines content))
    = Ok (od_verts od) ∧
  mapM (λ l, floats (Py.split l) 1 3) (records "vt" (Py.lines content))
    = Ok (od_uv od) ∧
  mapM (λ l, Some <$> group_name l) (records "g" (Py.lines content))
    = Ok (og_name <$> od_groups od).
Proof.
  intros (gi & Hrun)%read_obj_Ok. split; [|split].
  - destruct (read_lines_collect "v" od_verts (λ l, floats (Py.split l) 1 4))
      with (ls := Py.lines content) (od := ObjData_new) (gi := -1) (od' := od)
           (gi' := gi) as (vs & Hvs & Hf); [|apply reader_init_inv|exact Hrun|].
    + intros ? ? ? ? ? _. apply read_line_verts.
    + by rewrite Hvs, Hf.
  - destruct (read_lines_collect "vt" od_uv (λ l, floats (Py.split l) 1 3))
      with (ls := Py.lines content) (od := ObjData_new) (gi := -1) (od' := od)
           (gi' := gi) as (vs & Hvs & Hf); [|apply reader_init_inv|exact Hrun|].
    + intros ? ? ? ? ? _. apply read_line_uv.
    + by rewrite Hvs, Hf.
  - destruct (read_lines_collect "g" (λ o, og_name <$> od_groups o)
                (λ l, Some <$> group_name l))
      with (ls := Py.lines content) (od := ObjData_new) (gi := -1) (od' := od)
           (gi' := gi) as (vs & Hvs & Hf); [|apply reader_init_inv|exact Hrun|].
    + intros o g l o' g' Hinv Hl.
      destruct (read_line_names _ _ _ _ _ Hinv Hl) as [Hyes Hno].
      split; [|done]. intros Hk. destruct (Hyes Hk) as (n & Hn & Hnames).
      exists (Some n). by rewrite Hn.
    + by rewrite Hvs, Hf.
Qed.

(** One line keeps the vertexes of the faces among the used vertexes. *)
Lemma read_line_verts_cover (od od' : ObjData) (gi gi' : Z) (l : string) :
  read_line (od, gi) l = Ok (od', gi') →
  Forall verts_cover (od_groups od) → Forall verts_cover (od_groups od').
Proof.
  unfold read_line.
  destruct (Py.split l) as [|k tl].
  { by intros [= <- <-]. }
  repeat kind_case; intros H Hall; reader_crush; try done;
    cbn [od_groups set_groups] in *.
  - (* f *)
    match goal with
    | H1 : Py.update (od_groups od) _ _ = Ok ?l1, H2 : Py.update ?l1 _ _ = Ok _ |- _ =>
        pose proof (update_length _ _ _ _ H1) as Hlen;
        apply update_inv in H1 as (k1 & Hk1 & ->);
        apply update_inv in H2 as (k2 & Hk2 & ->)
    end.
    rewrite (norm_index_length _ (od_groups od)) in Hk2 by done.
    assert (k2 = k1) as -> by congruence.
    rewrite list_alter_alter_eq. apply Forall_alter; [done|].
    intros g _ Hg a b c. cbn. intros [Hold | Hnew%list_elem_of_singleton]%elem_of_app.
    + destruct (Hg a b c Hold) as (? & ? & ?). set_solver.
    + injection Hnew as -> -> ->.
      repeat match goal with
             | H : Py.index _ _ = Ok _ |- _ => apply index_Ok_elem in H
             end.
      repeat apply conj;
        apply elem_of_union_r, elem_of_list_to_set, list_elem_of_fmap;
        eexists; (split; [reflexivity|done]).
  - (* g *)
    match goal with
    | H : Py.update _ _ _ = Ok _ |- _ =>
        eapply (update_Forall verts_cover) in H; [done| |]
    end.
    + intros g Hg a b c. apply Hg.
    + apply Forall_app. split; [done|]. constructor; [|done].
      intros a b c Hin. by apply elem_of_nil in Hin.
  - (* usemtl *)
    match goal with
    | H : Py.update _ _ _ = Ok _ |- _ =>
        eapply (update_Forall verts_cover) in H; [done| |done]
    end.
    intros g Hg a b c. apply Hg.
Qed.

(** X7. In the data of a successful read, the set of used vertexes of
    every group holds the three vertexes of each of its faces, counted
    from 0. *)
Theorem read_obj_verts_cover (content : string) (od : ObjData) :
  read_obj content = Ok od → Forall verts_cover (od_groups od).
Proof.
  intros (gi & Hrun)%read_obj_Ok.
  assert (∀ ls st st', read_lines st ls = Ok st' →
            Forall verts_cover (od_groups st.1) →
            Forall verts_cover (od_groups st'.1)) as Hind.
  { induction ls as [|l ls IH]; intros [o g] [o' g'].
    - by intros [= <- <-].
    - rewrite read_lines_cons. intros ([o1 g1] & Hl & Hls)%bind_Ok Hall.
      eapply IH; [exact Hls|]. by eapply read_line_verts_cover. }
  by apply (Hind _ _ _ Hrun).
Qed.

(** What one line does to the faces of the groups. *)
Lemma read_line_faces (od od' : ObjData) (gi gi' : Z) (l : string) :
  reader_inv (od, gi) →
  read_line (od, gi) l = Ok (od', gi') →
  (is_record "g" l →
     og_faces <$> od_groups od' = (og_faces <$> od_groups od) ++ [[]]) ∧
  (is_record "f" l →
     ∃ t, face_of l = Ok t ∧ od_groups od ≠ [] ∧
          og_faces <$> od_groups od' = extend_last (og_faces <$> od_groups od) [t]) ∧
  (¬ is_record "g" l → ¬ is_record "f" l →
     og_faces <$> od_groups od' = og_faces <$> od_groups od).
Proof.
  unfold reader_inv. cbn [fst snd]. intros Hinv.
  unfold is_record, record_kind, read_line, face_of.
  destruct (Py.split l) as [|k tl]; simpl head.
  { intros [= <- <-]. by repeat apply conj. }
  repeat kind_case; intros H;
    (repeat apply conj; [intros Hk | intros Hk | intros Hg Hf];
     try (by injection Hk); try (by destruct Hg); try (by destruct Hf));
    reader_crush; try done; cbn [od_groups set_groups] in *.
  - (* f *)
    match goal with
    | H1 : face_vertex_indices _ = Ok ?fv, Ha : Py.index ?fv 0 = Ok ?a,
      Hb : Py.index ?fv 1 = Ok ?b, Hc : Py.index ?fv 2 = Ok ?c,
      U1 : Py.update (od_groups od) _ _ = Ok ?l1, U2 : Py.update ?l1 _ _ = Ok _ |- _ =>
        exists (a, b, c); rewrite H1; cbn [mbind result_bind];
        rewrite Ha; cbn [mbind result_bind]; rewrite Hb; cbn [mbind result_bind];
        rewrite Hc; cbn [mbind result_bind];
        pose proof (update_length _ _ _ _ U1) as Hlen;
        apply update_inv in U1 as (k1 & Hk1 & ->);
        apply update_inv in U2 as (k2 & Hk2 & ->)
    end.
    rewrite (norm_index_length _ (od_groups od)) in Hk2 by done.
    assert (k2 = k1) as -> by congruence.
    assert (k1 = (length (od_groups od) - 1)%nat ∧ od_groups od ≠ []) as [-> Hne].
    { unfold Py.norm_index, Py.len in Hk1.
      destruct (od_groups od); simpl in *;
        repeat match type of Hk1 with
               | context [?a <=? ?b] => destruct (Z.leb_spec a b)
               | context [?a <? ?b] => destruct (Z.ltb_spec a b)
               end; try discriminate Hk1; try lia.
      injection Hk1 as <-. split; [lia | done]. }
    repeat apply conj; [done | done |].
    unfold extend_last. rewrite length_fmap, list_alter_alter_eq.
    by apply list_fmap_alter, Forall_true.
  - (* g *)
    match goal with
    | U : Py.update _ _ _ = Ok _ |- _ => apply (update_fmap og_faces) in U; [|done]
    end.
    by rewrite fmap_app in *.
  - (* usemtl *)
    match goal with
    | U : Py.update _ _ _ = Ok _ |- _ => by apply (update_fmap og_faces) in U
    end.
Qed.

Lemma extend_last_nil {A} (fs : list (list A)) : extend_last fs [] = fs.
Proof.
  unfold extend_last. apply list_alter_id. intros x. apply app_nil_r.
Qed.

Lemma extend_last_snoc {A} (fs : list (list A)) (ts : list A) :
  extend_last (fs ++ [[]]) ts = fs ++ [ts].
Proof.
  unfold extend_last. rewrite length_app. simpl.
  replace (length fs + 1 - 1)%nat with (length fs + 0)%nat by lia.
  by rewrite alter_app_r.
Qed.

Lemma extend_last_twice {A} (fs : list (list A)) (ts us : list A) :
  extend_last (extend_last fs ts) us = extend_last fs (ts ++ us).
Proof.
  unfold extend_last. rewrite length_alter, list_alter_alter_eq.
  apply list_alter_ext; [|done]. intros x _. simpl. by rewrite app_assoc.
Qed.

Lemma read_lines_faces (ls : list string) :
  ∀ od gi od' gi',
    reader_inv (od, gi) → read_lines (od, gi) ls = Ok (od', gi') →
    ∃ pf rf,
      mapM face_of (face_runs ls).1 = Ok pf ∧
      mapM (mapM face_of) (face_runs ls).2 = Ok rf ∧
      og_faces <$> od_groups od' = extend_last (og_faces <$> od_groups od) pf ++ rf ∧
      (od_groups od = [] → (face_runs ls).1 = []).
Proof.
  induction ls as [|l ls IH]; intros od gi od' gi' Hinv.
  - intros [= <- <-]. exists [], []. rewrite extend_last_nil, app_nil_r. done.
  - rewrite read_lines_cons. intros ([od1 gi1] & Hl & Hls)%bind_Ok.
    pose proof (read_line_inv _ _ _ Hinv Hl) as Hinv1.
    destruct (IH _ _ _ _ Hinv1 Hls) as (pf & rf & Hpf & Hrf & Hfaces & Hpre).
    destruct (read_line_faces _ _ _ _ _ Hinv Hl) as (Hg & Hf & Hother).
    apply read_line_groups in Hl as [_ Hsame].
    cbn [face_runs]. destruct (face_runs ls) as [pre runs]. cbn [fst snd] in *.
    destruct (decide (is_record "g" l)) as [Hk|Hk]; cbn [fst snd].
    + exists [], (pf :: rf). cbn [mapM]. rewrite Hpf, Hrf. cbn [mbind result_bind].
      repeat apply conj; try done.
      by rewrite Hfaces, (Hg Hk), extend_last_snoc, extend_last_nil, <- app_assoc.
    + destruct (decide (is_record "f" l)) as [Hk'|Hk']; cbn [fst snd].
      * destruct (Hf Hk') as (t & Ht & Hne & Hext).
        exists (t :: pf), rf. cbn [mapM]. rewrite Ht, Hpf. cbn [mbind result_bind].
        repeat apply conj; try done.
        by rewrite Hfaces, Hext, extend_last_twice.
      * exists pf, rf. repeat apply conj; try done.
        -- by rewrite Hfaces, (Hother Hk Hk').
        -- intros Hnil. apply Hpre. destruct (Hsame Hk) as [_ Hlen].
           apply nil_length_inv. by rewrite Hlen, Hnil.
Qed.

(** X8. The groups of a successful read hold the faces of the file by
    section: the faces of the k-th group are the [f] records between the
    k-th [g] record and the next one, in the order of the file, each cut
    to its first three vertex indexes; and no [f] record comes before the
    first [g] record. *)
Theorem read_obj_group_faces (content : string) (od : ObjData) :
  read_obj content = Ok od →
  (face_runs (Py.lines content)).1 = [] ∧
  mapM (mapM face_of) (face_runs (Py.lines content)).2
    = Ok (og_faces <$> od_groups od).
Proof.
  intros (gi & Hrun)%read_obj_Ok.
  destruct (read_lines_faces _ _ _ _ _ reader_init_inv Hrun)
    as (pf & rf & _ & Hrf & Hfaces & Hpre).
  split; [by apply Hpre|]. by rewrite Hrf, Hfaces.
Qed.

(** What one line adds to the normals and to the second and third UV
    sets. *)
Lemma read_line_normals (od od' : ObjData) (gi gi' : Z) (l : string) :
  read_line (od, gi) l = Ok (od', gi') →
  (is_record "vn" l →
     ∃ v, floats (Py.split l) 1 4 = Ok v ∧ od_normals od' = od_normals od ++ [v]) ∧
  (¬ is_record "vn" l → od_normals od' = od_normals od).
Proof.
  unfold is_record, record_kind, read_line.
  destruct (Py.split l) as [|k tl]; simpl head.
  { intros [= <- <-]. by split. }
  repeat kind_case; intros H;
    (split; intros Hk;
     [simpl in Hk; try discriminate Hk; try congruence | try (by destruct Hk)]);
    reader_crush; try done.
  eexists. by split.
Qed.

Lemma read_line_uv3 (od od' : ObjData) (gi gi' : Z) (l : string) :
  read_line (od, gi) l = Ok (od', gi') →
  (is_record "vt3" l →
     ∃ v, floats (Py.split l) 1 3 = Ok v ∧ od_uv3 od' = od_uv3 od ++ [v]) ∧
  (¬ is_record "vt3" l → od_uv3 od' = od_uv3 od).
Proof.
  unfold is_record, record_kind, read_line.
  destruct (Py.split l) as [|k tl]; simpl head.
  { intros [= <- <-]. by split. }
  repeat kind_case; intros H;
    (split; intros Hk;
     [simpl in Hk; try discriminate Hk; try congruence | try (by destruct Hk)]);
    reader_crush; try done.
  eexists. by split.
Qed.

Lemma read_line_uv2 (od od' : ObjData) (gi gi' : Z) (l : string) :
  read_line (od, gi) l = Ok (od', gi') →
  (is_record "vt2" l →
     ∃ v, uv2_of l = Ok v ∧ od_uv2 od' = od_uv2 od ++ [v]) ∧
  (¬ is_record "vt2" l → od_uv2 od' = od_uv2 od).
Proof.
  unfold is_record, record_kind, read_line, uv2_of.
  destruct (Py.split l) as [|k tl]; simpl head.
  { intros [= <- <-]. by split. }
  repeat kind_case; intros H;
    (split; intros Hk;
     [simpl in Hk; try discriminate Hk; try congruence | try (by destruct Hk)]);
    reader_crush; try done;
    match goal with
    | Ht : Py.index _ 1 = Ok _, Hb : negb _ = _ |- _ =>
        rewrite Ht; cbn [mbind result_bind]; rewrite Hb
    end; eexists; by split.
Qed.

(** X9. Of the other coordinates a successful read keeps the normals as
    the [vn] records, read from three arguments, and the third UV set as
    the [vt3] records, read from two; a [vt2] record gives the second UV
    set the floats of its two arguments, or the pair of zeros when its
    first argument is the word [undefined]. *)
Theorem read_obj_more_contents (content : string) (od : ObjData) :
  read_obj content = Ok od →
  mapM (λ l, floats (Py.split l) 1 4) (records "vn" (Py.lines content))
    = Ok (od_normals od) ∧
  mapM uv2_of (records "vt2" (Py.lines content)) = Ok (od_uv2 od) ∧
  mapM (λ l, floats (Py.split l) 1 3) (records "vt3" (Py.lines content))
    = Ok (od_uv3 od).
Proof.
  intros (gi & Hrun)%read_obj_Ok. split; [|split].
  - destruct (read_lines_collect "vn" od_normals (λ l, floats (Py.split l) 1 4))
      with (ls := Py.lines content) (od := ObjData_new) (gi := -1) (od' := od)
           (gi' := gi) as (vs & Hvs & Hf); [|apply reader_init_inv|exact Hrun|].
    + intros ? ? ? ? ? _. apply read_line_normals.
    + by rewrite Hvs, Hf.
  - destruct (read_lines_collect "vt2" od_uv2 uv2_of)
      with (ls := Py.lines content) (od := ObjData_new) (gi := -1) (od' := od)
           (gi' := gi) as (vs & Hvs & Hf); [|apply reader_init_inv|exact Hrun|].
    + intros ? ? ? ? ? _. apply read_line_uv2.
    + by rewrite Hvs, Hf.
  - destruct (read_lines_collect "vt3" od_uv3 (λ l, floats (Py.split l) 1 3))
      with (ls := Py.lines content) (od := ObjData_new) (gi := -1) (od' := od)
           (gi' := gi) as (vs & Hvs & Hf); [|apply reader_init_inv|exact Hrun|].
    + intros ? ? ? ? ? _. apply read_line_uv3.
    + by rewrite Hvs, Hf.
Qed.

(** The reader stops at the first line that raises. *)
Lemma read_obj_stops (content l : string) (pre post : list string)
    (st : reader_state) (e : exn) :
  Py.lines content = pre ++ l :: post →
  read_lines reader_init pre = Ok st → read_line st l = Raise e →
  read_obj content = Raise e.
Proof.
  intros Hlines Hpre Hl. apply read_obj_Raise.
  rewrite Hlines, read_lines_app, Hpre. cbn [mbind result_bind].
  by rewrite read_lines_cons, Hl.
Qed.

(** X10. A face record that follows a group record is accepted exactly
    when the vertex part of each of its tokens is an integer and there
    are three tokens at least. A token that is no integer makes the
    reader fail with the ValueError of [int]; with integers only, but
    fewer than three of them, it fails with IndexError. *)
Theorem read_obj_face_errors (content l : string) (pre post : list string)
    (st : reader_state) :
  Py.lines content = pre ++ l :: post →
  is_record "f" l → Exists (is_record "g") pre →
  read_lines reader_init pre = Ok st →
  (is_ok (read_line st l) = true ↔
     ∃ fv, face_vertex_indices (Py.split l) = Ok fv ∧ (3 ≤ length fv)%nat) ∧
  (∀ e, face_vertex_indices (Py.split l) = Raise e →
     read_obj content = Raise (ValueError "invalid literal for int() with base 10")) ∧
  (∀ fv, face_vertex_indices (Py.split l) = Ok fv → (length fv < 3)%nat →
     read_obj content = Raise IndexError).
Proof.
  intros Hlines Hf Hg Hpre. destruct st as [od gi].
  destruct (read_lines_after_group _ _ Hg Hpre) as [Hinv Hgi]. cbn [snd] in Hgi.
  assert (∀ fv, face_vertex_indices (Py.split l) = Ok fv → (length fv < 3)%nat →
            read_line (od, gi) l = Raise IndexError) as Hshort.
  { intros fv Hfv Hlen. rewrite read_line_face by done. unfold read_face.
    destruct (Z.ltb_spec gi 0); [lia|]. rewrite Hfv. cbn [mbind result_bind].
    unfold reader_inv in Hinv. cbn [fst snd] in Hinv.
    destruct (index_Ok_in_range (od_groups od) gi) as (g & _ & ->); [lia|].
    cbn [mbind result_bind].
    destruct fv as [|a [|b [|c rest]]]; [done | done | done | simpl in Hlen; lia]. }
  split; [|split].
  - split.
    + intros Hok. destruct (face_vertex_indices (Py.split l)) as [fv|e] eqn:Hfv.
      * exists fv. split; [done|].
        destruct (Nat.lt_ge_cases (length fv) 3) as [Hlt|Hge]; [|done].
        by rewrite (Hshort fv eq_refl Hlt) in Hok.
      * rewrite read_line_face in Hok by done. unfold read_face in Hok.
        destruct (Z.ltb_spec gi 0); [lia|]. by rewrite Hfv in Hok.
    + intros (fv & Hfv & Hlen).
      destruct fv as [|a [|b [|c rest]]]; try (simpl in Hlen; lia).
      destruct (read_face_records od gi a b c rest _ Hinv Hgi Hfv)
        as (g & od' & _ & Hface & _).
      rewrite read_line_face by done. by rewrite Hface.
  - intros e Hfv. eapply read_obj_stops; [done..|].
    rewrite read_line_face by done. unfold read_face.
    destruct (Z.ltb_spec gi 0); [lia|]. rewrite Hfv. cbn [mbind result_bind].
    by apply face_vertex_indices_Raise in Hfv as ->.
  - intros fv Hfv Hlen. eapply read_obj_stops; [done..|]. by eapply Hshort.
Qed.

(** X11. A record of a kind that needs an argument ([mtllib], [vt2], [o],
    [g], [usemtl]) and has none makes the reader fail with IndexError,
    wherever it stands in the file. *)
Theorem read_obj_missing_argument (content l k : string) (pre post : list string)
    (st : reader_state) :
  Py.lines content = pre ++ l :: post →
  read_lines reader_init pre = Ok st →
  Py.split l = [k] → k ∈ argument_kinds →
  read_obj content = Raise IndexError.
Proof.
  intros Hlines Hpre Hsplit Hk. eapply read_obj_stops; [done..|].
  destruct st as [od gi]. unfold read_line. rewrite Hsplit.
  unfold argument_kinds in Hk.
  repeat (apply elem_of_cons in Hk as [->|Hk]); [..|by apply elem_of_nil in Hk];
    done.
Qed.

Ltac bind_raise H :=
  repeat match type of H with
         | _ ≫= _ = Raise _ => apply bind_Raise in H as [H | (? & ? & H)]
         end.

Ltac reader_leaf H :=
  first [ apply index_Raise in H as ->; do 3 right; by left
        | apply update_Raise in H as ->; do 3 right; by left
        | apply floats_Raise in H as ->; right; by left
        | apply utf8_decode_Raise in H as ->; by do 4 right
        | apply face_vertex_indices_Raise in H as ->; do 2 right; by left
        | discriminate H ].

Lemma read_line_errors (st : reader_state) (l : string) (e : exn) :
  read_line st l = Raise e → reader_error e.
Proof.
  destruct st as [od gi]. unfold read_line, reader_error.
  destruct (Py.split l) as [|k tl]; [discriminate|].
  repeat kind_case; intros H; bind_raise H; try (reader_leaf H).
  - (* vt2 *)
    destruct (negb _); bind_raise H; reader_leaf H.
  - (* f *)
    unfold read_face in H. destruct (gi <? 0).
    + injection H as <-. by left.
    + bind_raise H; reader_leaf H.
  - (* g *)
    unfold read_group in H. bind_raise H; reader_leaf H.
  - (* usemtl *)
    unfold read_usemtl in H. bind_raise H; reader_leaf H.
Qed.

(** X20. The exceptions with which the reader can end, once the file is
    open: the RuntimeError of a face before any group, the ValueError of
    [float] or of [int] on a token that is no number, the IndexError of a
    missing argument or group, and the UnicodeDecodeError of a name that
    is not UTF-8. It raises nothing else, and raises at the first line
    that is wrong, after reading the lines before it. *)
Theorem read_obj_errors (content : string) (e : exn) :
  read_obj content = Raise e →
  reader_error e ∧
  ∃ pre l post st,
    Py.lines content = pre ++ l :: post ∧
    read_lines reader_init pre = Ok st ∧
    read_line st l = Raise e ∧
    is_known l = true.
Proof.
  intros (pre & l & post & st & Hlines & Hpre & Hl)%read_obj_Raise%read_lines_Raise.
  split; [by eapply read_line_errors|].
  exists pre, l, post, st. repeat (split; [done|]).
  destruct (is_known l) eqn:Hk; [done|].
  by rewrite read_line_unknown in Hl.
Qed.

End ReaderContents.

(** ** Materials and their metadata *)

Section MaterialNames.

Lemma str_app_cons (c : ascii) (s t : string) :
  (String c s +:+ t)%string = String c (s +:+ t)%string.
Proof. done. Qed.

Lemma str_app_nil_r (s : string) : (s +:+ "")%string = s.
Proof.
  induction s as [|c s IH]; [done|]. rewrite str_app_cons. f_equal. exact IH.
Qed.

Lemma str_app_assoc (s t u : string) :
  ((s +:+ t) +:+ u)%string = (s +:+ (t +:+ u))%string.
Proof.
  induction s as [|c s IH]; [done|]. rewrite !str_app_cons. f_equal. exact IH.
Qed.

Lemma string_of_list_ascii_snoc (l : list ascii) (c : ascii) :
  string_of_list_ascii (l ++ [c]) = (string_of_list_ascii l +:+ String c "")%string.
Proof.
  induction l as [|a l IH]; [done|].
  cbn [app string_of_list_ascii]. rewrite str_app_cons. f_equal. exact IH.
Qed.

Lemma chars_cons (c : ascii) (s : string) : chars (String c s) = c :: chars s.
Proof. done. Qed.

Lemma split_last_go_free (sep : ascii) (s : string) :
  ∀ cur, sep ∉ chars s →
    PyStr.split_last_go sep cur s = (string_of_list_ascii (rev cur) +:+ s)%string.
Proof.
  induction s as [|c s IH]; intros cur Hfree; cbn [PyStr.split_last_go].
  - by rewrite str_app_nil_r.
  - rewrite chars_cons in Hfree.
    apply not_elem_of_cons in Hfree as [Hne Hfree].
    destruct (Ascii.eqb_spec c sep) as [->|_]; [done|].
    rewrite IH by done. cbn [rev].
    by rewrite string_of_list_ascii_snoc, str_app_assoc.
Qed.

Lemma split_last_go_app (sep : ascii) (s1 s2 : string) :
  ∀ cur, PyStr.split_last_go sep cur (s1 +:+ String sep s2)
         = PyStr.split_last_go sep [] s2.
Proof.
  induction s1 as [|c s1 IH]; intros cur.
  - change ("" +:+ String sep s2)%string with (String sep s2).
    cbn [PyStr.split_last_go]. by rewrite Ascii.eqb_refl.
  - rewrite str_app_cons. cbn [PyStr.split_last_go].
    destruct (Ascii.eqb c sep); apply IH.
Qed.

Lemma split_last_after (sep : ascii) (s1 s2 : string) :
  sep ∉ chars s2 → PyStr.split_last sep (s1 +:+ String sep s2) = s2.
Proof.
  intros Hfree. unfold PyStr.split_last.
  by rewrite split_last_go_app, split_last_go_free.
Qed.

Lemma split_first_before (sep : ascii) (s1 s2 : string) :
  sep ∉ chars s1 → PyStr.split_first sep (s1 +:+ String sep s2) = s1.
Proof.
  induction s1 as [|c s1 IH]; intros Hfree.
  - change ("" +:+ String sep s2)%string with (String sep s2).
    cbn [PyStr.split_first]. by rewrite Ascii.eqb_refl.
  - rewrite chars_cons in Hfree.
    apply not_elem_of_cons in Hfree as [Hne Hfree].
    rewrite str_app_cons. cbn [PyStr.split_first].
    destruct (Ascii.eqb_spec c sep) as [->|_]; [done|]. by rewrite IH.
Qed.

Lemma contains_char_free (c : ascii) (s : string) :
  c ∉ chars s → contains (String c "") s = false.
Proof.
  induction s as [|a s IH]; intros Hfree; [done|].
  rewrite chars_cons in Hfree.
  apply not_elem_of_cons in Hfree as [Hne Hfree].
  cbn [contains String.prefix]. rewrite IH by done.
  by destruct (ascii_dec c a).
Qed.

Lemma contains_char_here (c : ascii) (s1 s2 : string) :
  contains (String c "") (s1 +:+ String c s2) = true.
Proof.
  induction s1 as [|a s1 IH].
  - change ("" +:+ String c s2)%string with (String c s2).
    cbn [contains String.prefix].
    destruct (ascii_dec c c); [|done]. by destruct s2.
  - rewrite str_app_cons. cbn [contains]. rewrite IH. apply orb_true_r.
Qed.

Lemma chars_app_elem (c : ascii) (a b : string) :
  c ∈ chars (a +:+ b) → c ∈ chars a ∨ c ∈ chars b.
Proof.
  induction a as [|x a IH]; [by right|].
  rewrite str_app_cons, !chars_cons.
  intros [->|H]%elem_of_cons; [left; by left|].
  destruct (IH H); [left; by right | by right].
Qed.

(** The characters of a decimal numeral are digits. *)
Lemma numeral_chars (d : Decimal.uint) :
  Forall (λ c, Py.is_space c = false ∧ c ≠ "_"%char ∧ c ≠ "."%char)
         (chars (NilEmpty.string_of_uint d)).
Proof.
  induction d as [|d IH|d IH|d IH|d IH|d IH|d IH|d IH|d IH|d IH|d IH];
    unfold chars; cbn [NilEmpty.string_of_uint list_ascii_of_string];
    constructor; done.
Qed.

Lemma str_nat_chars (n : nat) :
  Forall (λ c, Py.is_space c = false ∧ c ≠ "_"%char ∧ c ≠ "."%char)
         (chars (str_nat n)).
Proof. apply numeral_chars. Qed.

Lemma int_digits_numeral (d : Decimal.uint) :
  ∀ acc, Py.int_digits (Z.of_nat acc) true (NilEmpty.string_of_uint d)
         = Some (Z.of_nat (Nat.of_uint_acc d acc)).
Proof.
  induction d as [|d IH|d IH|d IH|d IH|d IH|d IH|d IH|d IH|d IH|d IH];
    intros acc; [done|..];
    cbn [NilEmpty.string_of_uint Py.int_digits Nat.of_uint_acc];
    match goal with
    | |- context [Py.digit_val ?c] =>
        let v := eval vm_compute in (Py.digit_val c) in
        change (Py.digit_val c) with v
    end; cbn match; rewrite <- IH; f_equal; rewrite Nat.tail_mul_spec; lia.
Qed.

(** [int(str(n))] is [n]. *)
Lemma int_str_nat (n : nat) : Py.int (str_nat n) = Ok (Z.of_nat n).
Proof.
  unfold str_nat. rewrite <- (DecimalNat.Unsigned.of_to n) at 2.
  assert (Nat.to_uint n ≠ Decimal.Nil) as Hne.
  { pose proof (DecimalNat.Unsigned.to_of (Nat.to_uint n)) as H.
    rewrite DecimalNat.Unsigned.of_to in H. rewrite H.
    apply DecimalFacts.unorm_nonnil. }
  unfold Nat.of_uint.
  destruct (Nat.to_uint n) as [|d|d|d|d|d|d|d|d|d|d]; [done|..];
    cbn [NilEmpty.string_of_uint Py.int Py.int_digits Nat.of_uint_acc];
    match goal with
    | |- context [Py.digit_val ?c] =>
        let v := eval vm_compute in (Py.digit_val c) in
        change (Py.digit_val c) with v
    end; cbn match;
    match goal with
    | |- context [Py.int_digits ?z true _] =>
        let k := eval vm_compute in (Z.to_nat z) in
        change z with (Z.of_nat k)
    end; by rewrite int_digits_numeral.
Qed.

Lemma lstrip_solid (s : string) :
  Forall (λ c, Py.is_space c = false) (chars s) → PyStr.lstrip s = s.
Proof.
  destruct s as [|c s]; [done|]. rewrite chars_cons.
  intros [Hc _]%Forall_cons. cbn [PyStr.lstrip]. by rewrite Hc.
Qed.

Lemma rstrip_solid (s : string) :
  Forall (λ c, Py.is_space c = false) (chars s) → PyStr.rstrip s = s.
Proof.
  induction s as [|c s IH]; [done|]. rewrite chars_cons.
  intros [Hc Hs]%Forall_cons. cbn [PyStr.rstrip]. rewrite IH by done.
  destruct s; [by rewrite Hc | done].
Qed.

Lemma pystr_int_str_nat (n : nat) : PyStr.int (str_nat n) = Ok (Z.of_nat n).
Proof.
  assert (Forall (λ c, Py.is_space c = false) (chars (str_nat n))) as Hsolid.
  { eapply Forall_impl; [apply str_nat_chars|]. by intros c [? _]. }
  unfold PyStr.int. rewrite lstrip_solid by done.
  rewrite rstrip_solid by done. apply int_str_nat.
Qed.

Lemma str_nat_free (n : nat) :
  ("_"%char ∉ chars (str_nat n)) ∧ ("."%char ∉ chars (str_nat n)).
Proof.
  pose proof (str_nat_chars n) as H. rewrite Forall_forall in H.
  split; intros Hin; by destruct (H _ Hin) as (_ & ? & ?).
Qed.

(** The number in the name of a material of the import, with or without
    the suffix of a renamed copy. *)
Lemma mat_number_material_name (basename : string) (i : nat) :
  mat_number (material_name basename i) = str_nat i ∧
  ∀ suffix, "_"%char ∉ chars suffix →
    mat_number (material_name basename i +:+ "." +:+ suffix) = str_nat i.
Proof.
  destruct (str_nat_free i) as [Hu Hd].
  unfold mat_number, material_name. split.
  - change (basename +:+ "_mat_" +:+ str_nat i)%string
      with (basename +:+ "_mat_" +:+ str_nat i)%string.
    replace (basename +:+ "_mat_" +:+ str_nat i)%string
      with ((basename +:+ "_mat") +:+ String "_" (str_nat i))%string
      by (by rewrite str_app_assoc).
    rewrite split_last_after by done.
    by rewrite contains_char_free.
  - intros suffix Hs.
    replace ((basename +:+ "_mat_" +:+ str_nat i) +:+ "." +:+ suffix)%string
      with ((basename +:+ "_mat") +:+ String "_" (str_nat i +:+ String "." suffix))%string
      by (by rewrite !str_app_assoc).
    rewrite split_last_after.
    + by rewrite contains_char_here, split_first_before.
    + intros [?|Hin]%chars_app_elem; [done|]. rewrite chars_cons in Hin.
      apply elem_of_cons in Hin as [?|?]; done.
Qed.

Lemma forM_pure {A B} (f : A → io B) (ev : A → event) (val : A → B) (l : list A) :
  (∀ x, f x = IO [ev x] (Ok (val x))) →
  forM f l = IO (ev <$> l) (Ok (val <$> l)).
Proof.
  intros Hf. induction l as [|x l IH]; [done|].
  cbn [forM]. rewrite Hf, IH. unfold mbind, io_bind. cbn.
  by rewrite app_nil_r.
Qed.

Lemma new_materials_run (basename : string) (ms : list JsonWmoMaterial) :
  new_materials basename ms
    = IO (imap (λ i _, EvNewMaterial (material_name basename i)) ms)
         (Ok (imap (λ i _, (Z.of_nat i, mkMat (material_name basename i))) ms)).
Proof.
  unfold new_materials.
  erewrite (forM_pure _ (λ im, EvNewMaterial (material_name basename (Z.to_nat im.1)))
              (λ im, (im.1, mkMat (material_name basename (Z.to_nat im.1)))));
    [|done].
  unfold enumerate. rewrite !fmap_imap. f_equal.
  - apply imap_ext. intros i x _. simpl. by rewrite Nat2Z.id.
  - f_equal. apply imap_ext. intros i x _. simpl. by rewrite Nat2Z.id.
Qed.

(** X12. The import makes one material for each material of the
    metadata, named after the base name and the position; and the loop
    over the material slots finds, from such a name alone, the metadata of
    that position again, also when the name has got the dot and suffix of
    a renamed copy. *)
Theorem slot_metadata_round_trip (json_config : JsonWmoMetadata) (basename : string) :
  ∃ mats,
    new_materials basename (materials json_config)
      = IO (imap (λ i _, EvNewMaterial (material_name basename i))
                 (materials json_config))
           (Ok mats) ∧
    mats = imap (λ i _, (Z.of_nat i, mkMat (material_name basename i)))
                (materials json_config) ∧
    ∀ i m, materials json_config !! i = Some m →
      (list_to_map mats : gmap Z Material) !! Z.of_nat i
        = Some (mkMat (material_name basename i)) ∧
      slot_metadata json_config (mkMat (material_name basename i)) = Ok m ∧
      ∀ suffix, "_"%char ∉ chars suffix →
        slot_metadata json_config
          (mkMat (material_name basename i +:+ "." +:+ suffix)) = Ok m.
Proof.
  eexists. split; [apply new_materials_run|]. split; [reflexivity|].
  intros i m Hm.
  assert (Py.index (materials json_config) (Z.of_nat i) = Ok m) as Hindex.
  { apply lookup_lt_Some in Hm as Hlt.
    rewrite index_in_range by (unfold Py.len; lia). by rewrite Nat2Z.id, Hm. }
  destruct (mat_number_material_name basename i) as [Hplain Hsuffix].
  split; [|split].
  - apply elem_of_list_to_map.
    + rewrite fmap_imap. simpl.
      rewrite (imap_ext _ (λ j _, Z.of_nat j)) by done.
      rewrite imap_seq_0. apply NoDup_fmap; [apply _ | apply NoDup_seq].
    + apply (elem_of_lookup_imap_2 (λ i _, (Z.of_nat i, mkMat (material_name basename i)))
               _ m i Hm).
  - unfold slot_metadata. cbn [mat_name]. rewrite Hplain, pystr_int_str_nat.
    cbn [mbind result_bind]. done.
  - intros suffix Hs. unfold slot_metadata. cbn [mat_name].
    rewrite (Hsuffix suffix Hs), pystr_int_str_nat. cbn [mbind result_bind]. done.
Qed.

End MaterialNames.

(** ** An import that goes through *)

Section ImportSuccess.
Context `{Ext : Externals}.

Ltac bind_ok H :=
  let x := fresh "x" in let Hx := fresh "Hx" in
  apply bind_Ok in H as (x & Hx & H).

Lemma mapM_Ok_Forall2 {A B} (f : A → result B) (l : list A) (ys : list B) :
  mapM f l = Ok ys → Forall2 (λ x y, f x = Ok y) l ys.
Proof.
  revert ys. induction l as [|x l IH]; intros ys; cbn [mapM].
  - intros [= <-]. constructor.
  - intros (y & Hy & (ys' & Hys & [= <-])%bind_Ok)%bind_Ok.
    constructor; [done | by apply IH].
Qed.

(** A loop whose body records one event and then runs a fallible
    computation. *)
Lemma forM_emit_lift {A B} (f : A → io B) (ev : A → event) (r : A → result B)
    (l : list A) :
  (∀ x, f x = (_ ← emit (ev x); lift (r x))) →
  outcome (forM f l) = mapM r l ∧
  (is_ok (mapM r l) = true → trace (forM f l) = ev <$> l).
Proof.
  intros Hf. induction l as [|x l [IHo IHt]]; [by split|].
  assert (∀ e (r0 : result B), emit e ≫= (λ _, lift r0) = IO [e] r0) as Hstep
    by (by intros e [|]).
  cbn [forM mapM]. rewrite Hf, Hstep.
  destruct (r x) as [y|e]; [|done].
  rewrite (io_bind_Ok _ _ y) by done. cbn [trace outcome result_bind mbind].
  destruct (forM f l) as [tr [ys|e]]; cbn [trace outcome] in *; rewrite <- IHo.
  - split; [done|]. intros _. cbn. rewrite app_nil_r, IHt; [done|].
    by rewrite <- IHo.
  - split; [done|]. cbn. discriminate.
Qed.

Lemma import_obj_run (w : world) (stem : string) (name_override : option string)
    (cfg : JsonWmoMetadata) (od : ObjData) (h : heap) (fc : loc)
    (wgs : list WmoGroup) :
  obj_open w ≫= read_obj = Ok od →
  repack_wmo od cfg = Ok (h, fc, wgs) →
  let b := basename_of stem name_override in
  let mat_dict : gmap Z Material :=
    list_to_map (imap (λ i _, (Z.of_nat i, mkMat (material_name b i))) (materials cfg)) in
  import_obj w stem name_override cfg =
    IO (read_events w ++ [EvNewMesh b; EvNewObject b]
        ++ imap (λ i _, EvNewMaterial (material_name b i)) (materials cfg)
        ++ trace (setup_objects h b mat_dict wgs))
       (outcome (setup_objects h b mat_dict wgs)).
Proof.
  intros Hread Hpack b mat_dict.
  destruct (obj_open w) as [content|] eqn:Hopen; [|discriminate].
  cbn [mbind result_bind] in Hread.
  unfold import_obj, read_events. fold (basename_of stem name_override). fold b.
  assert (∀ k : unit → io (list BlenderObject),
            (if select_all_poll w then emit EvDeselectAll else mret tt) ≫= k
            = IO ((if select_all_poll w then [EvDeselectAll] else []) ++ trace (k tt))
                 (outcome (k tt))) as ->.
  { intros k. destruct (select_all_poll w); [by rewrite io_emit|].
    rewrite io_mret_bind. by destruct (k tt). }
  rewrite io_emit, Hopen, io_lift_Ok, Hread, io_lift_Ok, !io_emit, Hpack, io_lift_Ok.
  rewrite (io_bind_Ok _ _ _ (f_equal outcome (new_materials_run b (materials cfg)))).
  rewrite new_materials_run. cbn [trace outcome]. fold mat_dict.
  f_equal. rewrite <- !app_assoc. done.
Qed.

(** What the builder returns for a reconciled group. *)
Lemma wmo_setup_blender_object_name (h : heap) (base_name : string) (wg : WmoGroup)
    (mat_dict : gmap Z Material) (uc : bool) (od : ObjData) (fc : loc) (offset : Z)
    (g : JsonWmoGroup) (o : option BlenderObject) :
  reconciles od fc offset g wg →
  wmo_setup_blender_object h base_name wg mat_dict uc = Ok o →
  bo_name <$> o =
    if 0 <? batch_count g
    then Some (base_name +:+ "_" +:+ or_section (groupName g))%string
    else None.
Proof.
  intros (Hcount & _ & Hrec). unfold wmo_setup_blender_object. rewrite Hcount.
  pose proof (batch_count_nonneg g) as Hpos.
  destruct (Z.ltb_spec (batch_count g) 1) as [Hlt|Hge].
  - intros [= <-]. destruct (Z.ltb_spec 0 (batch_count g)) as [Hp|Hp]; [lia | done].
  - destruct (Z.ltb_spec 0 (batch_count g)) as [Hp|Hp]; [|lia].
    destruct Hrec as (_ & -> & _).
    intros H. repeat (bind_ok H). injection H as <-.
    cbn in Hx0. injection Hx0 as <-. done.
Qed.

Lemma setup_objects_run (h : heap) (b : string) (mat_dict : gmap Z Material)
    (wgs : list WmoGroup) (objs : list BlenderObject) :
  outcome (setup_objects h b mat_dict wgs) = Ok objs →
  trace (setup_objects h b mat_dict wgs)
    = imap (λ i _, EvSetupObject (fmt_03d i +:+ "_" +:+ b)%string) wgs ∧
  ∃ os, objs = omap id os ∧
    Forall2 (λ (ig : Z * WmoGroup) o,
               wmo_setup_blender_object h (fmt_03d (Z.to_nat ig.1) +:+ "_" +:+ b)
                 ig.2 mat_dict true = Ok o)
            (enumerate wgs) os.
Proof.
  unfold setup_objects.
  destruct (forM_emit_lift
              (λ ig : Z * WmoGroup,
                 let base_name := (fmt_03d (Z.to_nat ig.1) +:+ "_" +:+ b)%string in
                 _ ← emit (EvSetupObject base_name);
                 lift (wmo_setup_blender_object h base_name ig.2 mat_dict true))
              (λ ig, EvSetupObject (fmt_03d (Z.to_nat ig.1) +:+ "_" +:+ b)%string)
              (λ ig, wmo_setup_blender_object h
                       (fmt_03d (Z.to_nat ig.1) +:+ "_" +:+ b)%string ig.2 mat_dict true)
              (enumerate wgs)) as [Hout Htr]; [done|].
  unfold mbind at 1 2, io_bind.
  destruct (forM _ (enumerate wgs)) as [tr [os|e]]; cbn [trace outcome] in *;
    [|discriminate].
  intros [= <-]. rewrite <- Hout in Htr. rewrite Htr by done.
  split.
  - unfold mbind, io_bind. cbn [trace outcome mret io_ret].
    rewrite app_nil_r. unfold enumerate. rewrite fmap_imap.
    apply imap_ext. intros i x _. simpl. by rewrite Nat2Z.id.
  - exists os. split; [done|]. apply mapM_Ok_Forall2. by rewrite <- Hout.
Qed.

Lemma omap_Forall2 {A B C} (f : A → option C) (g : B → option C)
    (l1 : list A) (l2 : list B) :
  Forall2 (λ a b, f a = g b) l1 l2 → omap f l1 = omap g l2.
Proof.
  induction 1 as [|a b l1 l2 Hab _ IH]; [done|].
  cbn [omap list_omap]. rewrite Hab, IH. done.
Qed.

(** The import as a whole, when it goes through. *)
Lemma import_wmo_run (w : world) (stem : string) (name_override : option string)
    (cfg : JsonWmoMetadata) (tr : list event) (objs : list BlenderObject) :
  load_metadata w = IO [EvFromDict] (Ok cfg) →
  import_wmo w stem name_override = IO tr (Ok objs) →
  let b := basename_of stem name_override in
  tr = full_trace w b cfg ∧
  bo_name <$> objs = omap (object_name b) (enumerate (groups cfg)).
Proof.
  intros Hload Hrun b. unfold import_wmo in Hrun.
  rewrite (io_bind_Ok _ _ cfg) in Hrun by (by rewrite Hload).
  rewrite Hload in Hrun. cbn [trace] in Hrun.
  destruct (obj_open w ≫= read_obj) as [od|e] eqn:Hread.
  2:{ destruct (import_obj_read w stem name_override cfg) as (k & Hk & _).
      rewrite Hk, Hread, io_lift_Raise in Hrun. discriminate Hrun. }
  destruct (repack_wmo od cfg) as [[[h fc] wgs]|e] eqn:Hpack.
  2:{ destruct (import_obj_read w stem name_override cfg) as (k & Hk & Hrest).
      destruct (Hrest od) as (rest & _ & Hfail).
      destruct (Hfail e Hpack) as [_ Hout].
      rewrite Hk, Hread, io_lift_Ok, Hout in Hrun. discriminate Hrun. }
  rewrite (import_obj_run _ _ _ _ _ _ _ _ Hread Hpack) in Hrun.
  fold b in Hrun. cbn [trace outcome] in Hrun. injection Hrun as Htr Hout.
  destruct (setup_objects_run _ _ _ _ _ Hout) as (Htrace & os & -> & Hos).
  rewrite Htrace in Htr.
  rewrite repack_wmo_unfold in Hpack.
  apply bind_Ok in Hpack as (t & _ & Hpack).
  destruct (repack_groups_spec od 0%nat (groups cfg) [[[]; []; []]] 0 [] [] [] [])
    as (h1 & new & a & c & Hrun1 & _ & Hlen & Hall); [done|].
  rewrite Hrun1 in Hpack. cbn in Hpack. injection Hpack as <- <- <-.
  split.
  - rewrite <- Htr. unfold full_trace. cbn [app].
    by rewrite !imap_seq_0, Hlen.
  - rewrite list_fmap_omap. apply omap_Forall2.
    apply Forall2_same_length_lookup_2.
    { apply Forall2_length in Hos. unfold enumerate in *.
      rewrite !length_imap in *. lia. }
    intros i o ig Ho Hig. unfold enumerate in Hig.
    apply list_lookup_imap_Some in Hig as (g & Hg & ->).
    destruct (lookup_lt_is_Some_2 new i) as [wg Hwg].
    { rewrite Hlen. by eapply lookup_lt_Some. }
    pose proof (Hall i g wg Hg Hwg) as Hrec.
    rewrite Forall2_lookup in Hos. specialize (Hos i). rewrite Ho in Hos.
    unfold enumerate in Hos. rewrite list_lookup_imap, Hwg in Hos.
    inversion Hos as [ig o' Hsetup|]; subst. cbn [fst snd] in Hsetup.
    rewrite Nat2Z.id in Hsetup.
    change (id o) with o.
    rewrite (wmo_setup_blender_object_name _ _ _ _ _ _ _ _ _ _ Hrec Hsetup).
    unfold object_name. cbn [fst snd]. rewrite Nat2Z.id.
    destruct (0 <? batch_count g); [|done]. by rewrite !str_app_assoc.
Qed.

Lemma object_name_count (b : string) (gs : list JsonWmoGroup) :
  ∀ k, length (omap (object_name b) (imap (λ i g, (Z.of_nat (k + i), g)) gs))
       = length (filter (λ g, 0 < batch_count g) gs).
Proof.
  induction gs as [|g gs IH]; intros k; [done|].
  cbn [imap omap list_omap]. rewrite filter_cons.
  rewrite (imap_ext _ (λ i g, (Z.of_nat (S k + i), g)))
    by (intros; simpl; f_equal; lia).
  unfold object_name at 1. cbn [fst snd].
  destruct (Z.ltb_spec 0 (batch_count g)).
  - rewrite decide_True by done. cbn [length]. by rewrite IH.
  - rewrite decide_False by lia. apply IH.
Qed.

(** X13. An import that goes through has made one object for each group
    of the metadata that has render batches, in the order of the groups.
    The object of the group at position [i], counted over all groups,
    is named by the three digits of [i], the base name, and the name of the
    group, or the word [section] when the group has no name. *)
Theorem import_wmo_objects (w : world) (stem : string) (name_override : option string)
    (cfg : JsonWmoMetadata) (tr : list event) (objs : list BlenderObject) :
  load_metadata w = IO [EvFromDict] (Ok cfg) →
  import_wmo w stem name_override = IO tr (Ok objs) →
  bo_name <$> objs
    = omap (object_name (basename_of stem name_override)) (enumerate (groups cfg)) ∧
  length objs = length (filter (λ g, 0 < batch_count g) (groups cfg)).
Proof.
  intros Hload Hrun.
  destruct (import_wmo_run _ _ _ _ _ _ Hload Hrun) as [_ Hnames].
  split; [done|].
  rewrite <- (length_fmap bo_name), Hnames.
  apply (object_name_count _ _ 0%nat).
Qed.

(** X14. An import that goes through has done this, in this order: the
    metadata is decoded, the selection is cleared when the scene allows
    it, the obj is read, the mesh and the object named after the file are
    made, one material is made for each material of the metadata, and the
    builder is called once for each group of the metadata, with or without
    batches. *)
Theorem import_wmo_success_trace (w : world) (stem : string)
    (name_override : option string) (cfg : JsonWmoMetadata) (tr : list event)
    (objs : list BlenderObject) :
  load_metadata w = IO [EvFromDict] (Ok cfg) →
  import_wmo w stem name_override = IO tr (Ok objs) →
  tr = full_trace w (basename_of stem name_override) cfg.
Proof.
  intros Hload Hrun. by destruct (import_wmo_run _ _ _ _ _ _ Hload Hrun) as [? _].
Qed.

End ImportSuccess.

(** ** The mesh that the builder makes *)

Section MeshFacts.
Context `{Ext : Externals}.
Context (obj_data : ObjData) (mat_dict : gmap Z Material)
        (json_batches : list JsonWmoRenderBatch).

Ltac bind_ok H :=
  let x := fresh "x" in let Hx := fresh "Hx" in
  apply bind_Ok in H as (x & Hx & H).

Lemma placed_app (verts more : list (list float)) (vert : nat) (v : Z) :
  placed obj_data verts vert v → placed obj_data (verts ++ more) vert v.
Proof.
  intros (co & Hco & Hi). exists co. split; [|done]. by apply lookup_app_l_Some.
Qed.

Lemma placed_new (verts : list (list float)) (co : list float) (more : list (list float))
    (v : Z) :
  Py.index (od_verts obj_data) (v - 1) = Ok co →
  placed obj_data (verts ++ co :: more) (length verts) v.
Proof.
  intros Hi. exists co. split; [|done]. by rewrite list_lookup_middle.
Qed.

Lemma corners_app (verts more : list (list float)) (f : BMFace) (src : Tri) :
  corners obj_data verts f src → corners obj_data (verts ++ more) f src.
Proof. intros (? & ? & ?). repeat apply conj; by apply placed_app. Qed.

Lemma wears_app (slots more : list Material) (f : BMFace) (i : Z) :
  wears mat_dict json_batches slots f i →
  wears mat_dict json_batches (slots ++ more) f i.
Proof.
  intros (batch & mat_ID & mat & slot & ? & ? & ? & ? & Hslot & ?).
  exists batch, mat_ID, mat, slot. repeat apply conj; try done.
  by apply lookup_app_l_Some.
Qed.

(** The mesh and the slots only grow. *)
Lemma built_grow (st st' : builder) (srcs : list (Z * Tri))
    (more : list (list float)) (slots : list Material) :
  bm_verts (b_bm st') = bm_verts (b_bm st) ++ more →
  b_materials st' = b_materials st ++ slots →
  ∀ f src,
    corners obj_data (bm_verts (b_bm st)) f src.2 ∧
    wears mat_dict json_batches (b_materials st) f src.1 →
    corners obj_data (bm_verts (b_bm st')) f src.2 ∧
    wears mat_dict json_batches (b_materials st') f src.1.
Proof.
  intros -> -> f src [Hc Hw]. split; [by apply corners_app | by apply wears_app].
Qed.

Lemma built_ext (st st' : builder) (srcs : list (Z * Tri)) :
  b_bm st' = b_bm st → b_v_dict st' = b_v_dict st →
  b_materials st' = b_materials st →
  built obj_data mat_dict json_batches st srcs →
  built obj_data mat_dict json_batches st' srcs.
Proof. unfold built. by intros -> -> ->. Qed.

(** A vertex that is looked up is mapped afterwards; a new vertex is put
    at the end of the mesh, where the obj has it. *)
Lemma map_vertex_built (st st' : builder) (v : Z) (vert : nat)
    (srcs : list (Z * Tri)) :
  map_vertex obj_data st v = Ok (vert, st') →
  built obj_data mat_dict json_batches st srcs →
  built obj_data mat_dict json_batches st' srcs ∧
  b_v_dict st' !! v = Some vert ∧
  (∀ v0 h, b_v_dict st !! v0 = Some h → b_v_dict st' !! v0 = Some h).
Proof.
  unfold map_vertex. destruct (b_v_dict st !! v) as [m|] eqn:Hv.
  - intros [= <- <-] Hb. done.
  - intros H (Hdict & Hfaces & Hnodup). bind_ok H. injection H as <- <-.
    unfold built. cbn [b_bm b_v_dict b_materials bm_verts bm_faces].
    split; [split; [|split]|split].
    + intros v0 h. destruct (decide (v0 = v)) as [->|Hne].
      * rewrite lookup_insert_eq. intros [= <-]. by apply placed_new.
      * rewrite lookup_insert_ne by done. intros Hv0. by apply placed_app, Hdict.
    + eapply Forall2_impl; [exact Hfaces|]. intros f src [Hc Hw].
      split; [by apply corners_app | done].
    + done.
    + by rewrite lookup_insert_eq.
    + intros v0 h Hv0. rewrite lookup_insert_ne; [done|]. congruence.
Qed.

Lemma visit_vertex_built (color_list : list (list Z)) (do_colors : bool)
    (st st' : builder) (v : Z) (srcs : list (Z * Tri)) :
  visit_vertex obj_data color_list do_colors st v = Ok st' →
  built obj_data mat_dict json_batches st srcs →
  built obj_data mat_dict json_batches st' srcs ∧
  is_Some (b_v_dict st' !! v) ∧
  (∀ v0, is_Some (b_v_dict st !! v0) → is_Some (b_v_dict st' !! v0)).
Proof.
  unfold visit_vertex. intros H Hb.
  apply bind_Ok in H as ([vert st1] & Hmap & H).
  destruct (map_vertex_built _ _ _ _ _ Hmap Hb) as (Hb1 & Hv & Hmono).
  assert (b_bm st' = b_bm st1 ∧ b_v_dict st' = b_v_dict st1 ∧
          b_materials st' = b_materials st1) as (Hbm & Hd & Hm).
  { destruct do_colors; [bind_ok H|]; by injection H as <-. }
  split; [by eapply built_ext|]. rewrite Hd. split; [by eexists|].
  intros v0 [h Hh]. exists h. by apply Hmono.
Qed.

Lemma faces_new_inv (bm bm' : BMesh) (t : nat * nat * nat) (example : option nat)
    (bface : nat) :
  faces_new bm t example = Ok (bm', bface) →
  bface = length (bm_faces bm) ∧
  bm' = mkBMesh (bm_verts bm)
          (bm_faces bm ++
           [mkFace t match example with
                     | Some e => default 0 (bf_material_index <$> bm_faces bm !! e)
                     | None => 0
                     end]).
Proof.
  unfold faces_new. destruct (repeats_vertex t); [discriminate|].
  destruct (face_exists bm t); [discriminate|]. by intros [= <- <-].
Qed.

Lemma alter_last {A} (f : A → A) (l : list A) (x : A) :
  alter f (length l) (l ++ [x]) = l ++ [f x].
Proof.
  replace (length l) with (length l + 0)%nat by lia. by rewrite alter_app_r.
Qed.

Lemma wears_index (slots : list Material) (f f' : BMFace) (i : Z) :
  bf_material_index f' = bf_material_index f →
  wears mat_dict json_batches slots f i → wears mat_dict json_batches slots f' i.
Proof. unfold wears. by intros ->. Qed.

(** The material of the face that was just made. *)
Lemma assign_material_inv (i : Z) (st st' : builder) (faces : list BMFace)
    (t : nat * nat * nat) (mi0 : Z) :
  bm_faces (b_bm st) = faces ++ [mkFace t mi0] →
  NoDup (mat_name <$> b_materials st) →
  assign_material mat_dict json_batches i st (length faces) = Ok st' →
  ∃ mi slots,
    b_bm st' = mkBMesh (bm_verts (b_bm st)) (faces ++ [mkFace t mi]) ∧
    b_v_dict st' = b_v_dict st ∧
    b_materials st' = b_materials st ++ slots ∧
    NoDup (mat_name <$> b_materials st') ∧
    wears mat_dict json_batches (b_materials st') (mkFace t mi) i.
Proof.
  intros Hfaces Hnodup H. unfold assign_material in H.
  apply bind_Ok in H as (batch & Hbatch & H).
  apply bind_Ok in H as (mat_ID & Hid & H).
  apply bind_Ok in H as (mat & Hmat & H).
  unfold dict_get in Hmat.
  destruct (mat_dict !! mat_ID) as [mat'|] eqn:Hlook; [|discriminate].
  injection Hmat as ->.
  destruct (Z.eqb_spec (materials_find (b_materials st) (mat_name mat)) (-1))
    as [Hnone|Hsome]; injection H as <-;
    unfold set_material_index; cbn [b_bm b_v_dict b_materials bm_verts bm_faces];
    rewrite Hfaces, alter_last; cbn [bf_verts].
  - destruct (materials_find_spec (b_materials st) (mat_name mat))
      as [[_ Hfresh] | [Hpos _]]; [|lia].
    destruct (materials_find_spec (b_materials st ++ [mat]) (mat_name mat))
      as [[_ Hall] | [Hpos (slot & Hslot & Hname)]].
    { exfalso. apply (Hall mat); [|done]. apply elem_of_app. right. by left. }
    eexists _, [mat]. repeat apply conj; try done.
    + rewrite fmap_app. apply NoDup_app. repeat apply conj; [done | | apply NoDup_singleton].
      intros name (m & -> & Hm)%list_elem_of_fmap Hin.
      apply list_elem_of_singleton in Hin. by apply (Hfresh m).
    + by exists batch, mat_ID, mat, slot.
  - destruct (materials_find_spec (b_materials st) (mat_name mat))
      as [[Hm _] | [Hpos (slot & Hslot & Hname)]]; [done|].
    eexists _, []. rewrite !app_nil_r. repeat apply conj; try done.
    by exists batch, mat_ID, mat, slot.
Qed.

(** A face that is made: the mesh gets one face more, on the vertexes
    given; the first face of a batch gets the material of the batch, a
    later one that of the first. *)
Lemma new_face_spec (i : Z) (st st' : builder) (ex ex' : option nat)
    (t : nat * nat * nat) :
  new_face mat_dict json_batches i st ex t = Ok (st', ex') →
  NoDup (mat_name <$> b_materials st) →
  (∀ e, ex = Some e →
     ∃ fe, bm_faces (b_bm st) !! e = Some fe ∧
           wears mat_dict json_batches (b_materials st) fe i) →
  ∃ mi slots,
    b_bm st' = mkBMesh (bm_verts (b_bm st)) (bm_faces (b_bm st) ++ [mkFace t mi]) ∧
    b_v_dict st' = b_v_dict st ∧
    b_materials st' = b_materials st ++ slots ∧
    NoDup (mat_name <$> b_materials st') ∧
    wears mat_dict json_batches (b_materials st') (mkFace t mi) i ∧
    ∃ e fe, ex' = Some e ∧
            (bm_faces (b_bm st) ++ [mkFace t mi]) !! e = Some fe ∧
            wears mat_dict json_batches (b_materials st') fe i.
Proof.
  intros H Hnodup Hex. unfold new_face in H. destruct ex as [e|].
  - apply bind_Ok in H as ([bm bface] & Hnew & [= <- <-]).
    apply faces_new_inv in Hnew as [-> ->].
    destruct (Hex e eq_refl) as (fe & Hfe & Hwears).
    rewrite Hfe. cbn [fmap option_fmap option_map default].
    eexists _, []. cbn [b_bm b_v_dict b_materials]. rewrite !app_nil_r.
    split; [done|]. split; [done|]. split; [done|]. split; [done|].
    split; [by eapply wears_index|].
    exists e, fe. split; [done|]. split; [by apply lookup_app_l_Some | done].
  - apply bind_Ok in H as ([bm bface] & Hnew & H).
    apply bind_Ok in H as (st1 & Hassign & [= <- <-]).
    apply faces_new_inv in Hnew as [-> ->].
    apply assign_material_inv with (faces := bm_faces (b_bm st)) (t := t) (mi0 := 0)
      in Hassign as (mi & slots & Hbm & Hdict & Hmats & Hnd & Hwears); [|done|done].
    exists mi, slots. cbn [b_bm b_v_dict b_materials bm_verts] in *.
    split; [done|]. split; [done|]. split; [done|]. split; [done|].
    split; [done|].
    exists (length (bm_faces (b_bm st))), (mkFace t mi).
    split; [done|]. split; [by rewrite list_lookup_middle | done].
Qed.

Lemma built_snoc (st st' : builder) (srcs : list (Z * Tri))
    (more : list (list float)) (slots : list Material) (t : nat * nat * nat)
    (mi i : Z) (face : Tri) :
  built obj_data mat_dict json_batches st srcs →
  b_bm st' = mkBMesh (bm_verts (b_bm st) ++ more)
                     (bm_faces (b_bm st) ++ [mkFace t mi]) →
  b_v_dict st' = b_v_dict st →
  b_materials st' = b_materials st ++ slots →
  NoDup (mat_name <$> b_materials st') →
  corners obj_data (bm_verts (b_bm st) ++ more) (mkFace t mi) face →
  wears mat_dict json_batches (b_materials st') (mkFace t mi) i →
  built obj_data mat_dict json_batches st' (srcs ++ [(i, face)]).
Proof.
  intros (Hdict & Hfaces & _) Hbm Hd Hm Hnd Hc Hw. unfold built.
  rewrite Hbm, Hd. cbn [bm_verts bm_faces]. repeat apply conj; [| |done].
  - intros v vert Hv. by apply placed_app, Hdict.
  - apply Forall2_app.
    + eapply Forall2_impl; [exact Hfaces|]. intros f src [Hc' Hw'].
      split; [by apply corners_app|]. rewrite Hm. by apply wears_app.
    + constructor; [|constructor]. done.
Qed.

(** One face of a batch, by the first attempt or by the handler of the
    duplicate face. *)
Lemma add_face_built (i : Z) (st st' : builder) (ex ex' : option nat) (face : Tri)
    (srcs : list (Z * Tri)) :
  add_face obj_data mat_dict json_batches i st ex face = Ok (st', ex') →
  built obj_data mat_dict json_batches st srcs →
  (∀ e, ex = Some e →
     ∃ fe, bm_faces (b_bm st) !! e = Some fe ∧
           wears mat_dict json_batches (b_materials st) fe i) →
  built obj_data mat_dict json_batches st' (srcs ++ [(i, face)]) ∧
  ∃ e fe, ex' = Some e ∧ bm_faces (b_bm st') !! e = Some fe ∧
          wears mat_dict json_batches (b_materials st') fe i.
Proof.
  destruct face as [[f0 f1] f2]. intros H Hb Hex.
  pose proof Hb as (Hdict & _ & Hnodup).
  unfold add_face, dict_get in H.
  destruct (b_v_dict st !! f0) as [m0|] eqn:H0; [|discriminate].
  destruct (b_v_dict st !! f1) as [m1|] eqn:H1; [|discriminate].
  destruct (b_v_dict st !! f2) as [m2|] eqn:H2; [|discriminate].
  cbn [of_option mbind result_bind] in H.
  destruct (new_face mat_dict json_batches i st ex (m0, m1, m2))
    as [[st1 ex1]|err] eqn:Hnew.
  - injection H as <- <-.
    destruct (new_face_spec _ _ _ _ _ _ Hnew Hnodup Hex)
      as (mi & slots & Hbm & Hd & Hm & Hnd & Hw & e & fe & He & Hfe & Hwe).
    split.
    + apply (built_snoc st st1 srcs [] slots (m0, m1, m2) mi i (f0, f1, f2) Hb);
        [by rewrite app_nil_r | done | done | done | | done].
      rewrite app_nil_r. repeat apply conj; cbn; by apply Hdict.
    + exists e, fe. by rewrite Hbm.
  - destruct err; try discriminate H.
    unfold duplicate_face, dict_get in H. rewrite H0, H1, H2 in H.
    apply bind_Ok in H as (co0 & Hco0 & H). cbn [verts_new] in H.
    apply bind_Ok in H as (co1 & Hco1 & H). cbn [verts_new bm_verts bm_faces] in H.
    apply bind_Ok in H as (co2 & Hco2 & H). cbn [verts_new bm_verts bm_faces] in H.
    cbn [of_option] in H.
    apply bind_Ok in H as (? & _ & H). apply bind_Ok in H as (c0 & _ & H).
    apply bind_Ok in H as (? & _ & H). apply bind_Ok in H as (c1 & _ & H).
    apply bind_Ok in H as (? & _ & H). apply bind_Ok in H as (c2 & _ & H).
    apply new_face_spec in H
      as (mi & slots & Hbm & Hd & Hm & Hnd & Hw & e & fe & He & Hfe & Hwe);
      [|done|done].
    cbn [b_bm b_v_dict b_materials bm_verts bm_faces] in *.
    split.
    + apply (built_snoc st st' srcs [co0; co1; co2] slots
               (length (bm_verts (b_bm st)), length (bm_verts (b_bm st) ++ [co0]),
                length ((bm_verts (b_bm st) ++ [co0]) ++ [co1]))
               mi i (f0, f1, f2) Hb);
        [rewrite Hbm; f_equal; by rewrite <- !app_assoc
        | done | done | done | | done].
      repeat apply conj; cbn [bf_verts fst snd].
      * by apply placed_new.
      * change (bm_verts (b_bm st) ++ [co0; co1; co2])
          with (bm_verts (b_bm st) ++ [co0] ++ co1 :: [co2]).
        rewrite app_assoc. by apply placed_new.
      * change (bm_verts (b_bm st) ++ [co0; co1; co2])
          with (bm_verts (b_bm st) ++ [co0] ++ [co1] ++ co2 :: []).
        rewrite !app_assoc. by apply placed_new.
    + exists e, fe. by rewrite Hbm.
Qed.

(** The body of the loop over the faces of a batch. *)
Lemma build_face_built (color_list : list (list Z)) (do_colors : bool) (i : Z)
    (st st' : builder) (ex ex' : option nat) (face : Tri) (srcs : list (Z * Tri)) :
  build_face obj_data mat_dict json_batches color_list do_colors i (st, ex) face
    = Ok (st', ex') →
  built obj_data mat_dict json_batches st srcs →
  (∀ e, ex = Some e →
     ∃ fe, bm_faces (b_bm st) !! e = Some fe ∧
           wears mat_dict json_batches (b_materials st) fe i) →
  built obj_data mat_dict json_batches st' (srcs ++ [(i, face)]) ∧
  ∀ e, ex' = Some e →
    ∃ fe, bm_faces (b_bm st') !! e = Some fe ∧
          wears mat_dict json_batches (b_materials st') fe i.
Proof.
  destruct face as [[f0 f1] f2]. unfold build_face. intros H Hb Hex.
  apply bind_Ok in H as (st3 & Hvisit & H). cbn [foldM] in Hvisit.
  apply bind_Ok in Hvisit as (st1 & Hv0 & Hvisit).
  apply bind_Ok in Hvisit as (st2 & Hv1 & Hvisit).
  apply bind_Ok in Hvisit as (st3' & Hv2 & [= ->]).
  assert (∀ sa sb v, visit_vertex obj_data color_list do_colors sa v = Ok sb →
            bm_faces (b_bm sb) = bm_faces (b_bm sa) ∧
            b_materials sb = b_materials sa) as Hkeep.
  { intros sa sb v Hv. unfold visit_vertex in Hv.
    apply bind_Ok in Hv as ([vert s1] & Hmap & Hv).
    assert (bm_faces (b_bm s1) = bm_faces (b_bm sa) ∧
            b_materials s1 = b_materials sa) as [<- <-].
    { unfold map_vertex in Hmap. destruct (b_v_dict sa !! v).
      - by injection Hmap as <- <-.
      - bind_ok Hmap. by injection Hmap as <- <-. }
    destruct do_colors; [bind_ok Hv|]; by injection Hv as <-. }
  destruct (Hkeep _ _ _ Hv0) as [Hf1 Hm1].
  destruct (Hkeep _ _ _ Hv1) as [Hf2 Hm2].
  destruct (Hkeep _ _ _ Hv2) as [Hf3 Hm3].
  destruct (visit_vertex_built _ _ _ _ _ _ Hv0 Hb) as (Hb1 & _ & _).
  destruct (visit_vertex_built _ _ _ _ _ _ Hv1 Hb1) as (Hb2 & _ & _).
  destruct (visit_vertex_built _ _ _ _ _ _ Hv2 Hb2) as (Hb3 & _ & _).
  destruct (add_face_built _ _ _ _ _ _ _ H Hb3) as (Hb' & e & fe & -> & Hfe & Hwe).
  { intros e He. rewrite Hf3, Hf2, Hf1, Hm3, Hm2, Hm1. by apply Hex. }
  split; [done|]. intros e' [= <-]. by exists fe.
Qed.

Lemma build_faces_built (color_list : list (list Z)) (do_colors : bool) (i : Z)
    (faces : list Tri) :
  ∀ (st st' : builder) (ex ex' : option nat) (srcs : list (Z * Tri)),
    foldM (build_face obj_data mat_dict json_batches color_list do_colors i)
      (st, ex) faces = Ok (st', ex') →
    built obj_data mat_dict json_batches st srcs →
    (∀ e, ex = Some e →
       ∃ fe, bm_faces (b_bm st) !! e = Some fe ∧
             wears mat_dict json_batches (b_materials st) fe i) →
    built obj_data mat_dict json_batches st' (srcs ++ (pair i <$> faces)).
Proof.
  induction faces as [|face faces IH]; intros st st' ex ex' srcs.
  - intros [= <- <-] Hb _. by rewrite app_nil_r.
  - rewrite foldM_cons. intros ([st1 ex1] & Hface & Hrest)%bind_Ok Hb Hex.
    destruct (build_face_built _ _ _ _ _ _ _ _ _ Hface Hb Hex) as [Hb1 Hex1].
    specialize (IH _ _ _ _ _ Hrest Hb1 Hex1).
    by rewrite <- app_assoc in IH.
Qed.

(** The loop over the batches. *)
Lemma build_batches_built (color_list : list (list Z)) (do_colors : bool)
    (ibs : list (Z * ObjGroup)) :
  ∀ (st st' : builder) (srcs : list (Z * Tri)),
    foldM (build_batch obj_data mat_dict json_batches color_list do_colors) st ibs
      = Ok st' →
    built obj_data mat_dict json_batches st srcs →
    built obj_data mat_dict json_batches st' (srcs ++ tag_faces ibs).
Proof.
  induction ibs as [|[i batch] ibs IH]; intros st st' srcs.
  - intros [= <-] Hb. unfold tag_faces. cbn. by rewrite app_nil_r.
  - rewrite foldM_cons. intros (st1 & Hbatch & Hrest)%bind_Ok Hb.
    unfold build_batch in Hbatch.
    apply bind_Ok in Hbatch as ([st1' ex1] & Hfaces & [= ->]).
    apply build_faces_built with (srcs := srcs) in Hfaces; [|done|done].
    specialize (IH _ _ _ Hrest Hfaces).
    unfold tag_faces in *. cbn [fmap list_fmap concat fst snd].
    by rewrite app_assoc.
Qed.

Lemma built_init : built obj_data mat_dict json_batches builder_init [].
Proof.
  unfold built, builder_init. cbn. repeat apply conj.
  - intros v vert Hv. by rewrite lookup_empty in Hv.
  - constructor.
  - constructor.
Qed.

End MeshFacts.

Section MeshErrors.
Context `{Ext : Externals}.
Context (obj_data : ObjData) (mat_dict : gmap Z Material)
        (json_batches : list JsonWmoRenderBatch).




End MeshErrors.

Section MeshColours.
Context `{Ext : Externals}.
Context (obj_data : ObjData) (mat_dict : gmap Z Material)
        (json_batches : list JsonWmoRenderBatch) (color_list : list (list Z)).

(** A visit of a vertex that is mapped already stashes its colours again. *)
Lemma coloured_restash (st : builder) (srcs : list Tri) (v : Z) (vert : nat)
    (cs : list fColor4) :
  coloured color_list st srcs →
  b_v_dict st !! v = Some vert →
  vertex_colors color_list v = Ok cs →
  coloured color_list
    (mkBuilder (b_bm st) (b_v_dict st) (<[vert := cs]> (b_colors st)) (b_materials st))
    srcs.
Proof.
  intros (Hdict & Hinj & Hfaces) Hv Hcs. unfold coloured, shaded, tinted.
  cbn [b_bm b_v_dict b_colors]. split; [|split; [done|]].
  - intros v0 h0 Hv0. destruct (Hdict v0 h0 Hv0) as [Hlt (cs0 & Hcs0 & Hcol)].
    split; [done|]. destruct (decide (h0 = vert)) as [->|Hne].
    + rewrite (Hinj _ _ _ Hv0 Hv). exists cs. by rewrite lookup_insert_eq.
    + exists cs0. by rewrite lookup_insert_ne.
  - eapply Forall2_impl; [exact Hfaces|]. intros f src.
    assert (∀ h a, shaded color_list st h a →
              (h < length (bm_verts (b_bm st)))%nat ∧
              (∃ cs0, vertex_colors color_list a = Ok cs0 ∧
                      <[vert := cs]> (b_colors st) !! h = Some cs0) ∧
              (b_v_dict st !! a = Some h ∨ ∀ v0, b_v_dict st !! v0 ≠ Some h)) as Hone.
    { intros h a (Hlt & (cs0 & Hcs0 & Hcol) & Hwhich). split; [done|]. split; [|done].
      destruct (decide (h = vert)) as [->|Hne].
      - destruct Hwhich as [Ha | Hnone]; [|by destruct (Hnone v)].
        rewrite (Hinj _ _ _ Ha Hv). exists cs. by rewrite lookup_insert_eq.
      - exists cs0. by rewrite lookup_insert_ne. }
    intros (H0 & H1 & H2). split; [|split]; by apply Hone.
Qed.

(** A vertex that is made for [v] gets the colours of [v]. *)
Lemma coloured_fresh (st : builder) (srcs : list Tri) (v : Z) (co : list float)
    (cs : list fColor4) :
  coloured color_list st srcs →
  b_v_dict st !! v = None →
  vertex_colors color_list v = Ok cs →
  coloured color_list
    (mkBuilder (mkBMesh (bm_verts (b_bm st) ++ [co]) (bm_faces (b_bm st)))
       (<[v := length (bm_verts (b_bm st))]> (b_v_dict st))
       (<[length (bm_verts (b_bm st)) := cs]> (b_colors st)) (b_materials st))
    srcs.
Proof.
  intros (Hdict & Hinj & Hfaces) Hv Hcs. unfold coloured, shaded, tinted.
  cbn [b_bm b_v_dict b_colors bm_verts bm_faces]. rewrite length_app. cbn [length].
  split; [|split].
  - intros v0 h0. destruct (decide (v0 = v)) as [->|Hne].
    + rewrite lookup_insert_eq. intros [= <-]. split; [lia|].
      exists cs. by rewrite lookup_insert_eq.
    + rewrite lookup_insert_ne by done. intros Hv0.
      destruct (Hdict v0 h0 Hv0) as [Hlt (cs0 & Hcs0 & Hcol)]. split; [lia|].
      exists cs0. by rewrite lookup_insert_ne by lia.
  - intros v0 v1 h0. destruct (decide (v0 = v)) as [->|Hne0],
                              (decide (v1 = v)) as [->|Hne1]; [done|..].
    + rewrite lookup_insert_eq, lookup_insert_ne by done. intros [= <-] Hv1.
      destruct (Hdict _ _ Hv1) as [Hlt _]. lia.
    + rewrite lookup_insert_eq, lookup_insert_ne by done. intros Hv0 [= <-].
      destruct (Hdict _ _ Hv0) as [Hlt _]. lia.
    + rewrite !lookup_insert_ne by done. apply Hinj.
  - eapply Forall2_impl; [exact Hfaces|]. intros f src.
    assert (∀ h a, shaded color_list st h a →
              (h < length (bm_verts (b_bm st)) + 1)%nat ∧
              (∃ cs0, vertex_colors color_list a = Ok cs0 ∧
                      <[length (bm_verts (b_bm st)) := cs]> (b_colors st) !! h
                        = Some cs0) ∧
              (<[v := length (bm_verts (b_bm st))]> (b_v_dict st) !! a = Some h ∨
               ∀ v0, <[v := length (bm_verts (b_bm st))]> (b_v_dict st) !! v0
                     ≠ Some h)) as Hone.
    { intros h a (Hlt & (cs0 & Hcs0 & Hcol) & Hwhich). split; [lia|]. split.
      - exists cs0. by rewrite lookup_insert_ne by lia.
      - destruct Hwhich as [Ha | Hnone].
        + left. rewrite lookup_insert_ne; [done|]. congruence.
        + right. intros v0. destruct (decide (v0 = v)) as [->|Hne].
          * rewrite lookup_insert_eq. intros [= Heq]. lia.
          * rewrite lookup_insert_ne by done. apply Hnone. }
    intros (H0 & H1 & H2). split; [|split]; by apply Hone.
Qed.

Lemma visit_vertex_coloured (st st' : builder) (v : Z) (srcs : list Tri) :
  visit_vertex obj_data color_list true st v = Ok st' →
  coloured color_list st srcs →
  coloured color_list st' srcs ∧
  bm_faces (b_bm st') = bm_faces (b_bm st) ∧
  is_Some (b_v_dict st' !! v) ∧
  (∀ v0, is_Some (b_v_dict st !! v0) → is_Some (b_v_dict st' !! v0)).
Proof.
  unfold visit_vertex, map_vertex. intros H Hc.
  destruct (b_v_dict st !! v) as [vert|] eqn:Hv.
  - cbn [mbind result_bind] in H. apply bind_Ok in H as (cs & Hcs & [= <-]).
    cbn [b_bm b_v_dict]. split; [by apply (coloured_restash st srcs v)|].
    split; [done|].
    rewrite Hv. split; [by eexists | done].
  - apply bind_Ok in H as ([vert st1] & Hmap & H).
    apply bind_Ok in Hmap as (co & Hco & [= <- <-]).
    apply bind_Ok in H as (cs & Hcs & [= <-]).
    cbn [b_bm b_v_dict b_colors b_materials bm_verts bm_faces].
    split; [by apply coloured_fresh|]. split; [done|].
    rewrite lookup_insert_eq. split; [by eexists|].
    intros v0 [h0 Hv0]. exists h0. rewrite lookup_insert_ne; [done|]. congruence.
Qed.

(** The shape of the builder after a face is made. *)
Lemma new_face_shape (i : Z) (st st' : builder) (ex ex' : option nat)
    (t : nat * nat * nat) :
  new_face mat_dict json_batches i st ex t = Ok (st', ex') →
  ∃ mi,
    b_bm st' = mkBMesh (bm_verts (b_bm st)) (bm_faces (b_bm st) ++ [mkFace t mi]) ∧
    b_v_dict st' = b_v_dict st ∧
    b_colors st' = b_colors st.
Proof.
  unfold new_face. intros H. destruct ex as [e|].
  - apply bind_Ok in H as ([bm bface] & Hnew & [= <- <-]).
    apply faces_new_inv in Hnew as [-> ->]. by eexists.
  - apply bind_Ok in H as ([bm bface] & Hnew & H).
    apply bind_Ok in H as (st1 & Hassign & [= <- <-]).
    apply faces_new_inv in Hnew as [-> ->].
    unfold assign_material in Hassign.
    apply bind_Ok in Hassign as (batch & _ & Hassign).
    apply bind_Ok in Hassign as (mat_ID & _ & Hassign).
    apply bind_Ok in Hassign as (mat & _ & Hassign).
    destruct (_ =? -1); injection Hassign as <-;
      unfold set_material_index; cbn [b_bm b_v_dict b_colors bm_verts bm_faces];
      rewrite alter_last; by eexists.
Qed.

Lemma coloured_snoc (st st' : builder) (srcs : list Tri) (t : nat * nat * nat)
    (mi : Z) (face : Tri) :
  coloured color_list st srcs →
  b_bm st' = mkBMesh (bm_verts (b_bm st)) (bm_faces (b_bm st) ++ [mkFace t mi]) →
  b_v_dict st' = b_v_dict st →
  b_colors st' = b_colors st →
  shaded color_list st t.1.1 face.1.1 →
  shaded color_list st t.1.2 face.1.2 →
  shaded color_list st t.2 face.2 →
  coloured color_list st' (srcs ++ [face]).
Proof.
  intros (Hdict & Hinj & Hfaces) Hbm Hd Hcol H0 H1 H2.
  unfold coloured, shaded in *. rewrite Hbm, Hd, Hcol. cbn [bm_verts bm_faces].
  split; [done|]. split; [done|].
  apply Forall2_app; [done|]. constructor; [|constructor]. done.
Qed.

(** Three new vertexes with the colours of three mapped ones. *)
Lemma coloured_copies (st : builder) (srcs : list Tri) (f0 f1 f2 : Z)
    (m0 m1 m2 : nat) (c0 c1 c2 : list fColor4) (co0 co1 co2 : list float) :
  let n := length (bm_verts (b_bm st)) in
  let st2 :=
    mkBuilder (mkBMesh (((bm_verts (b_bm st) ++ [co0]) ++ [co1]) ++ [co2])
                 (bm_faces (b_bm st)))
      (b_v_dict st)
      (<[length ((bm_verts (b_bm st) ++ [co0]) ++ [co1]) := c2]>
         (<[length (bm_verts (b_bm st) ++ [co0]) := c1]>
            (<[n := c0]> (b_colors st))))
      (b_materials st) in
  coloured color_list st srcs →
  b_v_dict st !! f0 = Some m0 → b_v_dict st !! f1 = Some m1 →
  b_v_dict st !! f2 = Some m2 →
  b_colors st !! m0 = Some c0 →
  <[n := c0]> (b_colors st) !! m1 = Some c1 →
  <[length (bm_verts (b_bm st) ++ [co0]) := c1]> (<[n := c0]> (b_colors st)) !! m2
    = Some c2 →
  coloured color_list st2 srcs ∧
  shaded color_list st2 n f0 ∧
  shaded color_list st2 (length (bm_verts (b_bm st) ++ [co0])) f1 ∧
  shaded color_list st2 (length ((bm_verts (b_bm st) ++ [co0]) ++ [co1])) f2.
Proof.
  intros n st2 (Hdict & Hinj & Hfaces) Hm0 Hm1 Hm2 Hc0 Hc1 Hc2.
  destruct (Hdict _ _ Hm0) as [Hlt0 (cs0 & Hcs0 & Hcol0)].
  destruct (Hdict _ _ Hm1) as [Hlt1 (cs1 & Hcs1 & Hcol1)].
  destruct (Hdict _ _ Hm2) as [Hlt2 (cs2 & Hcs2 & Hcol2)].
  fold n in Hlt0, Hlt1, Hlt2.
  rewrite !length_app in *. cbn [length] in *. fold n in Hc1, Hc2 |- *.
  rewrite lookup_insert_ne in Hc1 by lia.
  rewrite !lookup_insert_ne in Hc2 by lia.
  assert (c0 = cs0) as -> by congruence.
  assert (c1 = cs1) as -> by congruence.
  assert (c2 = cs2) as -> by congruence.
  assert (∀ h, (h < n)%nat →
            <[(n + 1 + 1)%nat := cs2]> (<[(n + 1)%nat := cs1]> (<[n := cs0]> (b_colors st)))
              !! h = b_colors st !! h) as Hold.
  { intros h Hh. by rewrite !lookup_insert_ne by lia. }
  assert (∀ h v0, b_v_dict st !! v0 = Some h → (h < n)%nat) as Hrange.
  { intros h v0 Hv0. by destruct (Hdict _ _ Hv0). }
  subst st2. unfold coloured, shaded, tinted.
  cbn [b_bm b_v_dict b_colors bm_verts bm_faces].
  rewrite !length_app. cbn [length]. fold n.
  repeat apply conj.
  - intros v0 h0 Hv0. destruct (Hdict _ _ Hv0) as [Hlt Htint]. fold n in Hlt.
    split; [lia|]. by rewrite Hold.
  - done.
  - eapply Forall2_impl; [exact Hfaces|]. intros f src.
    assert (∀ h a, shaded color_list st h a →
              (h < n + 1 + 1 + 1)%nat ∧
              (∃ cs, vertex_colors color_list a = Ok cs ∧
                 <[(n + 1 + 1)%nat := cs2]>
                   (<[(n + 1)%nat := cs1]> (<[n := cs0]> (b_colors st))) !! h = Some cs) ∧
              (b_v_dict st !! a = Some h ∨ ∀ v0, b_v_dict st !! v0 ≠ Some h)) as Hone.
    { intros h a (Hlt & Htint & Hwhich). fold n in Hlt.
      split; [lia|]. split; [|done]. by rewrite Hold. }
    intros (H0 & H1 & H2). split; [|split]; by apply Hone.
  - lia.
  - exists cs0. split; [done|]. rewrite !lookup_insert_ne by lia.
    by rewrite lookup_insert_eq.
  - right. intros v0 Hv0. apply Hrange in Hv0. lia.
  - lia.
  - exists cs1. split; [done|]. rewrite lookup_insert_ne by lia.
    by rewrite lookup_insert_eq.
  - right. intros v0 Hv0. apply Hrange in Hv0. lia.
  - lia.
  - exists cs2. split; [done|]. by rewrite lookup_insert_eq.
  - right. intros v0 Hv0. apply Hrange in Hv0. lia.
Qed.

Lemma add_face_coloured (i : Z) (st st' : builder) (ex ex' : option nat) (face : Tri)
    (srcs : list Tri) :
  add_face obj_data mat_dict json_batches i st ex face = Ok (st', ex') →
  coloured color_list st srcs →
  coloured color_list st' (srcs ++ [face]).
Proof.
  destruct face as [[f0 f1] f2]. intros H Hc.
  pose proof Hc as (Hdict & _ & _).
  unfold add_face, dict_get in H.
  destruct (b_v_dict st !! f0) as [m0|] eqn:H0; [|discriminate].
  destruct (b_v_dict st !! f1) as [m1|] eqn:H1; [|discriminate].
  destruct (b_v_dict st !! f2) as [m2|] eqn:H2; [|discriminate].
  cbn [of_option mbind result_bind] in H.
  destruct (new_face mat_dict json_batches i st ex (m0, m1, m2))
    as [[st1 ex1]|err] eqn:Hnew.
  - injection H as <- <-.
    destruct (new_face_shape _ _ _ _ _ _ Hnew) as (mi & Hbm & Hd & Hcol).
    destruct (Hdict _ _ H0) as [Hlt0 Ht0].
    destruct (Hdict _ _ H1) as [Hlt1 Ht1].
    destruct (Hdict _ _ H2) as [Hlt2 Ht2].
    apply (coloured_snoc st st1 srcs (m0, m1, m2) mi (f0, f1, f2) Hc Hbm Hd Hcol);
      cbn [fst snd]; unfold shaded; (split; [done|]; split; [done | by left]).
  - destruct err; try discriminate H.
    unfold duplicate_face, dict_get in H. rewrite H0, H1, H2 in H.
    apply bind_Ok in H as (co0 & _ & H). cbn [verts_new] in H.
    apply bind_Ok in H as (co1 & _ & H). cbn [verts_new bm_verts bm_faces] in H.
    apply bind_Ok in H as (co2 & _ & H). cbn [verts_new bm_verts bm_faces] in H.
    cbn [of_option] in H.
    apply bind_Ok in H as (? & [= <-] & H). apply bind_Ok in H as (c0 & Hc0 & H).
    apply bind_Ok in H as (? & [= <-] & H). apply bind_Ok in H as (c1 & Hc1 & H).
    apply bind_Ok in H as (? & [= <-] & H). apply bind_Ok in H as (c2 & Hc2 & H).
    destruct (b_colors st !! m0) as [c0'|] eqn:Hl0; [|discriminate].
    injection Hc0 as ->.
    destruct (<[length (bm_verts (b_bm st)) := c0]> (b_colors st) !! m1)
      as [c1'|] eqn:Hl1; [|discriminate].
    injection Hc1 as ->.
    destruct (<[length (bm_verts (b_bm st) ++ [co0]) := c1]>
                (<[length (bm_verts (b_bm st)) := c0]> (b_colors st)) !! m2)
      as [c2'|] eqn:Hl2; [|discriminate].
    injection Hc2 as ->.
    destruct (coloured_copies st srcs f0 f1 f2 m0 m1 m2 c0 c1 c2 co0 co1 co2
                Hc H0 H1 H2 Hl0 Hl1 Hl2) as (Hc2 & Hs0 & Hs1 & Hs2).
    destruct (new_face_shape _ _ _ _ _ _ H) as (mi & Hbm & Hd & Hcol).
    by eapply (coloured_snoc _ st' srcs _ mi (f0, f1, f2) Hc2 Hbm Hd Hcol).
Qed.

Lemma build_face_coloured (i : Z) (st st' : builder) (ex ex' : option nat)
    (face : Tri) (srcs : list Tri) :
  build_face obj_data mat_dict json_batches color_list true i (st, ex) face
    = Ok (st', ex') →
  coloured color_list st srcs →
  coloured color_list st' (srcs ++ [face]).
Proof.
  destruct face as [[f0 f1] f2]. unfold build_face. intros H Hc.
  apply bind_Ok in H as (st3 & Hvisit & H). cbn [foldM] in Hvisit.
  apply bind_Ok in Hvisit as (st1 & Hv0 & Hvisit).
  apply bind_Ok in Hvisit as (st2 & Hv1 & Hvisit).
  apply bind_Ok in Hvisit as (st3' & Hv2 & [= ->]).
  destruct (visit_vertex_coloured _ _ _ _ Hv0 Hc) as (Hc1 & _).
  destruct (visit_vertex_coloured _ _ _ _ Hv1 Hc1) as (Hc2 & _).
  destruct (visit_vertex_coloured _ _ _ _ Hv2 Hc2) as (Hc3 & _).
  by eapply add_face_coloured.
Qed.

Lemma build_faces_coloured (i : Z) (faces : list Tri) :
  ∀ (st st' : builder) (ex ex' : option nat) (srcs : list Tri),
    foldM (build_face obj_data mat_dict json_batches color_list true i)
      (st, ex) faces = Ok (st', ex') →
    coloured color_list st srcs →
    coloured color_list st' (srcs ++ faces).
Proof.
  induction faces as [|face faces IH]; intros st st' ex ex' srcs.
  - intros [= <- <-] Hc. by rewrite app_nil_r.
  - rewrite foldM_cons. intros ([st1 ex1] & Hface & Hrest)%bind_Ok Hc.
    apply build_face_coloured with (srcs := srcs) in Hface; [|done].
    specialize (IH _ _ _ _ _ Hrest Hface). by rewrite <- app_assoc in IH.
Qed.

Lemma build_batches_coloured (ibs : list (Z * ObjGroup)) :
  ∀ (st st' : builder) (srcs : list Tri),
    foldM (build_batch obj_data mat_dict json_batches color_list true) st ibs
      = Ok st' →
    coloured color_list st srcs →
    coloured color_list st' (srcs ++ concat (og_faces <$> (snd <$> ibs))).
Proof.
  induction ibs as [|[i batch] ibs IH]; intros st st' srcs.
  - intros [= <-] Hc. cbn. by rewrite app_nil_r.
  - rewrite foldM_cons. intros (st1 & Hbatch & Hrest)%bind_Ok Hc.
    unfold build_batch in Hbatch.
    apply bind_Ok in Hbatch as ([st1' ex1] & Hfaces & [= ->]).
    apply build_faces_coloured with (srcs := srcs) in Hfaces; [|done].
    specialize (IH _ _ _ Hrest Hfaces).
    cbn [fmap list_fmap concat snd]. by rewrite app_assoc.
Qed.

Lemma coloured_init : coloured color_list builder_init [].
Proof.
  unfold coloured, builder_init. cbn. repeat apply conj.
  - intros v vert Hv. by rewrite lookup_empty in Hv.
  - intros v v' vert Hv. by rewrite lookup_empty in Hv.
  - constructor.
Qed.

(** Reading back the colours of a vertex, layer by layer. *)
Lemma mapM_index_seq {A} (cs pre : list A) :
  mapM (λ i : nat, Py.index (pre ++ cs) (Z.of_nat i)) (seq (length pre) (length cs))
  = Ok cs.
Proof.
  revert pre. induction cs as [|c cs IH]; intros pre; [done|].
  cbn [length seq mapM].
  rewrite index_in_range by (unfold Py.len; rewrite length_app; simpl; lia).
  rewrite Nat2Z.id, list_lookup_middle by done. cbn [of_option mbind result_bind].
  specialize (IH (pre ++ [c])). rewrite <- app_assoc, length_app in IH.
  cbn [app length] in IH. rewrite Nat.add_1_r in IH. by rewrite IH.
Qed.

Lemma face_vcols_shaded (st : builder) (f : BMFace) (src : Tri)
    (row : list (list fColor4)) :
  shaded color_list st (bf_verts f).1.1 src.1.1 →
  shaded color_list st (bf_verts f).1.2 src.1.2 →
  shaded color_list st (bf_verts f).2 src.2 →
  face_vcols (b_colors st) (length color_list) f = Ok row →
  mapM (vertex_colors color_list) [src.1.1; src.1.2; src.2] = Ok row.
Proof.
  assert (∀ h a, shaded color_list st h a →
            ∃ cs, vertex_colors color_list a = Ok cs ∧
                  mapM (λ i : nat, c ← dict_get (b_colors st) h; Py.index c (Z.of_nat i))
                       (seq 0 (length color_list)) = Ok cs) as Hone.
  { intros h a (_ & (cs & Hcs & Hcol) & _). exists cs. split; [done|].
    unfold dict_get. rewrite Hcol. cbn [of_option mbind result_bind].
    apply mapM_Ok_length in Hcs as <-. apply (mapM_index_seq cs []). }
  intros (cs0 & Hcs0 & Hrow0)%Hone (cs1 & Hcs1 & Hrow1)%Hone
         (cs2 & Hcs2 & Hrow2)%Hone.
  unfold face_vcols. destruct (bf_verts f) as [[x y] z].
  cbn [tri_list mapM fst snd] in *.
  rewrite Hrow0, Hrow1, Hrow2, Hcs0, Hcs1, Hcs2. done.
Qed.

End MeshColours.

Section MeshOfGroup.
Context `{Ext : Externals}.

Lemma enumerate_snd {A} (l : list A) : snd <$> enumerate l = l.
Proof.
  unfold enumerate. rewrite fmap_imap.
  rewrite (imap_ext _ (const id)) by done. by rewrite imap_const, list_fmap_id.
Qed.

Lemma tag_faces_snd (ibs : list (Z * ObjGroup)) :
  snd <$> tag_faces ibs = concat (og_faces <$> (snd <$> ibs)).
Proof.
  unfold tag_faces. induction ibs as [|[i batch] ibs IH]; [done|].
  cbn [fmap list_fmap concat fst snd]. rewrite fmap_app. f_equal; [|exact IH].
  rewrite <- list_fmap_compose. apply list_fmap_id.
Qed.

(** The mesh of the object of a group is the mesh that the loops of the
    builder leave. *)
Lemma wmo_setup_blender_object_built (h : heap) (base_name : string)
    (group : WmoGroup) (mat_dict : gmap Z Material) (use_collections : bool)
    (obj : BlenderObject) :
  wmo_setup_blender_object h base_name group mat_dict use_collections
    = Ok (Some obj) →
  ∃ od batches jb st,
    wg_obj_data group = Some od ∧
    wg_mesh_batches group = Some batches ∧
    wg_json_batches group = Some jb ∧
    built od mat_dict jb st (tag_faces (enumerate batches)) ∧
    bo_verts obj = bm_verts (b_bm st) ∧
    bo_faces obj = bm_faces (b_bm st) ∧
    bo_materials obj = b_materials st ∧
    mapM (face_uv (od_uv od)) (concat (og_faces <$> batches)) = Ok (bo_uv obj).
Proof.
  unfold wmo_setup_blender_object.
  destruct (wg_batch_count group <? 1); [discriminate|]. intros H.
  apply bind_Ok in H as (od & Hod & H).
  apply bind_Ok in H as (jg & Hjg & H).
  apply bind_Ok in H as (batches & Hbatches & H).
  apply bind_Ok in H as (jb & Hjb & H).
  apply bind_Ok in H as (colours & Hcolours & H).
  apply bind_Ok in H as (st & Hst & H).
  apply bind_Ok in H as (uv & Huv & H).
  apply bind_Ok in H as (uv2 & Huv2 & H).
  apply bind_Ok in H as (uv3 & Huv3 & H).
  apply bind_Ok in H as (vcols & Hvcols & H).
  injection H as <-. cbn [bo_verts bo_faces bo_materials bo_uv].
  unfold attr in Hod, Hbatches, Hjb.
  destruct (wg_obj_data group) as [od'|]; [|discriminate]. injection Hod as ->.
  destruct (wg_mesh_batches group) as [bs|]; [|discriminate]. injection Hbatches as ->.
  destruct (wg_json_batches group) as [jb'|]; [|discriminate]. injection Hjb as ->.
  exists od, batches, jb, st. repeat (split; [done|]). split; [|done].
  apply (build_batches_built od mat_dict jb _ _ _ _ _ [] Hst), built_init.
Qed.

(** X15. The mesh of the object of a group has one face for each face
    of the face groups that the group claimed, in their order, and the
    corners of each face sit where the obj has the three vertexes of that
    face, in the same order, also for a face that the handler of the
    duplicate face made on new vertexes. The UV coordinates, which are
    given to the faces of the mesh by position, are those of the same
    faces. *)
Theorem mesh_follows_source (h : heap) (base_name : string) (group : WmoGroup)
    (mat_dict : gmap Z Material) (use_collections : bool) (obj : BlenderObject) :
  wmo_setup_blender_object h base_name group mat_dict use_collections
    = Ok (Some obj) →
  ∃ od batches,
    wg_obj_data group = Some od ∧
    wg_mesh_batches group = Some batches ∧
    Forall2 (corners od (bo_verts obj)) (bo_faces obj)
            (concat (og_faces <$> batches)) ∧
    mapM (face_uv (od_uv od)) (concat (og_faces <$> batches)) = Ok (bo_uv obj) ∧
    length (bo_uv obj) = length (bo_faces obj).
Proof.
  intros (od & batches & jb & st & Hod & Hbatches & _ & (_ & Hfaces & _) & Hv & Hf
          & _ & Huv)%wmo_setup_blender_object_built.
  exists od, batches. split; [done|]. split; [done|].
  assert (Forall2 (corners od (bo_verts obj)) (bo_faces obj)
            (concat (og_faces <$> batches))) as Hgeo.
  { rewrite Hv, Hf. rewrite <- (enumerate_snd batches).
    rewrite <- tag_faces_snd. apply Forall2_fmap_r.
    eapply Forall2_impl; [exact Hfaces|]. by intros f src [? _]. }
  split; [done|]. split; [done|].
  apply mapM_Ok_length in Huv. apply Forall2_length in Hgeo. congruence.
Qed.

(** X16. Every face of the mesh of a group carries the material of the
    render batch its source face belongs to: its material index is the
    slot of the material whose id the metadata of the batch gives, for the
    first face of the batch and for all the others. And no two material
    slots of the object hold materials of the same name. *)
Theorem mesh_wears_batch_materials (h : heap) (base_name : string) (group : WmoGroup)
    (mat_dict : gmap Z Material) (use_collections : bool) (obj : BlenderObject) :
  wmo_setup_blender_object h base_name group mat_dict use_collections
    = Ok (Some obj) →
  ∃ batches jb,
    wg_mesh_batches group = Some batches ∧
    wg_json_batches group = Some jb ∧
    Forall2 (λ f src, wears mat_dict jb (bo_materials obj) f src.1)
            (bo_faces obj) (tag_faces (enumerate batches)) ∧
    NoDup (mat_name <$> bo_materials obj).
Proof.
  intros (od & batches & jb & st & _ & Hbatches & Hjb & (_ & Hfaces & Hnd) & _ & Hf
          & Hm & _)%wmo_setup_blender_object_built.
  exists batches, jb. split; [done|]. split; [done|]. rewrite Hf, Hm.
  split; [|done]. eapply Forall2_impl; [exact Hfaces|]. by intros f src [_ ?].
Qed.

(** X18. A group that claimed a face cannot be built from an obj without
    [vt] records: the first UV set is read for every corner of every
    face, so that the builder ends with an exception and returns no
    object. *)
Theorem builder_needs_uv (h : heap) (base_name : string) (group : WmoGroup)
    (mat_dict : gmap Z Material) (use_collections : bool) (od : ObjData)
    (batches : list ObjGroup) :
  1 ≤ wg_batch_count group →
  wg_obj_data group = Some od →
  wg_mesh_batches group = Some batches →
  od_uv od = [] →
  concat (og_faces <$> batches) ≠ [] →
  ∃ e,
    wmo_setup_blender_object h base_name group mat_dict use_collections = Raise e.
Proof.
  intros Hcount Hod Hbatches Huv Hfaces.
  destruct (wmo_setup_blender_object h base_name group mat_dict use_collections)
    as [[obj|]|e] eqn:Hrun.
  - exfalso.
    apply wmo_setup_blender_object_built in Hrun
      as (od' & batches' & _ & _ & Hod' & Hbatches' & _ & _ & _ & _ & _ & Hmap).
    rewrite Hod in Hod'. injection Hod' as <-.
    rewrite Hbatches in Hbatches'. injection Hbatches' as <-.
    rewrite Huv in Hmap.
    destruct (concat (og_faces <$> batches)) as [|[[f0 f1] f2] faces]; [done|].
    cbn [mapM] in Hmap. apply bind_Ok in Hmap as (row & Hrow & _).
    unfold face_uv in Hrow. cbn [mapM] in Hrow.
    apply bind_Ok in Hrow as (x & Hx%index_Ok_elem & _). by apply elem_of_nil in Hx.
  - exfalso. unfold wmo_setup_blender_object in Hrun.
    destruct (Z.ltb_spec (wg_batch_count group) 1) as [?|_]; [lia|].
    rewrite Hod, Hbatches in Hrun. cbn [attr of_option mbind result_bind] in Hrun.
    repeat match type of Hrun with
           | _ ≫= _ = Ok _ => apply bind_Ok in Hrun as (? & _ & Hrun)
           end.
    discriminate Hrun.
  - by exists e.
Qed.

(** X19. The vertex colours of the object of a group: there are colour
    layers exactly when some layer of the colour table of the group has a
    value, and then each corner of each face of the mesh carries, for
    every such layer, the colour that the layer has at the vertex index of
    the same corner of the source face, also on the vertexes that the
    handler of the duplicate face made. *)
Theorem mesh_colours_follow_source (h : heap) (base_name : string) (group : WmoGroup)
    (mat_dict : gmap Z Material) (use_collections : bool) (obj : BlenderObject) :
  wmo_setup_blender_object h base_name group mat_dict use_collections
    = Ok (Some obj) →
  ∃ batches table,
    wg_mesh_batches group = Some batches ∧
    colors_of h group = Ok table ∧
    let color_list := filter (λ clist, 0 < Py.len clist) table in
    match bo_vcols obj with
    | None => color_list = []
    | Some rows =>
        color_list ≠ [] ∧
        Forall2 (λ row (src : Tri),
                   mapM (vertex_colors color_list) [src.1.1; src.1.2; src.2] = Ok row)
                rows (concat (og_faces <$> batches))
    end.
Proof.
  unfold wmo_setup_blender_object.
  destruct (wg_batch_count group <? 1); [discriminate|]. intros H.
  apply bind_Ok in H as (od & Hod & H).
  apply bind_Ok in H as (jg & Hjg & H).
  apply bind_Ok in H as (batches & Hbatches & H).
  apply bind_Ok in H as (jb & Hjb & H).
  apply bind_Ok in H as (table & Htable & H).
  apply bind_Ok in H as (st & Hst & H).
  apply bind_Ok in H as (uv & Huv & H).
  apply bind_Ok in H as (uv2 & Huv2 & H).
  apply bind_Ok in H as (uv3 & Huv3 & H).
  apply bind_Ok in H as (vcols & Hvcols & H).
  injection H as <-. cbn [bo_vcols].
  unfold attr in Hbatches.
  destruct (wg_mesh_batches group) as [bs|]; [|discriminate]. injection Hbatches as ->.
  exists batches, table. split; [done|]. split; [done|]. cbn zeta.
  set (color_list := filter (λ clist, 0 < Py.len clist) table) in *.
  destruct (Z.ltb_spec 0 (Py.len color_list)) as [Hpos|Hzero].
  - destruct (mapM (face_vcols (b_colors st) (length color_list)) (bm_faces (b_bm st)))
      as [rows|] eqn:Hrows; [|discriminate].
    injection Hvcols as <-. split.
    { intros Hnil. rewrite Hnil in Hpos. unfold Py.len in Hpos. simpl in Hpos. lia. }
    apply (build_batches_coloured od mat_dict jb color_list _ _ _ []) in Hst;
      [|apply coloured_init].
    rewrite enumerate_snd in Hst. destruct Hst as (_ & _ & Hfaces).
    apply mapM_Ok_Forall2 in Hrows.
    apply Forall2_same_length_lookup_2.
    { apply Forall2_length in Hrows, Hfaces. cbn [app] in Hfaces.
      etrans; [symmetry; exact Hrows | exact Hfaces]. }
    intros k row src Hrow Hsrc.
    destruct (Forall2_lookup_r _ _ _ _ _ Hrows Hrow) as (f & Hf & Hvc).
    destruct (Forall2_lookup_l _ _ _ _ _ Hfaces Hf) as (src' & Hsrc' & H0 & H1 & H2).
    cbn [app] in Hsrc'.
    assert (Some src' = Some src) as [= ->]
      by (etrans; [symmetry; exact Hsrc' | exact Hsrc]).
    by eapply face_vcols_shaded.
  - injection Hvcols as <-. unfold Py.len in Hzero.
    destruct color_list; [done | simpl in Hzero; lia].
Qed.

End MeshOfGroup.

(** ** Failures of the import after the obj is read *)

Section ImportLateFailures.
Context `{Ext : Externals}.



End ImportLateFailures.

(** ** The statements on concrete inputs *)

(** C1, refuted as stated. The reader accepts a face record that names
    vertex 0, which is no position of the vertex list; the builder then
    reads [verts[-1]], the last vertex, for it and raises nothing: the
    first vertex of the mesh lies at the position of the third vertex of
    the obj. *)
Lemma face_index_zero_read_silently :
  od_verts (Ext := plain) <$> read_obj zero_index_obj
  = Ok [["0"; "0"; "0"]; ["1"; "0"; "0"]; ["0"; "1"; "0"]] ∧
  (λ od, og_faces <$> od_groups (Ext := plain) od) <$> read_obj zero_index_obj
  = Ok [[(0, 1, 2)]] ∧
  faces_in_range (Ext := plain) <$> read_obj zero_index_obj = Ok false ∧
  (λ r : nat * builder, (r.1, bm_verts (Ext := plain) (b_bm r.2))) <$>
    (read_obj zero_index_obj ≫= λ od, map_vertex od builder_init 0)
  = Ok (0%nat, [["0"; "1"; "0"]]) ∧
  fmap (M := list) (bo_verts (Ext := sample_externals (Decoded (one_batch_meta 2 []))))
    <$> outcome (import_wmo (sample_world zero_index_obj) "zero" None)
  = Ok [[["0"; "1"; "0"]; ["0"; "0"; "0"]; ["1"; "0"; "0"]]].
Proof. repeat apply conj; vm_compute; reflexivity. Qed.

Lemma face_indices_unchecked_witness :
  map_vertex (Ext := plain) (data_of zero_index_obj) builder_init 7 = Raise IndexError.
Proof.
  refine (proj2 (proj2 (face_indices_unchecked (Ext := plain)
            (data_of zero_index_obj) 0 0 1 2 7 []
            ["f"; "0/0/0"; "1/1/1"; "2/2/2"] builder_init _ _ _ _)) _).
  - vm_compute. reflexivity.
  - lia.
  - vm_compute. reflexivity.
  - vm_compute. reflexivity.
  - vm_compute. reflexivity.
Defined.

(** C2, refuted as stated. With two groups of one colour each, the table
    of the first group is [[5]; [0]; []] once the first group is
    reconciled and [[5; 6]; [0; 0]; []] once the second is: reconciling the
    later group changed it, and in the end both groups read this same
    table, not a slice of their own. *)
Lemma later_group_extends_earlier_table :
  (read_obj (Ext := plain) two_groups_obj ≫= λ od,
   repack_groups od 0%nat ([[[]; []; []]], 0, []) [colour_group 5] ≫= λ st,
   mapM (colors_of st.1.1) st.2)
  = Ok [[[5]; [0]; []]] ∧
  (read_obj (Ext := plain) two_groups_obj ≫= λ od,
   repack_groups od 0%nat ([[[]; []; []]], 0, []) [colour_group 5; colour_group 6]
     ≫= λ st,
   mapM (colors_of st.1.1) st.2)
  = Ok [[[5; 6]; [0; 0]; []]; [[5; 6]; [0; 0]; []]] ∧
  (read_obj (Ext := plain) two_groups_obj ≫= λ od,
   repack_wmo od two_groups_meta ≫= λ r,
   mapM (colors_of r.1.1) r.2)
  = Ok [[[5; 6]; [0; 0]; []]; [[5; 6]; [0; 0]; []]].
Proof. repeat apply conj; vm_compute; reflexivity. Qed.

Lemma repack_wmo_shared_colors_witness :
  ∃ h fc wgs t0 t1,
    repack_wmo (Ext := plain) (data_of two_groups_obj) two_groups_meta
      = Ok (h, fc, wgs) ∧
    h !! fc = Some [t0; t1; []] ∧
    ∀ wg, wg ∈ wgs → 0 < wg_batch_count wg → colors_of h wg = Ok [t0; t1; []].
Proof.
  destruct (repack_wmo (Ext := plain) (data_of two_groups_obj) two_groups_meta)
    as [[[h fc] wgs]|e] eqn:Hrun.
  - destruct (repack_wmo_shared_colors (Ext := plain) _ _ _ _ _ Hrun)
      as (t0 & t1 & Hh & Hall & _).
    exists h, fc, wgs, t0, t1. split; [reflexivity|]. split; [exact Hh|].
    intros wg Hwg Hbc. exact (proj2 (Hall wg Hwg Hbc)).
  - exfalso.
    assert (is_ok (repack_wmo (Ext := plain) (data_of two_groups_obj) two_groups_meta)
            = true) as Hok by (vm_compute; reflexivity).
    rewrite Hrun in Hok. discriminate Hok.
Defined.

(** C3, where the code goes wrong. The triangle of [twice_obj] is given
    twice in one batch. When the colour table has values, the second face
    is made on three new vertices: the mesh has 6 vertices and 2 faces.
    When the colour table is empty, no colour was stashed, the handler of
    the duplicate face reads [colors[v_dict[face[0]]]] all the same, and
    the KeyError reaches the caller of the import. The table is empty when
    the metadata gives no colour layer and a final [lastVertex] of -1, and
    also when it gives three colour layers, for which the loop of the
    reconciliation has no branch. *)
Theorem duplicate_face_without_colours :
  fmap (M := list)
       (mesh_size (Ext := sample_externals (Decoded (one_batch_meta 2 []))))
    <$> outcome (import_wmo (sample_world twice_obj) "twice" None)
  = Ok [(6%nat, 2%nat)] ∧
  is_ok (outcome (import_wmo (Ext := sample_externals (Decoded (one_batch_meta 2 [])))
                    (sample_world twice_obj) "twice" None)) = true ∧
  outcome (import_wmo (Ext := sample_externals (Decoded (one_batch_meta (-1) [])))
             (sample_world twice_obj) "twice" None)
  = Raise KeyError ∧
  outcome (import_wmo
             (Ext := sample_externals
                       (Decoded (one_batch_meta 2 [[1; 1; 1]; [2; 2; 2]; [3; 3; 3]])))
             (sample_world twice_obj) "twice" None)
  = Raise KeyError.
Proof. repeat apply conj; vm_compute; reflexivity. Qed.

Lemma repack_wmo_partition_witness :
  ∃ h fc wgs,
    repack_wmo (Ext := plain) (data_of quad_obj) quad_meta = Ok (h, fc, wgs) ∧
    length wgs = 1%nat ∧
    concat (claimed <$> wgs) = od_groups (data_of quad_obj).
Proof.
  assert (sum_batches (groups quad_meta) ≤ Py.len (od_groups (data_of quad_obj)))
    as Hfit by (vm_compute; discriminate).
  destruct (repack_wmo_partition (Ext := plain) (data_of quad_obj) quad_meta Hfit)
    as (_ & h & fc & wgs & Hrun & Hlen & _ & _ & Hcat).
  exists h, fc, wgs. split; [exact Hrun|]. split; [exact Hlen|].
  apply Hcat. vm_compute. reflexivity.
Defined.

(** C5, refuted as stated. The second group of [two_groups_meta] has one
    raw colour layer, [[6]], and the [lastVertex] of its final batch is 0,
    so that [n] is 1: its own layers are [[6]] and [[0]]. The table it
    reads after the reconciliation is [[5; 6]; [0; 0]; []], the cumulative
    one, in which these layers come after those of the first group. *)
Lemma second_group_reads_cumulative_table :
  vertexColours <$> groups two_groups_meta !! 1%nat = Some [[6]] ∧
  (groups two_groups_meta !! 1%nat ≫= λ g, lastVertex <$> last (renderBatches g))
  = Some 0 ∧
  (λ od, group_layers (Ext := plain) od 1 (colour_group 6)) <$> read_obj two_groups_obj
  = Ok ([6], [0]) ∧
  (read_obj (Ext := plain) two_groups_obj ≫= λ od,
   repack_wmo od two_groups_meta ≫=
     λ r : list (list (list Z)) * nat * list (WmoGroup (Ext := plain)),
   of_option IndexError (r.2 !! 1%nat : option (WmoGroup (Ext := plain)))
     ≫= colors_of (Ext := plain) r.1.1)
  = Ok [[5; 6]; [0; 0]; []].
Proof. repeat apply conj; vm_compute; reflexivity. Qed.

Lemma repack_wmo_color_layers_witness :
  ∃ h fc wgs,
    repack_wmo (Ext := plain) (data_of two_groups_obj) two_groups_meta
      = Ok (h, fc, wgs) ∧
    h !! fc = Some [[5; 6]; [0; 0]; []] ∧
    ∀ wg, wg ∈ wgs → 0 < wg_batch_count wg →
      colors_of h wg = Ok [[5; 6]; [0; 0]; []].
Proof.
  destruct (repack_wmo (Ext := plain) (data_of two_groups_obj) two_groups_meta)
    as [[[h fc] wgs]|e] eqn:Hrun.
  - destruct (repack_wmo_color_layers (Ext := plain) _ _ _ _ _ Hrun)
      as (Hh & Hall & _).
    exists h, fc, wgs. split; [reflexivity|]. split.
    + refine (eq_trans Hh _). vm_compute. reflexivity.
    + intros wg Hwg Hbc. refine (eq_trans (Hall wg Hwg Hbc) _).
      vm_compute. reflexivity.
  - exfalso.
    assert (is_ok (repack_wmo (Ext := plain) (data_of two_groups_obj) two_groups_meta)
            = true) as Hok by (vm_compute; reflexivity).
    rewrite Hrun in Hok. discriminate Hok.
Defined.

Lemma first_face_material_witness :
  ∃ st' ex,
    add_face (Ext := plain) (data_of quad_obj) sentinel_mats [sentinel_batch] 0
      quad_builder None (1, 2, 3) = Ok (st', ex) ∧
    ∃ f, (ex ≫= λ bface, bm_faces (b_bm st') !! bface) = Some f ∧
         mat_name <$> b_materials st' !! Z.to_nat (bf_material_index f) = Some "m7".
Proof.
  destruct (add_face (Ext := plain) (data_of quad_obj) sentinel_mats [sentinel_batch] 0
              quad_builder None (1, 2, 3)) as [[st' ex]|e] eqn:Hrun.
  - exists st', ex. split; [reflexivity|].
    destruct (first_face_material (Ext := plain) _ _ _ _ _ _ _ _ Hrun)
      as (batch & mat_ID & mat & bface & f & slot & Hb & _ & _ & _ & Hseven & Hmat
          & -> & Hf & _ & Hslot & Hname).
    injection Hb as <-.
    rewrite (Hseven 0 0 eq_refl eq_refl) in Hmat.
    exists f. split; [exact Hf|]. rewrite Hslot. cbn. rewrite Hname.
    vm_compute in Hmat. injection Hmat as <-. reflexivity.
  - exfalso.
    assert (is_ok (add_face (Ext := plain) (data_of quad_obj) sentinel_mats
                     [sentinel_batch] 0 quad_builder None (1, 2, 3)) = true)
      as Hok by (vm_compute; reflexivity).
    rewrite Hrun in Hok. discriminate Hok.
Defined.

(** C7, refuted as stated. A face record comes before every group record,
    and the reader does not end with the error about faces before a face
    group: a [usemtl] record, or an [o] record without a name, that comes
    first raises IndexError, and the face record is never reached. *)
Lemma earlier_record_hides_face_error :
  no_group ["usemtl m" +:+ nl]%string ∧
  is_record "f" ("f 1 2 3" +:+ nl)%string ∧
  od_groups (Ext := plain) <$> read_obj (obj_of_lines ["usemtl m"; "f 1 2 3"])
  = Raise IndexError ∧
  od_groups (Ext := plain) <$> read_obj (obj_of_lines ["o"; "f 1 2 3"])
  = Raise IndexError.
Proof.
  split; [repeat constructor; vm_compute; discriminate|].
  repeat apply conj; vm_compute; reflexivity.
Qed.

Lemma read_obj_faces_before_group_witness :
  read_obj (Ext := plain) (obj_of_lines ["v 0 0 0"; "f 1 1 1"; "g late"])
    = Raise faces_before_group.
Proof.
  destruct (read_lines (Ext := plain) reader_init ["v 0 0 0" +:+ nl]) as [st|e] eqn:Hpre.
  - refine (proj1 (proj2 (proj1 (read_obj_faces_before_group (Ext := plain)
              (obj_of_lines ["v 0 0 0"; "f 1 1 1"; "g late"])
              ("f 1 1 1" +:+ nl) ["v 0 0 0" +:+ nl] ["g late" +:+ nl] _ _) _)) st Hpre).
    + vm_compute. reflexivity.
    + vm_compute. reflexivity.
    + repeat constructor. vm_compute. discriminate.
  - exfalso.
    assert (is_ok (read_lines (Ext := plain) reader_init ["v 0 0 0" +:+ nl]) = true)
      as Hok by (vm_compute; reflexivity).
    rewrite Hpre in Hok. discriminate Hok.
Defined.

(** C10, refuted as stated. The first [usemtl] record comes before every
    group record, and the reader does not end with IndexError: after a
    face record it ends with the error about faces before a face group,
    raised at that face record, and with a name that does not decode it
    ends with UnicodeDecodeError. *)
Lemma usemtl_before_group_other_errors :
  no_group ["f 1 2 3" +:+ nl]%string ∧
  is_record "usemtl" ("usemtl m" +:+ nl)%string ∧
  od_groups (Ext := plain) <$> read_obj (obj_of_lines ["f 1 2 3"; "usemtl m"])
  = Raise faces_before_group ∧
  od_groups (Ext := ascii_names) <$> read_obj undecodable_name_obj
  = Raise UnicodeDecodeError.
Proof.
  split; [repeat constructor; vm_compute; discriminate|].
  repeat apply conj; vm_compute; reflexivity.
Qed.

Lemma read_obj_usemtl_before_group_witness :
  read_obj (Ext := plain) (obj_of_lines ["v 0 0 0"; "usemtl stone"; "g late"])
    = Raise IndexError.
Proof.
  destruct (read_lines (Ext := plain) reader_init ["v 0 0 0" +:+ nl]) as [st|e] eqn:Hpre.
  - destruct (read_obj_usemtl_before_group (Ext := plain)
                (obj_of_lines ["v 0 0 0"; "usemtl stone"; "g late"])
                ("usemtl stone" +:+ nl) ["v 0 0 0" +:+ nl] ["g late" +:+ nl])
      as [Hbefore _].
    + vm_compute. reflexivity.
    + vm_compute. reflexivity.
    + destruct Hbefore as (_ & _ & Hread).
      { repeat constructor. vm_compute. discriminate. }
      destruct (Hread st Hpre) as (_ & _ & _ & _ & _ & Hname).
      refine (proj2 (Hname "stone" "stone" id _ _)).
      * vm_compute. reflexivity.
      * reflexivity.
  - exfalso.
    assert (is_ok (read_lines (Ext := plain) reader_init ["v 0 0 0" +:+ nl]) = true)
      as Hok by (vm_compute; reflexivity).
    rewrite Hpre in Hok. discriminate Hok.
Defined.

Lemma import_wmo_fatal_checks_witness :
  import_wmo (Ext := plain)
    {| json_path := "quad.json"; json_exists := false; json_load := Raise OSError;
       obj_open := Ok quad_obj; select_all_poll := true |} "quad" None
  = IO [] (Raise (RuntimeError "failed to load metadata from 'quad.json, can't continue")).
Proof.
  exact (proj1 (import_wmo_fatal_checks (Ext := plain)
                  {| json_path := "quad.json"; json_exists := false;
                     json_load := Raise OSError; obj_open := Ok quad_obj;
                     select_all_poll := true |} "quad" None) eq_refl).
Defined.

Lemma lighting_classification_witness :
  ∃ obj,
    wmo_setup_blender_object (Ext := plain)
      (packed_of (data_of quad_obj) quad_meta).1 "000_quad"
      (default WmoGroup_new (head (packed_of (data_of quad_obj) quad_meta).2))
      {[ 0 := mkMat "quad_mat_0" ]} true = Ok (Some obj) ∧
    bo_wmo_lighting_type obj = "UNLIT".
Proof.
  assert ((λ r : option BlenderObject, bool_decide (is_Some r)) <$>
            wmo_setup_blender_object (Ext := plain)
              (packed_of (data_of quad_obj) quad_meta).1 "000_quad"
              (default WmoGroup_new (head (packed_of (data_of quad_obj) quad_meta).2))
              {[ 0 := mkMat "quad_mat_0" ]} true = Ok true)
    as Hok by (vm_compute; reflexivity).
  destruct (wmo_setup_blender_object (Ext := plain)
              (packed_of (data_of quad_obj) quad_meta).1 "000_quad"
              (default WmoGroup_new (head (packed_of (data_of quad_obj) quad_meta).2))
              {[ 0 := mkMat "quad_mat_0" ]} true) as [[obj|]|e] eqn:Hrun;
    [|discriminate Hok..].
  exists obj. split; [reflexivity|].
  destruct (lighting_classification (Ext := plain) _ _ _ _ _ _ Hrun)
    as (jg & Hjg & _ & _ & _ & _ & Hunlit).
  vm_compute in Hjg. injection Hjg as <-.
  apply Hunlit; apply not_elem_of_nil.
Defined.

(** ** Further properties on concrete inputs *)

(** [H] says that a run gives [Ok x]; the run is evaluated and [x] is
    replaced by its value [v]. *)
Ltac evaluated H v :=
  let E := fresh "E" in
  match type of H with
  | ?run = Ok _ => assert (run = Ok v) as E by (vm_compute; reflexivity)
  end;
  rewrite E in H; injection H as <-.

Lemma import_wmo_geometry_failure_witness :
  import_wmo (Ext := quad_ext) locked_world "quad" None
  = IO [EvFromDict; EvReadObj] (Raise OSError).
Proof.
  refine (import_wmo_geometry_failure (Ext := quad_ext) locked_world "quad" None
            quad_meta OSError _ _).
  - vm_compute. reflexivity.
  - reflexivity.
Defined.

Lemma import_wmo_batch_overflow_witness :
  import_wmo (Ext := quad_ext) (sample_world bare_obj) "quad" None
  = IO [EvFromDict; EvReadObj; EvNewMesh "quad"; EvNewObject "quad"]
       (Raise IndexError).
Proof.
  assert ((λ od, Py.len (od_groups (Ext := quad_ext) od)) <$>
            (obj_open (sample_world bare_obj) ≫= read_obj) = Ok 0) as Hlen
    by (vm_compute; reflexivity).
  destruct (obj_open (sample_world bare_obj) ≫= read_obj (Ext := quad_ext))
    as [od|e] eqn:Hrun; [|discriminate Hlen].
  injection Hlen as Hlen.
  refine (import_wmo_batch_overflow (Ext := quad_ext) (sample_world bare_obj) "quad"
            None quad_meta od _ Hrun _).
  - vm_compute. reflexivity.
  - rewrite Hlen. vm_compute. reflexivity.
Defined.

Lemma import_wmo_malformed_document_witness :
  import_wmo (Ext := plain) garbled_world "quad" None = IO [] (Raise JSONDecodeError).
Proof.
  exact (proj1 (import_wmo_malformed_document (Ext := plain) garbled_world "quad" None
                  eq_refl) JSONDecodeError eq_refl).
Defined.

Lemma import_wmo_decode_failure_witness :
  import_wmo (Ext := sample_externals (MissingField "groups"))
    (sample_world quad_obj) "quad" None
  = IO [EvFromDict] (Raise (RuntimeError "groups")).
Proof.
  exact (import_wmo_decode_failure (Ext := sample_externals (MissingField "groups"))
           (sample_world quad_obj) "quad" None
           (JObj [("fileName", JStr "world/sample.wmo")]) (JStr "world/sample.wmo")
           eq_refl eq_refl eq_refl eq_refl eq_refl).
Defined.

Lemma read_obj_contents_witness :
  ∃ od,
    read_obj (Ext := plain) quad_obj = Ok od ∧
    od_verts od = [["0"; "0"; "0"]; ["1"; "0"; "0"]; ["1"; "1"; "0"]; ["0"; "1"; "0"]] ∧
    og_name <$> od_groups od = [Some "batch0"].
Proof.
  destruct (read_obj (Ext := plain) quad_obj) as [od|e] eqn:Hrun.
  - exists od. split; [reflexivity|].
    destruct (read_obj_contents (Ext := plain) quad_obj od Hrun) as (Hv & _ & Hg).
    evaluated Hv [["0"; "0"; "0"]; ["1"; "0"; "0"]; ["1"; "1"; "0"]; ["0"; "1"; "0"]].
    evaluated Hg [Some "batch0"]. split; reflexivity.
  - exfalso.
    assert (is_ok (read_obj (Ext := plain) quad_obj) = true) as Hok
      by (vm_compute; reflexivity).
    rewrite Hrun in Hok. discriminate Hok.
Defined.

Lemma read_obj_verts_cover_witness :
  ∃ od,
    read_obj (Ext := plain) quad_obj = Ok od ∧ Forall verts_cover (od_groups od).
Proof.
  destruct (read_obj (Ext := plain) quad_obj) as [od|e] eqn:Hrun.
  - exists od. split; [reflexivity|].
    exact (read_obj_verts_cover (Ext := plain) quad_obj od Hrun).
  - exfalso.
    assert (is_ok (read_obj (Ext := plain) quad_obj) = true) as Hok
      by (vm_compute; reflexivity).
    rewrite Hrun in Hok. discriminate Hok.
Defined.

Lemma read_obj_group_faces_witness :
  ∃ od,
    read_obj (Ext := plain) quad_obj = Ok od ∧
    og_faces <$> od_groups od = [[(1, 2, 3); (1, 3, 4)]].
Proof.
  destruct (read_obj (Ext := plain) quad_obj) as [od|e] eqn:Hrun.
  - exists od. split; [reflexivity|].
    destruct (read_obj_group_faces (Ext := plain) quad_obj od Hrun) as [_ Hf].
    evaluated Hf [[(1, 2, 3); (1, 3, 4)]]. reflexivity.
  - exfalso.
    assert (is_ok (read_obj (Ext := plain) quad_obj) = true) as Hok
      by (vm_compute; reflexivity).
    rewrite Hrun in Hok. discriminate Hok.
Defined.

Lemma read_obj_more_contents_witness :
  ∃ od,
    read_obj (Ext := plain) (obj_of_lines ["vn 0 0 1"; "vt2 undefined"; "vt3 1 0"])
      = Ok od ∧
    od_normals od = [["0"; "0"; "1"]] ∧ od_uv2 od = [["0.0"; "0.0"]] ∧
    od_uv3 od = [["1"; "0"]].
Proof.
  destruct (read_obj (Ext := plain)
              (obj_of_lines ["vn 0 0 1"; "vt2 undefined"; "vt3 1 0"]))
    as [od|e] eqn:Hrun.
  - exists od. split; [reflexivity|].
    destruct (read_obj_more_contents (Ext := plain) _ od Hrun) as (Hn & H2 & H3).
    evaluated Hn [["0"; "0"; "1"]]. evaluated H2 [["0.0"; "0.0"]].
    evaluated H3 [["1"; "0"]]. repeat apply conj; reflexivity.
  - exfalso.
    assert (is_ok (read_obj (Ext := plain)
                     (obj_of_lines ["vn 0 0 1"; "vt2 undefined"; "vt3 1 0"])) = true)
      as Hok by (vm_compute; reflexivity).
    rewrite Hrun in Hok. discriminate Hok.
Defined.

Lemma read_obj_face_errors_witness :
  read_obj (Ext := plain) short_face_obj = Raise IndexError.
Proof.
  destruct (read_lines (Ext := plain) reader_init ["g a" +:+ nl]) as [st|e] eqn:Hpre.
  - refine (proj2 (proj2 (read_obj_face_errors (Ext := plain) short_face_obj
              ("f 1 2" +:+ nl) ["g a" +:+ nl] [] st _ _ _ Hpre)) [1; 2] _ _).
    + vm_compute. reflexivity.
    + vm_compute. reflexivity.
    + constructor. vm_compute. reflexivity.
    + vm_compute. reflexivity.
    + simpl. lia.
  - exfalso.
    assert (is_ok (read_lines (Ext := plain) reader_init ["g a" +:+ nl]) = true)
      as Hok by (vm_compute; reflexivity).
    rewrite Hpre in Hok. discriminate Hok.
Defined.

Lemma read_obj_missing_argument_witness :
  read_obj (Ext := plain) nameless_obj = Raise IndexError.
Proof.
  destruct (read_lines (Ext := plain) reader_init ["v 0 0 0" +:+ nl]) as [st|e] eqn:Hpre.
  - refine (read_obj_missing_argument (Ext := plain) nameless_obj
              ("usemtl" +:+ nl) "usemtl" ["v 0 0 0" +:+ nl] [] st _ Hpre _ _).
    + vm_compute. reflexivity.
    + vm_compute. reflexivity.
    + apply (bool_decide_unpack _). vm_compute. exact I.
  - exfalso.
    assert (is_ok (read_lines (Ext := plain) reader_init ["v 0 0 0" +:+ nl]) = true)
      as Hok by (vm_compute; reflexivity).
    rewrite Hpre in Hok. discriminate Hok.
Defined.

Lemma slot_metadata_round_trip_witness :
  slot_metadata quad_meta (mkMat "quad_mat_0.001") = Ok (mkMaterial 1 0 0 0).
Proof.
  destruct (slot_metadata_round_trip quad_meta "quad") as (mats & _ & _ & Hall).
  destruct (Hall 0%nat (mkMaterial 1 0 0 0) eq_refl) as (_ & _ & Hsuffix).
  refine (Hsuffix "001" _).
  apply (bool_decide_unpack _). vm_compute. exact I.
Defined.

Lemma import_wmo_objects_witness :
  ∃ tr objs,
    import_wmo (Ext := quad_ext) (sample_world quad_obj) "quad" None
      = IO tr (Ok objs) ∧
    bo_name <$> objs = ["000_quad_g0"] ∧ length objs = 1%nat.
Proof.
  destruct (import_wmo (Ext := quad_ext) (sample_world quad_obj) "quad" None)
    as [tr [objs|e]] eqn:Hrun.
  - exists tr, objs. split; [reflexivity|].
    assert (load_metadata (Ext := quad_ext) (sample_world quad_obj)
            = IO [EvFromDict] (Ok quad_meta)) as Hload by (vm_compute; reflexivity).
    destruct (import_wmo_objects (Ext := quad_ext) _ _ _ _ _ _ Hload Hrun)
      as [Hnames Hcount].
    split; [|exact Hcount]. rewrite Hnames. vm_compute. reflexivity.
  - exfalso.
    assert (is_ok (outcome (import_wmo (Ext := quad_ext) (sample_world quad_obj)
                              "quad" None)) = true) as Hok
      by (vm_compute; reflexivity).
    rewrite Hrun in Hok. discriminate Hok.
Defined.

Lemma import_wmo_success_trace_witness :
  trace (import_wmo (Ext := quad_ext) (sample_world quad_obj) "quad" None)
  = [EvFromDict; EvReadObj; EvNewMesh "quad"; EvNewObject "quad";
     EvNewMaterial "quad_mat_0"; EvSetupObject "000_quad"].
Proof.
  destruct (import_wmo (Ext := quad_ext) (sample_world quad_obj) "quad" None)
    as [tr [objs|e]] eqn:Hrun.
  - assert (load_metadata (Ext := quad_ext) (sample_world quad_obj)
            = IO [EvFromDict] (Ok quad_meta)) as Hload by (vm_compute; reflexivity).
    rewrite (import_wmo_success_trace (Ext := quad_ext) _ _ _ _ _ _ Hload Hrun).
    vm_compute. reflexivity.
  - exfalso.
    assert (is_ok (outcome (import_wmo (Ext := quad_ext) (sample_world quad_obj)
                              "quad" None)) = true) as Hok
      by (vm_compute; reflexivity).
    rewrite Hrun in Hok. discriminate Hok.
Defined.

Lemma mesh_follows_source_witness :
  ∃ obj,
    wmo_setup_blender_object (Ext := plain)
      (packed_of (data_of quad_obj) quad_meta).1 "000_quad"
      (default WmoGroup_new (head (packed_of (data_of quad_obj) quad_meta).2))
      {[ 0 := mkMat "quad_mat_0" ]} true = Ok (Some obj) ∧
    length (bo_faces obj) = 2%nat ∧ length (bo_uv obj) = 2%nat.
Proof.
  assert ((λ r : option BlenderObject, bool_decide (is_Some r)) <$>
            wmo_setup_blender_object (Ext := plain)
              (packed_of (data_of quad_obj) quad_meta).1 "000_quad"
              (default WmoGroup_new (head (packed_of (data_of quad_obj) quad_meta).2))
              {[ 0 := mkMat "quad_mat_0" ]} true = Ok true)
    as Hok by (vm_compute; reflexivity).
  destruct (wmo_setup_blender_object (Ext := plain)
              (packed_of (data_of quad_obj) quad_meta).1 "000_quad"
              (default WmoGroup_new (head (packed_of (data_of quad_obj) quad_meta).2))
              {[ 0 := mkMat "quad_mat_0" ]} true) as [[obj|]|e] eqn:Hrun;
    [|discriminate Hok..].
  exists obj. split; [reflexivity|].
  destruct (mesh_follows_source (Ext := plain) _ _ _ _ _ _ Hrun)
    as (od & batches & _ & Hbatches & Hgeo & _ & Hlen).
  vm_compute in Hbatches. injection Hbatches as <-.
  apply Forall2_length in Hgeo. rewrite Hlen, Hgeo. split; reflexivity.
Defined.

Lemma mesh_wears_batch_materials_witness :
  ∃ obj,
    wmo_setup_blender_object (Ext := plain)
      (packed_of (data_of quad_obj) quad_meta).1 "000_quad"
      (default WmoGroup_new (head (packed_of (data_of quad_obj) quad_meta).2))
      {[ 0 := mkMat "quad_mat_0" ]} true = Ok (Some obj) ∧
    NoDup (mat_name <$> bo_materials obj) ∧
    Forall (λ f, 0 ≤ bf_material_index f) (bo_faces obj).
Proof.
  assert ((λ r : option BlenderObject, bool_decide (is_Some r)) <$>
            wmo_setup_blender_object (Ext := plain)
              (packed_of (data_of quad_obj) quad_meta).1 "000_quad"
              (default WmoGroup_new (head (packed_of (data_of quad_obj) quad_meta).2))
              {[ 0 := mkMat "quad_mat_0" ]} true = Ok true)
    as Hok by (vm_compute; reflexivity).
  destruct (wmo_setup_blender_object (Ext := plain)
              (packed_of (data_of quad_obj) quad_meta).1 "000_quad"
              (default WmoGroup_new (head (packed_of (data_of quad_obj) quad_meta).2))
              {[ 0 := mkMat "quad_mat_0" ]} true) as [[obj|]|e] eqn:Hrun;
    [|discriminate Hok..].
  exists obj. split; [reflexivity|].
  destruct (mesh_wears_batch_materials (Ext := plain) _ _ _ _ _ _ Hrun)
    as (batches & jb & _ & _ & Hwears & Hnd).
  split; [exact Hnd|].
  eapply Forall2_Forall_l; [exact Hwears|].
  apply Forall_forall. intros src _ f (_ & _ & _ & _ & _ & _ & _ & Hpos & _). exact Hpos.
Defined.


Lemma builder_needs_uv_witness :
  ∃ e,
    wmo_setup_blender_object (Ext := plain)
      (first_group no_uv_obj (one_batch_meta 2 [])).1 "000_plain"
      (first_group no_uv_obj (one_batch_meta 2 [])).2
      {[ 0 := mkMat "plain_mat_0" ]} true = Raise e.
Proof.
  refine (builder_needs_uv (Ext := plain)
            (first_group no_uv_obj (one_batch_meta 2 [])).1 "000_plain"
            (first_group no_uv_obj (one_batch_meta 2 [])).2
            {[ 0 := mkMat "plain_mat_0" ]} true
            (data_of no_uv_obj) (od_groups (data_of no_uv_obj)) _ _ _ _ _).
  - vm_compute. discriminate.
  - vm_compute. reflexivity.
  - vm_compute. reflexivity.
  - vm_compute. reflexivity.
  - vm_compute. discriminate.
Defined.

Lemma mesh_colours_follow_source_witness :
  ∃ obj rows,
    wmo_setup_blender_object (Ext := plain)
      (first_group quad_obj quad_meta).1 "000_quad"
      (first_group quad_obj quad_meta).2 {[ 0 := mkMat "quad_mat_0" ]} true
      = Ok (Some obj) ∧
    bo_vcols obj = Some rows ∧ length rows = 2%nat.
Proof.
  assert ((λ r : option BlenderObject, bool_decide (is_Some r)) <$>
            wmo_setup_blender_object (Ext := plain)
              (first_group quad_obj quad_meta).1 "000_quad"
              (first_group quad_obj quad_meta).2 {[ 0 := mkMat "quad_mat_0" ]} true
          = Ok true)
    as Hok by (vm_compute; reflexivity).
  destruct (wmo_setup_blender_object (Ext := plain)
              (first_group quad_obj quad_meta).1 "000_quad"
              (first_group quad_obj quad_meta).2 {[ 0 := mkMat "quad_mat_0" ]} true)
    as [[obj|]|e] eqn:Hrun; [|discriminate Hok..].
  destruct (mesh_colours_follow_source (Ext := plain) _ _ _ _ _ _ Hrun)
    as (batches & table & Hbatches & Htable & Hrows).
  vm_compute in Hbatches. injection Hbatches as <-.
  vm_compute in Htable. injection Htable as <-.
  destruct (bo_vcols obj) as [rows|] eqn:Hvcols.
  - exists obj, rows. split; [reflexivity|]. split; [exact Hvcols|].
    destruct Hrows as [_ Hrows]. apply Forall2_length in Hrows. exact Hrows.
  - exfalso. vm_compute in Hrows. discriminate Hrows.
Defined.

Lemma read_obj_errors_witness :
  ∃ e, read_obj (Ext := plain) short_face_obj = Raise e ∧ reader_error e.
Proof.
  destruct (read_obj (Ext := plain) short_face_obj) as [od|e] eqn:Hrun.
  - exfalso.
    assert (is_ok (read_obj (Ext := plain) short_face_obj) = false) as Hok
      by (vm_compute; reflexivity).
    rewrite Hrun in Hok. discriminate Hok.
  - exists e. split; [reflexivity|].
    exact (proj1 (read_obj_errors (Ext := plain) short_face_obj e Hrun)).
Defined.

